(** * SharePoint connector and dropbox command of the ingest package

    A shallow embedding of
    - [unstructured/ingest/connector/sharepoint.py]: the connector
      configuration, the ingest document (extension check, download paths,
      fetch of files and pages) and the connector's enumeration;
    - [unstructured/ingest/cli/cmds/dropbox.py]: the command handler.

    Python values are modelled as the code uses them: [str] as [string],
    [None]-able values as [option], unbounded [int] as [Z], exceptions as
    an inductive type, and effectful code (file system, network, logger) in
    a state-and-exception monad over an explicit [World]. *)

From Stdlib Require Import ZArith Ascii String List Lia Bool.
From stdpp Require Import base option gmap strings list pretty.

Local Open Scope string_scope.
Local Open Scope list_scope.

(** ** Python strings *)

Module PyStr.

Definition truthy (s : string) : bool :=
  match s with EmptyString => false | String _ _ => true end.

(** [s[1:]] *)
Definition tail (s : string) : string :=
  match s with EmptyString => EmptyString | String _ r => r end.

Fixpoint take (n : nat) (s : string) : string :=
  match n, s with
  | S k, String c r => String c (take k r)
  | _, _ => EmptyString
  end.

Fixpoint drop (n : nat) (s : string) : string :=
  match n, s with
  | S k, String _ r => drop k r
  | _, _ => s
  end.

(** [s[:-n]]; Python reads [s[:-0]] as [s[:0]]. *)
Definition slice_to_neg (n : nat) (s : string) : string :=
  match n with
  | O => EmptyString
  | S _ => take (String.length s - n) s
  end.

(** [s.split(sep)] for a one-character separator: never empty. *)
Fixpoint split (sep : ascii) (s : string) : list string :=
  match s with
  | EmptyString => [EmptyString]
  | String c r =>
      if Ascii.eqb c sep then EmptyString :: split sep r
      else match split sep r with
           | [] => [String c EmptyString]
           | w :: ws => String c w :: ws
           end
  end.

(** [sep.join(l)] *)
Fixpoint join (sep : string) (l : list string) : string :=
  match l with
  | [] => EmptyString
  | [x] => x
  | x :: r => x +:+ sep +:+ join sep r
  end.

(** [s.lstrip(c)] *)
Fixpoint lstrip (c : ascii) (s : string) : string :=
  match s with
  | String d r => if Ascii.eqb d c then lstrip c r else s
  | EmptyString => EmptyString
  end.

Fixpoint endswith_char (c : ascii) (s : string) : bool :=
  match s with
  | EmptyString => false
  | String d EmptyString => Ascii.eqb d c
  | String _ r => endswith_char c r
  end.

Definition startswith_char (c : ascii) (s : string) : bool :=
  match s with
  | String d _ => Ascii.eqb d c
  | EmptyString => false
  end.

Fixpoint contains_char (c : ascii) (s : string) : bool :=
  match s with
  | EmptyString => false
  | String d r => Ascii.eqb d c || contains_char c r
  end.

(** [s.rfind(c)]: the last index of [c], [None] for Python's [-1]. *)
Fixpoint rfind_from (c : ascii) (i : nat) (s : string) : option nat :=
  match s with
  | EmptyString => None
  | String d r =>
      match rfind_from c (S i) r with
      | Some j => Some j
      | None => if Ascii.eqb d c then Some i else None
      end
  end.

Definition rfind (c : ascii) (s : string) : option nat := rfind_from c 0 s.

End PyStr.

(** ** Exceptions *)

(** The exceptions the modelled code raises or meets.  All but
    [KeyboardInterrupt] derive from [Exception]. *)
Inductive exn : Type :=
  | ValueError (msg : string)
  | TypeError (msg : string)
  | KeyError (key : string)
  | IndexError (msg : string)
  | AttributeError (attr : string)
  | ImportError (msg : string)
  | FrozenInstanceError (attr : string)
  | FileExistsError (path : string)
  | FileNotFoundError (path : string)
  | NotADirectoryError (path : string)
  | IsADirectoryError (path : string)
  | MissingDependencyError (package : string)
  | ClientRequestException (status : Z)
  | KeyboardInterrupt.

(** [isinstance(e, Exception)] *)
Definition is_Exception (e : exn) : bool :=
  match e with
  | KeyboardInterrupt => false
  | _ => true
  end.

(** [str(e)], as the logger prints it. *)
Definition exn_str (e : exn) : string :=
  match e with
  | ValueError m | TypeError m | IndexError m | ImportError m => m
  | KeyError k => "'" +:+ k +:+ "'"
  | AttributeError a => "object has no attribute '" +:+ a +:+ "'"
  | FrozenInstanceError a => "cannot assign to field '" +:+ a +:+ "'"
  | FileExistsError p => "[Errno 17] File exists: '" +:+ p +:+ "'"
  | FileNotFoundError p => "[Errno 2] No such file or directory: '" +:+ p +:+ "'"
  | NotADirectoryError p => "[Errno 20] Not a directory: '" +:+ p +:+ "'"
  | IsADirectoryError p => "[Errno 21] Is a directory: '" +:+ p +:+ "'"
  | MissingDependencyError p => "missing dependency: " +:+ p
  | ClientRequestException _ => "ClientRequestException"
  | KeyboardInterrupt => ""
  end.

Inductive Res (A : Type) : Type :=
  | Ok (a : A)
  | Raise (e : exn).
Arguments Ok {A} a.
Arguments Raise {A} e.

(** ** pathlib (pure POSIX paths) *)

Module Pathlib.

(** The root of a POSIX path: none, [/], or exactly two slashes. *)
Inductive root : Type := NoRoot | Slash | DoubleSlash.

Record Path : Type := mkPath { p_root : root; p_parts : list string }.

Definition root_str (r : root) : string :=
  match r with NoRoot => "" | Slash => "/" | DoubleSlash => "//" end.

Definition splitroot (s : string) : root :=
  match s with
  | String "/" (String "/" (String "/" _)) => Slash
  | String "/" (String "/" _) => DoubleSlash
  | String "/" _ => Slash
  | _ => NoRoot
  end.

Definition keep_part (x : string) : bool :=
  PyStr.truthy x && negb (String.eqb x ".").

(** [Path(s)] *)
Definition of_str (s : string) : Path :=
  mkPath (splitroot s) (List.filter keep_part (PyStr.split "/" s)).

(** [str(p)] *)
Definition to_str (p : Path) : string :=
  match p_root p, p_parts p with
  | NoRoot, [] => "."
  | r, ps => root_str r +:+ PyStr.join "/" ps
  end.

(** [p / q] *)
Definition joinpath (p q : Path) : Path :=
  match p_root q with
  | NoRoot => mkPath (p_root p) (p_parts p ++ p_parts q)
  | _ => q
  end.

(** [p.parent] *)
Definition parent (p : Path) : Path :=
  mkPath (p_root p) (removelast (p_parts p)).

(** [p.name] *)
Definition name (p : Path) : string := List.last (p_parts p) "".

(** [p.suffixes] *)
Definition suffixes (p : Path) : list string :=
  let n := name p in
  if PyStr.endswith_char "." n then []
  else List.map (fun s => "." +:+ s) (List.tl (PyStr.split "." (PyStr.lstrip "." n))).

(** [p.suffix] *)
Definition suffix (p : Path) : string :=
  let n := name p in
  match PyStr.rfind "." n with
  | Some i =>
      if (0 <? i)%nat && (i <? String.length n - 1)%nat then PyStr.drop i n else ""
  | None => ""
  end.

(** [p.with_suffix(sfx)] *)
Definition with_suffix (p : Path) (sfx : string) : Res Path :=
  if PyStr.contains_char "/" sfx then
    Raise (ValueError ("Invalid suffix '" +:+ sfx +:+ "'"))
  else if (PyStr.truthy sfx && negb (PyStr.startswith_char "." sfx))
          || String.eqb sfx "." then
    Raise (ValueError ("Invalid suffix '" +:+ sfx +:+ "'"))
  else
    let n := name p in
    if negb (PyStr.truthy n) then
      Raise (ValueError ("PosixPath('" +:+ to_str p +:+ "') has an empty name"))
    else
      let old := suffix p in
      let n' := if PyStr.truthy old
                then PyStr.slice_to_neg (String.length old) n +:+ sfx
                else n +:+ sfx in
      Ok (mkPath (p_root p) (removelast (p_parts p) ++ [n'])).

(** The chain of proper ancestors of [p], nearest first. *)
Fixpoint ancestors_of (r : root) (rev_parts : list string) : list Path :=
  match rev_parts with
  | [] => []
  | _ :: rest => mkPath r (List.rev rest) :: ancestors_of r rest
  end.

Definition parents (p : Path) : list Path :=
  ancestors_of (p_root p) (List.rev (p_parts p)).

End Pathlib.

Import Pathlib.

(** ** The world: file system, network trace, logger *)

Inductive Node : Type :=
  | Dir
  | RegFile (content : string).

Inductive NetCall : Type :=
  | NetDownload (url : string)
  | NetDownloadSession (url : string) (chunk_size : Z)
  | NetListItemFields (url : string) (labels : list string).

Inductive LogLevel : Type := DEBUG | INFO | ERROR.

Record World : Type := mkWorld {
  fs : gmap string Node;
  net : list NetCall;
  logs : list (LogLevel * string)
}.

Definition set_fs (w : World) (m : gmap string Node) : World :=
  mkWorld m (net w) (logs w).

(** State-and-exception monad: a raised exception keeps the world reached. *)
Definition M (A : Type) : Type := World -> Res A * World.

Definition ret {A} (a : A) : M A := fun w => (Ok a, w).

Definition raise {A} (e : exn) : M A := fun w => (Raise e, w).

Definition bind {A B} (m : M A) (k : A -> M B) : M B :=
  fun w => match m w with
           | (Ok a, w') => k a w'
           | (Raise e, w') => (Raise e, w')
           end.

Definition lift {A} (r : Res A) : M A := fun w => (r, w).

#[global] Instance Res_ret : MRet Res := @Ok.
#[global] Instance Res_bind : MBind Res :=
  fun A B k r => match r with Ok a => k a | Raise e => Raise e end.

#[global] Instance M_ret : MRet M := @ret.
#[global] Instance M_bind : MBind M := fun A B k m => bind m k.

(** [try: body  except Exception as e: handler(e)] *)
Definition try_except {A} (body : M A) (handler : exn -> M A) : M A :=
  fun w => match body w with
           | (Ok a, w') => (Ok a, w')
           | (Raise e, w') => if is_Exception e then handler e w' else (Raise e, w')
           end.

Definition log (l : LogLevel) (msg : string) : M unit :=
  fun w => (Ok tt, mkWorld (fs w) (net w) (logs w ++ [(l, msg)])).

Definition net_call (c : NetCall) : M unit :=
  fun w => (Ok tt, mkWorld (fs w) (net w ++ [c]) (logs w)).

(** [for x in l: f(x)] collecting results, stopping at the first raise. *)
Fixpoint mapM {A B} (f : A -> M B) (l : list A) : M (list B) :=
  match l with
  | [] => mret []
  | x :: r => y ← f x; ys ← mapM f r; mret (y :: ys)
  end.

Module FS.

(** A path without parts is the root (or the working directory). *)
Definition lookup (p : Path) (w : World) : option Node :=
  match p_parts p with
  | [] => Some Dir
  | _ => fs w !! to_str p
  end.

(** [p.is_dir()] *)
Definition is_dir (p : Path) (w : World) : bool :=
  match lookup p w with Some Dir => true | _ => false end.

(** [p.is_file()] *)
Definition is_file (p : Path) (w : World) : bool :=
  match lookup p w with Some (RegFile _) => true | _ => false end.

(** [p.stat().st_size] *)
Definition stat_size (p : Path) : M nat :=
  fun w => match lookup p w with
           | Some (RegFile c) => (Ok (String.length c), w)
           | Some Dir => (Ok 4096%nat, w)  (* a directory entry; never read *)
           | None => (Raise (FileNotFoundError (to_str p)), w)
           end.

(** Resolution of the directories leading to [p], from the root down. *)
Fixpoint walk (p : Path) (from_root : list Path) (w : World) : option exn :=
  match from_root with
  | [] => None
  | a :: r =>
      match lookup a w with
      | Some Dir => walk p r w
      | Some (RegFile _) => Some (NotADirectoryError (to_str p))
      | None => Some (FileNotFoundError (to_str p))
      end
  end.

(** [os.mkdir(p)] *)
Definition os_mkdir (p : Path) : M unit :=
  fun w => match walk p (List.rev (parents p)) w with
           | Some e => (Raise e, w)
           | None =>
               match lookup p w with
               | Some _ => (Raise (FileExistsError (to_str p)), w)
               | None => (Ok tt, set_fs w (<[to_str p := Dir]> (fs w)))
               end
           end.

(** [p.mkdir(parents=False, exist_ok=True)] *)
Definition mkdir_exist_ok (p : Path) : M unit :=
  fun w => match os_mkdir p w with
           | (Raise (FileNotFoundError m), w') => (Raise (FileNotFoundError m), w')
           | (Raise e, w') => if is_dir p w' then (Ok tt, w') else (Raise e, w')
           | r => r
           end.

(** [p.mkdir(parents=True, exist_ok=True)], by recursion on the parts of
    [p] read from the last one. *)
Fixpoint mkdir_rec (r : root) (rev_parts : list string) : M unit :=
  let p := mkPath r (List.rev rev_parts) in
  fun w => match os_mkdir p w with
           | (Raise (FileNotFoundError m), w') =>
               match rev_parts with
               | [] => (Raise (FileNotFoundError m), w')
               | _ :: rest =>
                   match mkdir_rec r rest w' with
                   | (Ok _, w'') => mkdir_exist_ok p w''
                   | (Raise e, w'') => (Raise e, w'')
                   end
               end
           | (Raise e, w') => if is_dir p w' then (Ok tt, w') else (Raise e, w')
           | r => r
           end.

Definition mkdir_parents_exist_ok (p : Path) : M unit :=
  mkdir_rec (p_root p) (List.rev (p_parts p)).

(** [p.open(mode="w")]: creates or truncates the file. *)
Definition open_w (p : Path) : M unit :=
  fun w => match walk p (List.rev (parents p)) w with
           | Some e => (Raise e, w)
           | None =>
               match lookup p w with
               | Some Dir => (Raise (IsADirectoryError (to_str p)), w)
               | _ => (Ok tt, set_fs w (<[to_str p := RegFile ""]> (fs w)))
               end
           end.

(** [f.write(data)] on the handle opened at [p]. *)
Definition write (p : Path) (data : string) : M unit :=
  fun w => match fs w !! to_str p with
           | Some (RegFile c) =>
               (Ok tt, set_fs w (<[to_str p := RegFile (c +:+ data)]> (fs w)))
           | _ => (Ok tt, set_fs w (<[to_str p := RegFile data]> (fs w)))
           end.

End FS.

(** ** What the module imports *)

(** Library functions and tables the module uses but does not define. *)
Class Externals : Type := {
  (** the keys of [unstructured.file_utils.filetype.EXT_TO_FILETYPE], in
      the dict's order; the source filters [None] out of them before
      printing, so a key may be [None] *)
  EXT_TO_FILETYPE_keys : list (option string);
  (** [Path.resolve()] *)
  resolve : Path -> Path;
  (** [html.unescape] *)
  unescape : string -> string;
  (** [urllib.parse.urlparse(url).path] *)
  urlparse_path : string -> string;
  (** whether a package can be imported *)
  has_dependency : string -> bool;
}.

(** ** [SimpleSharepointConfig] *)

(** Truthiness of a value that is a [str] or [None]. *)
Definition truthy_opt (v : option string) : bool :=
  match v with Some s => PyStr.truthy s | None => false end.

Module SimpleSharepointConfig.

Record t : Type := mk {
  client_id : option string;
  client_credential : option string;
  site_url : option string;
  path : string;
  process_all : bool;
  process_pages : bool;
  recursive : bool
}.

Definition mandatory_msg : string :=
  "Please provide one of the following mandatory values:
-ms-client_id
-ms-client_cred
-ms-sharepoint-site".

Definition __post_init__ (self : t) : Res unit :=
  if negb (truthy_opt (client_id self)
           && truthy_opt (client_credential self)
           && truthy_opt (site_url self))
  then Raise (ValueError mandatory_msg)
  else Ok tt.

(** The constructor the [@dataclass] decorator generates: it stores the
    fields and runs [__post_init__]; the object is returned only when
    that returns. *)
Definition new (client_id client_credential site_url : option string)
    (path : string) (process_all process_pages recursive : bool) : Res t :=
  let self := mk client_id client_credential site_url path
                 process_all process_pages recursive in
  _ ← __post_init__ self; Ok self.

(** The class is decorated with a bare [@dataclass]: [frozen] keeps its
    default. *)
Definition frozen : bool := false.

Inductive field : Type := f_client_id | f_client_credential | f_site_url.

Definition field_name (f : field) : string :=
  match f with
  | f_client_id => "client_id"
  | f_client_credential => "client_credential"
  | f_site_url => "site_url"
  end.

Definition update (self : t) (f : field) (v : option string) : t :=
  match f with
  | f_client_id =>
      mk v (client_credential self) (site_url self) (path self)
         (process_all self) (process_pages self) (recursive self)
  | f_client_credential =>
      mk (client_id self) v (site_url self) (path self)
         (process_all self) (process_pages self) (recursive self)
  | f_site_url =>
      mk (client_id self) (client_credential self) v (path self)
         (process_all self) (process_pages self) (recursive self)
  end.

(** [self.<f> = v] on an instance: a frozen dataclass refuses it, any
    other stores the value ([__post_init__] does not run again). *)
Definition setattr (self : t) (f : field) (v : option string) : Res t :=
  if frozen then Raise (FrozenInstanceError (field_name f))
  else Ok (update self f v).

End SimpleSharepointConfig.

(** ** What the SharePoint client returns *)

(** What the server does with a download into an open handle: the bytes
    it writes, and the error that ends the transfer, if any. *)
Record Transfer : Type := mkTransfer {
  t_written : string;
  t_error : option exn
}.

(** The two properties [_get_page] selects; [None] when the property is
    missing or null. *)
Record PageFields : Type := mkPageFields {
  LayoutWebpartsContent1 : option string;
  CanvasContent1 : option string
}.

(** An [office365] [File] object with the server's answers to the queries
    the connector makes on it. *)
Record File : Type := mkFile {
  name : string;
  serverRelativeUrl : string;
  (** [properties.get("size")] *)
  size : option Z;
  (** [download(f).execute_query()] *)
  download : Transfer;
  (** [download_session(f, chunk_size=...).execute_query()] *)
  download_session : Transfer;
  (** [listItemAllFields.select(...).get().execute_query()] *)
  listItemAllFields : Res PageFields
}.

(** The [meta] dict of a page record, as [_list_pages] builds it. *)
Record Meta : Type := mkMeta {
  url : string;
  site_path : option string
}.

(** The part of [StandardConnectorConfig] the connector reads. *)
Record StandardConnectorConfig : Type := mkStandardConfig {
  sc_download_dir : string;
  sc_output_dir : string
}.

(** ** [SharepointIngestDoc] *)

Definition MAX_MB_SIZE : Z := 512000000.

Module SharepointIngestDoc.
Section WithExternals.
Context `{Externals}.

Record t : Type := mk {
  standard_config : StandardConnectorConfig;
  config : SimpleSharepointConfig.t;
  file : File;
  meta : option Meta;
  ext : string;
  download_dir : Path;
  download_filepath : Path;
  output_dir : Path;
  output_filepath : Path
}.

(** [self.ext in EXT_TO_FILETYPE.keys()] *)
Definition ext_known (e : string) : bool :=
  existsb (fun k => match k with Some s => String.eqb s e | None => false end)
          EXT_TO_FILETYPE_keys.

Definition no_extension_msg : string := "Unsupported file without extension.".

Definition not_supported_msg : string :=
  "Extension not supported. Value MUST be one of "
  +:+ PyStr.join ", " (omap id EXT_TO_FILETYPE_keys) +:+ ".".

(** The extension [__post_init__] assigns. *)
Definition assigned_ext (file : File) (meta : option Meta) : string :=
  match meta with
  | None => PyStr.join "" (suffixes (of_str (name file)))
  | Some _ => ".html"
  end.

(** [_set_download_paths]: the four paths it assigns, in the order
    [download_dir], [download_filepath], [output_dir],
    [output_filepath]. *)
Definition _set_download_paths (sc : StandardConnectorConfig) (file : File)
    (meta : option Meta) (ext : string) : Res (Path * Path * Path * Path) :=
  let download_path := of_str (sc_download_dir sc) in
  let output_path := of_str (sc_output_dir sc) in
  parent ← match meta with
           | Some m =>
               match site_path m with
               | None => with_suffix (of_str (url m)) ext
               | Some sp => with_suffix (of_str (sp +:+ "/" +:+ url m)) ext
               end
           | None => Ok (of_str (PyStr.tail (serverRelativeUrl file)))
           end;
  let oname := PyStr.slice_to_neg (String.length ext) (to_str parent) +:+ ".json" in
  Ok (resolve (joinpath download_path (Pathlib.parent parent)),
      resolve (joinpath download_path parent),
      resolve (joinpath output_path (Pathlib.parent parent)),
      resolve (joinpath output_path (of_str oname))).

(** [SharepointIngestDoc(standard_config, config, file, meta)]: the
    generated constructor followed by [__post_init__]. *)
Definition new (sc : StandardConnectorConfig) (cfg : SimpleSharepointConfig.t)
    (file : File) (meta : option Meta) : Res t :=
  let ext := assigned_ext file meta in
  if negb (PyStr.truthy ext) then Raise (ValueError no_extension_msg)
  else if negb (ext_known ext) then Raise (ValueError not_supported_msg)
  else
    '(ddir, dfile, odir, ofile) ← _set_download_paths sc file meta ext;
    Ok (mk sc cfg file meta ext ddir dfile odir ofile).

(** The [filename] property. *)
Definition filename (self : t) : Path := resolve (download_filepath self).

(** The [_output_filename] property. *)
Definition _output_filename (self : t) : Path := resolve (output_filepath self).

Definition is_dir (p : Path) : M bool := fun w => (Ok (FS.is_dir p w), w).

(** A download into the handle opened at [p]: the request goes out, the
    server's bytes reach the file, and its error, if any, is raised. *)
Definition transfer (p : Path) (call : NetCall) (t : Transfer) : M unit :=
  net_call call;;
  FS.write p (t_written t);;
  match t_error t with
  | Some e => raise e
  | None => mret tt
  end.

Definition error_msg (self : t) : string :=
  "Error while downloading and saving file: " +:+ to_str (filename self) +:+ ".".

Definition downloaded_msg (self : t) : string :=
  "File downloaded: " +:+ to_str (filename self).

(** The [except Exception as e] clause shared by both fetches: two error
    records, then [return]. *)
Definition on_error (self : t) (e : exn) : M bool :=
  log ERROR (error_msg self);;
  log ERROR (exn_str e);;
  mret false.

(** The methods below pass the record explicitly: each returns the
    record as the call leaves it (the Python methods return [None]).
    Neither body assigns to an attribute of [self]. *)

(** The [try] block of [_get_page]. *)
Definition _get_page_try (self : t) : M bool :=
  let content_labels := ["CanvasContent1"; "LayoutWebpartsContent1"] in
  net_call (NetListItemFields (serverRelativeUrl (file self)) content_labels);;
  content ← lift (listItemAllFields (file self));
  let pld := default "" (LayoutWebpartsContent1 content)
             +:+ default "" (CanvasContent1 content) in
  pld ← (if negb (String.eqb pld "") then mret (unescape pld)
         else
           m ← lift (match meta self with
                     | Some m => Ok m
                     | None => Raise (TypeError "'NoneType' object is not subscriptable")
                     end);
           log INFO ("Page " +:+ url m
                     +:+ " as it has no retrievable content. Dumping empty doc.");;
           mret "<div></div>");
  FS.mkdir_parents_exist_ok (output_dir self);;
  d ← is_dir (download_dir self);
  (if negb d then
     log DEBUG ("Creating directory: " +:+ to_str (download_dir self));;
     FS.mkdir_parents_exist_ok (download_dir self)
   else mret tt);;
  FS.open_w (filename self);;
  FS.write (filename self) pld;;
  mret true.

Definition _get_page (self : t) : M t :=
  completed ← try_except (_get_page_try self) (on_error self);
  (if (completed : bool) then log INFO (downloaded_msg self) else mret tt);;
  mret self.

(** [1024 * 1024 * 100] *)
Definition chunk_size : Z := 1024 * 1024 * 100.

(** The [try] block of [_get_file]. *)
Definition _get_file_try (self : t) : M bool :=
  let fsize := default 0%Z (size (file self)) in
  FS.mkdir_parents_exist_ok (output_dir self);;
  d ← is_dir (download_dir self);
  (if negb d then
     log DEBUG ("Creating directory: " +:+ to_str (download_dir self));;
     FS.mkdir_parents_exist_ok (download_dir self)
   else mret tt);;
  (if (fsize >? MAX_MB_SIZE)%Z then
     log INFO ("Downloading file with size: " +:+ pretty fsize +:+ " bytes in chunks");;
     FS.open_w (filename self);;
     transfer (filename self)
              (NetDownloadSession (serverRelativeUrl (file self)) chunk_size)
              (download_session (file self))
   else
     FS.open_w (filename self);;
     transfer (filename self)
              (NetDownload (serverRelativeUrl (file self)))
              (download (file self)));;
  mret true.

Definition _get_file (self : t) : M t :=
  completed ← try_except (_get_file_try self) (on_error self);
  (if (completed : bool) then log INFO (downloaded_msg self) else mret tt);;
  mret self.

(** Modelled from the spec: [BaseIngestDoc.skip_if_file_exists], the
    decorator of [unstructured.ingest.interfaces] that [get_file] is
    wrapped in.  Before fetching it checks whether the download path
    exists and is non-empty; if so the fetch is skipped and logged, and
    the call returns without contacting the source. *)
Definition skip_if_file_exists (func_name : string) (func : t -> M t) (self : t) : M t :=
  fun w =>
    if FS.is_file (filename self) w then
      match FS.stat_size (filename self) w with
      | (Ok n, w') =>
          if (0 <? n)%nat then
            (log DEBUG ("File exists: " +:+ to_str (filename self)
                        +:+ ", skipping " +:+ func_name);;
             mret self) w'
          else func self w'
      | (Raise e, w') => (Raise e, w')
      end
    else func self w.

(** Modelled from the spec: [requires_dependencies] of
    [unstructured.utils]: a capability check made before the wrapped
    function runs; a missing package fails with a missing-dependency
    error. *)
Definition requires_dependencies {A B} (deps : list string) (func : A -> M B)
    (a : A) : M B :=
  match List.filter (fun d => negb (has_dependency d)) deps with
  | [] => func a
  | d :: _ => raise (MissingDependencyError d)
  end.

Definition get_file : t -> M t :=
  skip_if_file_exists "get_file"
    (requires_dependencies ["office365"]
       (fun self =>
          match meta self with
          | None => _get_file self
          | Some _ => _get_page self
          end)).

End WithExternals.
End SharepointIngestDoc.

(** ** [SharepointConnector] *)

(** A folder handle with the server's answers: the [Exists] property and
    the result of expanding [Files] and [Folders]. *)
#[warnings="-register-all"]
Inductive Folder : Type :=
  mkFolder (f_exists : Res bool) (f_expand : Res (list File * list Folder)).

Definition f_exists (f : Folder) : Res bool :=
  match f with mkFolder e _ => e end.

Definition f_expand (f : Folder) : Res (list File * list Folder) :=
  match f with mkFolder _ x => x end.

(** A page of the site's page listing; [page_Url] is
    [get_property("Url", None)]. *)
Record PageMeta : Type := mkPageMeta { page_Url : option string }.

(** A client context for one site. *)
Record Site : Type := mkSite {
  base_url : string;
  get_folder_by_server_relative_path : string -> Folder;
  (** [site_pages.pages.get().execute_query()] *)
  site_pages : Res (list PageMeta);
  get_file_by_server_relative_path : string -> File
}.

Module SharepointConnector.
Section WithExternals.
Context `{Externals}.

(** [_list_objects] as the base classes [ConnectorCleanupMixin] and
    [BaseConnector] provide it; [None] when neither defines it.  The
    class body of [SharepointConnector] itself defines [__init__],
    [_setup_client], [_list_files], [_list_pages], [initialize],
    [_ingest_site_docs], [_filter_site_url] and [get_ingest_docs]. *)
Variable inherited_list_objects : option (Folder -> bool -> M (list File)).

Record t : Type := mk {
  standard_config : StandardConnectorConfig;
  config : SimpleSharepointConfig.t
}.

(** The attribute lookup [self._list_objects]. *)
Definition getattr_list_objects : M (Folder -> bool -> M (list File)) :=
  match inherited_list_objects with
  | Some g => mret g
  | None => raise (AttributeError "_list_objects")
  end.

(** The loop [for f in folder.folders: files += self._list_objects(f, recursive)]. *)
Fixpoint _list_files_loop (folders : list Folder) (recursive : bool)
    (files : list File) : M (list File) :=
  match folders with
  | [] => mret files
  | f :: rest =>
      g ← getattr_list_objects;
      more ← g f recursive;
      _list_files_loop rest recursive (files ++ more)
  end.

Definition _list_files (root : Folder) (recursive : bool) : M (list File) :=
  '(files, folders) ← lift (f_expand root);
  if negb recursive then mret files
  else _list_files_loop folders recursive files.

(** [site_path] as the loop of [_list_pages] computes it. *)
Definition page_site_path (site_client : Site) : option string :=
  let spath := urlparse_path (base_url site_client) in
  if PyStr.truthy spath && negb (String.eqb spath "/")
  then Some (PyStr.tail spath)
  else None.

(** [page_url[0]] *)
Definition first_char (s : string) : Res ascii :=
  match s with
  | String c _ => Ok c
  | EmptyString => Raise (IndexError "string index out of range")
  end.

(** The [for page_meta in pages] loop; [pfiles] is the list built so far. *)
Fixpoint _list_pages_loop (site_client : Site) (pages : list PageMeta)
    (pfiles : list (File * Meta)) : M (list (File * Meta)) :=
  match pages with
  | [] => mret pfiles
  | page_meta :: rest =>
      match page_Url page_meta with
      | None =>
          log INFO "Missing site_url. Omitting page... ";;
          mret pfiles
      | Some u =>
          c ← lift (first_char u);
          let page_url := if negb (Ascii.eqb c "/") then "/" +:+ u else u in
          let file_page := get_file_by_server_relative_path site_client page_url in
          let site_path := page_site_path site_client in
          _list_pages_loop site_client rest
            (pfiles ++ [(file_page, mkMeta u site_path)])
      end
  end.

Definition _list_pages (site_client : Site) : M (list (File * Meta)) :=
  pages ← lift (site_pages site_client);
  _list_pages_loop site_client pages [].

Definition skipping_msg (self : t) (site_client : Site) : string :=
  "Folder " +:+ SimpleSharepointConfig.path (config self)
  +:+ " does not exist. Skipping site " +:+ base_url site_client.

(** [[SharepointIngestDoc(self.standard_config, self.config, f, None) for f in files]] *)
Definition file_docs (self : t) (files : list File) : M (list SharepointIngestDoc.t) :=
  mapM (fun f => lift (SharepointIngestDoc.new
                         (standard_config self) (config self) f None))
       files.

(** [[SharepointIngestDoc(self.standard_config, self.config, f[0], f[1]) for f in page_files]] *)
Definition page_docs (self : t) (page_files : list (File * Meta))
    : M (list SharepointIngestDoc.t) :=
  mapM (fun f => lift (SharepointIngestDoc.new
                         (standard_config self) (config self) (fst f) (Some (snd f))))
       page_files.

Definition _ingest_site_docs (self : t) (site_client : Site)
    : M (list SharepointIngestDoc.t) :=
  let root_folder :=
    get_folder_by_server_relative_path site_client
      (SimpleSharepointConfig.path (config self)) in
  e ← lift (f_exists root_folder);
  if (e : bool) then
    log INFO (skipping_msg self site_client);;
    mret []
  else
    files ← _list_files root_folder (SimpleSharepointConfig.recursive (config self));
    output ← file_docs self files;
    if SimpleSharepointConfig.process_pages (config self) then
      page_files ← _list_pages site_client;
      page_output ← page_docs self page_files;
      mret (output ++ page_output)
    else mret output.

End WithExternals.
End SharepointConnector.

(** ** The [dropbox] command *)

Module Dropbox.

(** Values of the options mapping. *)
Inductive value : Type :=
  | VBool (b : bool)
  | VStr (s : string)
  | VNone.

Definition truthy (v : value) : bool :=
  match v with
  | VBool b => b
  | VStr s => PyStr.truthy s
  | VNone => false
  end.

(** The option declarations that decorate the handler, in source order. *)
Definition declared_flags : list string := ["--recursive"; "--remote-url"; "--token"].

(** The parameter name click derives from a long flag: the leading
    dashes go, the others become underscores. *)
Fixpoint dashes_to_underscores (s : string) : string :=
  match s with
  | EmptyString => EmptyString
  | String c r =>
      String (if Ascii.eqb c "-" then "_"%char else c) (dashes_to_underscores r)
  end.

Definition click_name (flag : string) : string :=
  dashes_to_underscores (PyStr.lstrip "-" flag).

Definition declared_options : list string := List.map click_name declared_flags.

(** The keyword arguments click passes to the handler when the command
    has exactly its declared options: one entry per declaration. *)
Definition kwargs (recursive : bool) (remote_url token : string)
    : gmap string value :=
  <["recursive" := VBool recursive]>
    (<["remote_url" := VStr remote_url]>
       (<["token" := VStr token]> ∅)).

(** [options[key]] *)
Definition getitem (options : gmap string value) (key : string) : M value :=
  match options !! key with
  | Some v => mret v
  | None => raise (KeyError key)
  end.

Section Handler.
(** What the handler imports from [unstructured.ingest.cli.common],
    [unstructured.ingest.logger] and the dropbox connector.  The
    options dict is shared with the callees: each returns the dict as
    it leaves it. *)
Variables StandardConfig DropboxConfig Connector : Type.
Variable run_init_checks : gmap string value -> M (gmap string value).
Variable ingest_log_streaming_init : LogLevel -> M unit.
Variable log_options : gmap string value -> M (gmap string value).
Variable update_download_dir_remote_url :
  gmap string value -> value -> M (gmap string value).
Variable import_connector : M unit.
Variable map_to_standard_config :
  gmap string value -> M (StandardConfig * gmap string value).
Variable SimpleDropboxConfig : value -> value -> gmap string value -> M DropboxConfig.
Variable DropboxConnector : StandardConfig -> DropboxConfig -> M Connector.
Variable process_documents : Connector -> gmap string value -> M unit.

Definition dropbox (options : gmap string value) : M unit :=
  options ← run_init_checks options;
  verbose ← getitem options "verbose";
  ingest_log_streaming_init (if truthy verbose then DEBUG else INFO);;
  options ← log_options options;
  remote_url ← getitem options "remote_url";
  options ← update_download_dir_remote_url options remote_url;
  import_connector;;
  '(standard_config, options) ← map_to_standard_config options;
  path ← getitem options "remote_url";
  recursive ← getitem options "recursive";
  token ← getitem options "token";
  config ← SimpleDropboxConfig path recursive (<["token" := token]> ∅);
  doc_connector ← DropboxConnector standard_config config;
  process_documents doc_connector options.

End Handler.

End Dropbox.

(** ** The specification's vocabulary *)

Module Spec.

(** The lifecycle states the specification gives a document record. *)
Inductive LifecycleState : Type :=
  | Discovered
  | Downloaded
  | Processed
  | Uploaded
  | Failed (stage : string) (reason : exn).

(** The listing as the specification words it: the files at the
    immediate level, and with the recursive flag also all files found by
    recursively listing every subfolder. *)
Fixpoint list_files (recursive : bool) (root : Folder) : Res (list File) :=
  match root with
  | mkFolder _ (Raise e) => Raise e
  | mkFolder _ (Ok (files, folders)) =>
      if recursive then
        more ← (fix each (l : list Folder) : Res (list File) :=
                  match l with
                  | [] => Ok []
                  | f :: rest =>
                      a ← list_files recursive f; b ← each rest; Ok (a ++ b)
                  end) folders;
        Ok (files ++ more)
      else Ok files
  end.

(** A record is marked failed by a call when some reading of a
    lifecycle state off the record gives [Discovered] before the call
    and [Failed] at the download stage after it. *)
Definition marked_failed (before after : SharepointIngestDoc.t) : Prop :=
  exists state_of : SharepointIngestDoc.t -> LifecycleState,
    state_of before = Discovered
    /\ exists e, state_of after = Failed "download" e.

(** A configuration is immutable when no assignment to a field changes it. *)
Definition immutable (c : SimpleSharepointConfig.t) : Prop :=
  forall f v c', SimpleSharepointConfig.setattr c f v = Ok c' -> c' = c.

(** A value is missing when it is absent ([None]) or empty. *)
Definition missing (v : option string) : Prop := v = None \/ v = Some "".

End Spec.

(** ** Concrete inputs *)

Module Sample.

Definition externals : Externals := {|
  EXT_TO_FILETYPE_keys := [Some ".pdf"; Some ".html"; Some ".txt"; Some ".docx"; None];
  resolve := fun p => p;
  unescape := fun s => s;
  urlparse_path := fun u =>
    if String.eqb u "https://contoso.sharepoint.com/sites/eng" then "/sites/eng" else "";
  has_dependency := fun _ => true
|}.

Definition standard_config : StandardConnectorConfig :=
  mkStandardConfig "/tmp/dl" "/tmp/out".

Definition site_url : string := "https://contoso.sharepoint.com/sites/eng".

Definition config (recursive process_pages : bool) : SimpleSharepointConfig.t :=
  SimpleSharepointConfig.mk (Some "app-id") (Some "secret") (Some site_url)
    "Shared Documents" false process_pages recursive.

Definition no_fields : Res PageFields := Raise (ClientRequestException 404).

(** A file of [n] bytes whose download succeeds. *)
Definition file_named (name url : string) (n : Z) : File :=
  mkFile name url (Some n) (mkTransfer "hello" None) (mkTransfer "hello" None) no_fields.

Definition a_txt : File := file_named "a.txt" "/sites/eng/Shared Documents/a.txt" 5.
Definition b_txt : File := file_named "b.txt" "/sites/eng/Shared Documents/sub/b.txt" 5.
Definition file_xyz : File := file_named "file.xyz" "/sites/eng/Shared Documents/file.xyz" 5.
Definition makefile : File := file_named "Makefile" "/sites/eng/Shared Documents/Makefile" 5.

(** A file whose download breaks after two bytes. *)
Definition broken_txt : File :=
  mkFile "c.txt" "/sites/eng/Shared Documents/c.txt" (Some 5%Z)
    (mkTransfer "he" (Some (ClientRequestException 503)))
    (mkTransfer "he" (Some (ClientRequestException 503)))
    no_fields.

(** The handle of a page; its name is never read. *)
Definition page_file (url : string) (fields : Res PageFields) : File :=
  mkFile "" url None (mkTransfer "" None) (mkTransfer "" None) fields.

Definition home_meta : Meta := mkMeta "SitePages/Home.aspx" (Some "sites/eng").

Definition home_page : File :=
  page_file "/SitePages/Home.aspx"
    (Ok (mkPageFields None (Some "<p>Welcome</p>"))).

Definition broken_page : File :=
  page_file "/SitePages/Home.aspx" (Raise (ClientRequestException 500)).

(** The tree [root/a.txt], [root/sub/b.txt]. *)
Definition sub : Folder := mkFolder (Ok true) (Ok ([b_txt], [])).
Definition root : Folder := mkFolder (Ok true) (Ok ([a_txt], [sub])).

(** A folder the server does not know. *)
Definition absent : Folder :=
  mkFolder (Ok false) (Raise (ClientRequestException 404)).

Definition site (folder : Folder) (pages : list PageMeta) : Site :=
  mkSite site_url (fun _ => folder) (Ok pages)
    (fun url => page_file url (Ok (mkPageFields None None))).

Definition connector (recursive process_pages : bool) : SharepointConnector.t :=
  SharepointConnector.mk standard_config (config recursive process_pages).

Definition world : World := mkWorld ∅ [] [].

(** The record enumeration builds for [f]; the placeholder stands for
    an item the constructor refuses. *)
Definition doc (f : File) (m : option Meta) : SharepointIngestDoc.t :=
  match SharepointIngestDoc.new (H := externals) standard_config (config false false) f m with
  | Ok d => d
  | Raise _ =>
      SharepointIngestDoc.mk standard_config (config false false) f m ""
        (of_str "") (of_str "") (of_str "") (of_str "")
  end.

(** A world where [a.txt] was downloaded before. *)
Definition cached_world : World :=
  mkWorld (<["/tmp/dl/sites/eng/Shared Documents/a.txt" := RegFile "hello"]> ∅) [] [].

End Sample.

(** ** Shorthands used in the statements *)

(** The entry [_list_pages] appends for a page whose [Url] is the
    non-empty string [u]. *)
Definition page_entry `{Externals} (site_client : Site) (u : string) : File * Meta :=
  let page_url := if PyStr.startswith_char "/" u then u else "/" +:+ u in
  (get_file_by_server_relative_path site_client page_url,
   mkMeta u (SharepointConnector.page_site_path site_client)).

Definition with_url (u : string) : PageMeta := mkPageMeta (Some u).

(** The world after one more log record. *)
Definition logged (w : World) (l : LogLevel) (msg : string) : World :=
  mkWorld (fs w) (net w) (logs w ++ [(l, msg)]).

(** The statements of [_get_file] before the size test: both
    directories are prepared. *)
Definition prepare_dirs `{Externals} (self : SharepointIngestDoc.t) : M unit :=
  FS.mkdir_parents_exist_ok (SharepointIngestDoc.output_dir self);;
  d ← SharepointIngestDoc.is_dir (SharepointIngestDoc.download_dir self);
  (if negb d then
     log DEBUG ("Creating directory: " +:+ to_str (SharepointIngestDoc.download_dir self));;
     FS.mkdir_parents_exist_ok (SharepointIngestDoc.download_dir self)
   else mret tt).

(** The local side of a fetch: the directories, then the file opened
    for writing. *)
Definition prepare_download `{Externals} (self : SharepointIngestDoc.t) : M unit :=
  prepare_dirs self;;
  FS.open_w (SharepointIngestDoc.filename self).

(** The size [_get_file] reads: [get_property("size", 0)]. *)
Definition reported_size (self : SharepointIngestDoc.t) : Z :=
  default 0%Z (size (SharepointIngestDoc.file self)).

(** The request [_get_file] sends for a record. *)
Definition fetch_call (self : SharepointIngestDoc.t) : NetCall :=
  if (reported_size self >? MAX_MB_SIZE)%Z
  then NetDownloadSession (serverRelativeUrl (SharepointIngestDoc.file self))
                          SharepointIngestDoc.chunk_size
  else NetDownload (serverRelativeUrl (SharepointIngestDoc.file self)).

(** A computation that sends nothing over the network. *)
Definition offline {A} (m : M A) : Prop :=
  forall w, net (snd (m w)) = net w.

(** ** The rest of the connector: client set-up and tenant enumeration *)

Module PyText.

(** [s.startswith(p)] *)
Fixpoint startswith (p s : string) : bool :=
  match p, s with
  | EmptyString, _ => true
  | String a p', String b s' => Ascii.eqb a b && startswith p' s'
  | String _ _, EmptyString => false
  end.

(** [sub in s] *)
Fixpoint contains (sub s : string) : bool :=
  startswith sub s
  || match s with
     | EmptyString => false
     | String _ r => contains sub r
     end.

(** [all(ch == c for ch in s)] *)
Fixpoint all_char (c : ascii) (s : string) : bool :=
  match s with
  | EmptyString => true
  | String d r => Ascii.eqb d c && all_char c r
  end.

(** [s.replace("", new)]: [new] before every character and at the end. *)
Fixpoint interleave (new s : string) : string :=
  new +:+ match s with
          | EmptyString => EmptyString
          | String c r => String c (interleave new r)
          end.

(** [s.replace(old, new)] for a non-empty [old], scanning from the left;
    [skip] counts the characters of a match still to pass over. *)
Fixpoint replace_from (old new : string) (skip : nat) (s : string) : string :=
  match s with
  | EmptyString => EmptyString
  | String c r =>
      match skip with
      | S k => replace_from old new k r
      | O =>
          if startswith old s
          then new +:+ replace_from old new (String.length old - 1) r
          else String c (replace_from old new 0 r)
      end
  end.

(** [s.replace(old, new)] *)
Definition replace (old new s : string) : string :=
  match old with
  | EmptyString => interleave new s
  | String _ _ => replace_from old new 0 s
  end.

(** [str(v)] for a [str] or [None], as an f-string prints it. *)
Definition str_opt (v : option string) : string := default "None" v.

End PyText.

(** The result of [urlparse]; [u_hostname] is the [hostname] property. *)
Record ParseResult : Type := mkParseResult {
  u_scheme : string;
  u_netloc : string;
  u_path : string;
  u_params : string;
  u_query : string;
  u_fragment : string;
  u_hostname : option string
}.

(** [parsed._replace(netloc=n)] *)
Definition replace_netloc (p : ParseResult) (n : string) : ParseResult :=
  mkParseResult (u_scheme p) n (u_path p) (u_params p) (u_query p) (u_fragment p)
    (u_hostname p).

(** A site of the tenant listing: its [url] and its [GroupId] property
    ([None] when the property is missing). *)
Record SiteProperties : Type := mkSiteProperties {
  sp_url : option string;
  sp_GroupId : option string
}.

(** What the connector takes from [urllib.parse], from the [office365]
    client and from Python's [set]. *)
Class SharePointLib : Type := {
  (** [urlparse(url)] *)
  urlparse : option string -> ParseResult;
  (** [parsed.geturl()] *)
  geturl : ParseResult -> string;
  (** [ClientContext(url).with_credentials(ClientCredential(id, credential))] *)
  ClientContext : option string -> option string -> option string -> Site;
  (** [Tenant(client).get_site_properties_from_sharepoint_by_filters().execute_query()] *)
  tenant_site_properties : Site -> Res (list SiteProperties);
  (** the order in which [for x in set(l)] visits the elements *)
  set_iter : list (option string) -> list (option string)
}.

(** What [set] guarantees of that order: every element once. *)
Definition set_like (f : list (option string) -> list (option string)) : Prop :=
  forall l, NoDup (f l) /\ forall x, In x (f l) <-> In x l.

Module SharepointClient.
Section WithLibs.
Context `{Externals} `{SharePointLib}.
Variable inherited_list_objects : option (Folder -> bool -> M (list File)).

(** The connector once [__init__] has run: [base_site_url] is [None] while
    the attribute is unset. *)
Record t : Type := mk {
  connector : SharepointConnector.t;
  base_site_url : option string;
  client : Site
}.

Definition admin_url_msg : string :=
  "A site url in the form of https://[tenant]-admin.sharepoint.com                         is required to process all sites within a tenant.".

(** The body of [_setup_client]; [parsed_url.path] is never [None]. *)
Definition _setup_client_body (self : SharepointConnector.t) : M t :=
  let cfg := SharepointConnector.config self in
  base ← (if SimpleSharepointConfig.process_all cfg then
            let parsed_url := urlparse (SimpleSharepointConfig.site_url cfg) in
            let site_hostname := PyStr.split "." (default "" (u_hostname parsed_url)) in
            let tenant_url := PyStr.split "-" (List.hd "" site_hostname) in
            if negb (String.eqb (List.last tenant_url "") "admin")
               || negb (String.eqb (u_path parsed_url) "/")
            then raise (ValueError admin_url_msg)
            else
              mret (Some (geturl
                            (replace_netloc parsed_url
                               (PyText.replace (List.hd "" site_hostname)
                                  (List.hd "" tenant_url) (u_netloc parsed_url)))))
          else mret None);
  mret (mk self base
          (ClientContext (SimpleSharepointConfig.site_url cfg)
             (SimpleSharepointConfig.client_id cfg)
             (SimpleSharepointConfig.client_credential cfg))).

Definition _setup_client : SharepointConnector.t -> M t :=
  SharepointIngestDoc.requires_dependencies ["office365"] _setup_client_body.

(** [SharepointConnector(standard_config, config)] *)
Definition __init__ (standard_config : StandardConnectorConfig)
    (config : SimpleSharepointConfig.t) : M t :=
  _setup_client (SharepointConnector.mk standard_config config).

(** The attribute lookup [self.base_site_url]. *)
Definition getattr_base_site_url (self : t) : M string :=
  match base_site_url self with
  | Some b => mret b
  | None => raise (AttributeError "base_site_url")
  end.

Definition _filter_site_url (self : t) (site : SiteProperties) : M bool :=
  match sp_url site with
  | None => mret false
  | Some u =>
      base ← getattr_base_site_url self;
      mret (String.eqb (PyStr.take (String.length base) u) base
            && PyText.contains "/sites/" u
            && PyText.all_char "0"
                 (PyText.replace "-" "" (default "" (sp_GroupId site))))
  end.

(** [[s.url for s in tenant_sites if self._filter_site_url(s)]] *)
Fixpoint filtered_urls (self : t) (tenant_sites : list SiteProperties)
    : M (list (option string)) :=
  match tenant_sites with
  | [] => mret []
  | s :: rest =>
      keep ← _filter_site_url self s;
      urls ← filtered_urls self rest;
      mret (if (keep : bool) then sp_url s :: urls else urls)
  end.

(** The list [tenant_sites] of [get_ingest_docs] when the loop starts:
    the urls kept by the filter, then [base_site_url]. *)
Definition tenant_site_urls (self : t) : M (list (option string)) :=
  tenant_sites ← lift (tenant_site_properties (client self));
  urls ← filtered_urls self tenant_sites;
  base ← getattr_base_site_url self;
  mret (urls ++ [Some base]).

(** The loop [for site_url in set(tenant_sites)]. *)
Fixpoint ingest_sites (self : t) (sites : list (option string))
    (ingest_docs : list SharepointIngestDoc.t) : M (list SharepointIngestDoc.t) :=
  match sites with
  | [] => mret ingest_docs
  | site_url :: rest =>
      log INFO ("Processing docs for site: " +:+ PyText.str_opt site_url);;
      let cfg := SharepointConnector.config (connector self) in
      let site_client :=
        ClientContext site_url (SimpleSharepointConfig.client_id cfg)
          (SimpleSharepointConfig.client_credential cfg) in
      docs ← SharepointConnector._ingest_site_docs inherited_list_objects
               (connector self) site_client;
      ingest_sites self rest (ingest_docs ++ docs)
  end.

Definition get_ingest_docs_body (self : t) : M (list SharepointIngestDoc.t) :=
  if SimpleSharepointConfig.process_all (SharepointConnector.config (connector self))
  then
    tenant_sites ← tenant_site_urls self;
    ingest_sites self (set_iter tenant_sites) []
  else
    SharepointConnector._ingest_site_docs inherited_list_objects
      (connector self) (client self).

Definition get_ingest_docs : t -> M (list SharepointIngestDoc.t) :=
  SharepointIngestDoc.requires_dependencies ["office365"] get_ingest_docs_body.

End WithLibs.
End SharepointClient.

(** ** Shorthands for the statements about fetches *)

(** The transfer [_get_file] asks for: the chunked session above the
    threshold, the plain download otherwise. *)
Definition fetch_transfer (self : SharepointIngestDoc.t) : Transfer :=
  if (reported_size self >? MAX_MB_SIZE)%Z
  then download_session (SharepointIngestDoc.file self)
  else download (SharepointIngestDoc.file self).

(** The query [_get_page] sends. *)
Definition page_query (self : SharepointIngestDoc.t) : NetCall :=
  NetListItemFields (serverRelativeUrl (SharepointIngestDoc.file self))
    ["CanvasContent1"; "LayoutWebpartsContent1"].

(** The text [_get_page] writes for the fields the query returned. *)
Definition page_payload `{Externals} (content : PageFields) : string :=
  let pld := default "" (LayoutWebpartsContent1 content)
             +:+ default "" (CanvasContent1 content) in
  if String.eqb pld "" then "<div></div>" else unescape pld.

(** The record [_get_page] logs for a page without content. *)
Definition no_content_msg (m : Meta) : string :=
  "Page " +:+ url m +:+ " as it has no retrievable content. Dumping empty doc.".

(** A computation whose result and file system depend on the file system
    only. *)
Definition fs_determined {A} (m : M A) : Prop :=
  forall w1 w2, fs w1 = fs w2 ->
    fst (m w1) = fst (m w2) /\ fs (snd (m w1)) = fs (snd (m w2)).

(** The entries of the first file system are entries of the second. *)
Definition fs_grows (m1 m2 : gmap string Node) : Prop :=
  forall k n, m1 !! k = Some n -> m2 !! k = Some n.

(** What a successful or failed [mkdir] leaves: the trace and the log as
    they were, every entry kept, and after success a directory at [p]. *)
Definition mkdir_post (p : Path) (w : World) (r : Res unit * World) : Prop :=
  net (snd r) = net w /\ logs (snd r) = logs w
  /\ fs_grows (fs w) (fs (snd r))
  /\ (fst r = Ok tt -> FS.is_dir p (snd r) = true).

(** A computation that leaves the file system and the network trace as
    they are. *)
Definition quiet {A} (m : M A) : Prop :=
  forall w, fs (snd (m w)) = fs w /\ net (snd (m w)) = net w.

(** Inputs for the statements about names, pages and tenants. *)
Module Cases.

Definition report_final_pdf : File :=
  Sample.file_named "report.final.pdf"
    "/sites/eng/Shared Documents/report.final.pdf" 5.

Definition root_meta : Meta := mkMeta "/" None.

Definition empty_page : File :=
  Sample.page_file "/SitePages/Home.aspx" (Ok (mkPageFields None (Some ""))).

(** The world a broken download of [c.txt] leaves. *)
Definition partial_world : World :=
  snd (SharepointIngestDoc._get_file (H := Sample.externals)
         (Sample.doc Sample.broken_txt None) Sample.world).

(** A folder the server reports as absent but lists all the same. *)
Definition listed (files : list File) : Folder :=
  mkFolder (Ok false) (Ok (files, [])).

(** The handle of the page [SitePages/Home.aspx], under the name of the
    page. *)
Definition home_aspx : File :=
  mkFile "Home.aspx" "/SitePages/Home.aspx" None (mkTransfer "" None)
    (mkTransfer "" None) (Ok (mkPageFields None (Some "<p>Welcome</p>"))).


Definition admin_url : string := "https://contoso-admin.sharepoint.com/".

Definition tenant_base : string := "https://contoso.sharepoint.com/".

(** A library whose [urlparse] knows the admin URL with and without its
    final slash. *)
Definition lib : SharePointLib := {|
  urlparse := fun u =>
    if String.eqb (default "" u) admin_url then
      mkParseResult "https" "contoso-admin.sharepoint.com" "/" "" "" ""
        (Some "contoso-admin.sharepoint.com")
    else if String.eqb (default "" u) "https://contoso-admin.sharepoint.com" then
      mkParseResult "https" "contoso-admin.sharepoint.com" "" "" "" ""
        (Some "contoso-admin.sharepoint.com")
    else mkParseResult "" "" (default "" u) "" "" "" None;
  geturl := fun p => u_scheme p +:+ "://" +:+ u_netloc p +:+ u_path p;
  ClientContext := fun u _ _ =>
    mkSite (default "" u) (fun _ => Sample.root) (Ok [])
      (fun url => Sample.page_file url (Ok (mkPageFields None None)));
  tenant_site_properties := fun _ =>
    Ok [mkSiteProperties (Some "https://contoso.sharepoint.com/sites/eng")
          (Some "00000000-0000-0000-0000-000000000000");
        mkSiteProperties (Some "https://contoso.sharepoint.com/sites/team")
          (Some "3f2504e0-4f89-11d3-9a0c-0305e82c3301");
        mkSiteProperties (Some "https://contoso.sharepoint.com/sites/eng") None;
        mkSiteProperties None None];
  set_iter := remove_dups
|}.

Definition admin_config : SimpleSharepointConfig.t :=
  SimpleSharepointConfig.mk (Some "app-id") (Some "secret") (Some admin_url)
    "Shared Documents" true false false.

Definition admin_connector : SharepointConnector.t :=
  SharepointConnector.mk Sample.standard_config admin_config.

(** The connector as [__init__] leaves it for the admin URL. *)
Definition admin_client : SharepointClient.t :=
  SharepointClient.mk admin_connector (Some tenant_base)
    (ClientContext (SharePointLib := lib) (Some admin_url) (Some "app-id") (Some "secret")).

End Cases.

(** * Properties *)

(** ** pathlib: the cases the connector meets *)

Example suffixes_tar_gz :
  suffixes (of_str "docs/archive.tar.gz") = [".tar"; ".gz"].
Proof. reflexivity. Qed.

Example suffixes_hidden : suffixes (of_str ".bashrc") = [].
Proof. reflexivity. Qed.

Example with_suffix_aspx :
  with_suffix (of_str "SitePages/Home.aspx") ".html"
  = Ok (of_str "SitePages/Home.html").
Proof. reflexivity. Qed.

Example with_suffix_root :
  with_suffix (of_str "/") ".html" = Raise (ValueError "PosixPath('/') has an empty name").
Proof. reflexivity. Qed.

Example parents_abc :
  List.map to_str (parents (of_str "/a/b/c")) = ["/a/b"; "/a"; "/"].
Proof. reflexivity. Qed.

(** ** Configuration *)

Lemma truthy_opt_false (v : option string) :
  truthy_opt v = false <-> Spec.missing v.
Proof.
  unfold Spec.missing. destruct v as [[|c r]|]; simpl; split; intros Hv;
    try reflexivity; try discriminate; auto.
  - destruct Hv as [Hv|Hv]; discriminate.
Qed.

Lemma truthy_opt_true (v : option string) :
  truthy_opt v = true <-> ~ Spec.missing v.
Proof.
  rewrite <- truthy_opt_false. destruct (truthy_opt v); split; intros Hv;
    try reflexivity; try discriminate; congruence.
Qed.

Lemma config_new_rejects (id cred url : option string) (path : string)
    (pa pp r : bool) :
  Spec.missing id \/ Spec.missing cred \/ Spec.missing url ->
  SimpleSharepointConfig.new id cred url path pa pp r
  = Raise (ValueError SimpleSharepointConfig.mandatory_msg).
Proof.
  intros Hm. unfold SimpleSharepointConfig.new, SimpleSharepointConfig.__post_init__.
  simpl. rewrite <- !truthy_opt_false in Hm.
  destruct Hm as [Hm | [Hm | Hm]]; rewrite Hm;
    rewrite ?andb_false_r; reflexivity.
Qed.

Lemma config_new_accepts (id cred url : option string) (path : string)
    (pa pp r : bool) :
  ~ Spec.missing id -> ~ Spec.missing cred -> ~ Spec.missing url ->
  SimpleSharepointConfig.new id cred url path pa pp r
  = Ok (SimpleSharepointConfig.mk id cred url path pa pp r).
Proof.
  rewrite <- !truthy_opt_true. intros Hi Hc Hu.
  unfold SimpleSharepointConfig.new, SimpleSharepointConfig.__post_init__.
  simpl. rewrite Hi, Hc, Hu. reflexivity.
Qed.

Lemma config_setattr_stores (c : SimpleSharepointConfig.t)
    (f : SimpleSharepointConfig.field) (v : option string) :
  SimpleSharepointConfig.setattr c f v = Ok (SimpleSharepointConfig.update c f v).
Proof. reflexivity. Qed.

(** C6, as the claim states it, fails: a configuration built from three
    present values is not immutable.  Assigning the empty string to
    [client_id] afterwards succeeds and leaves an object that
    [__post_init__] would refuse. *)
Lemma config_not_immutable :
  exists c0,
    SimpleSharepointConfig.new (Some "app-id") (Some "secret")
      (Some "https://contoso.sharepoint.com") "Shared Documents" false false false
    = Ok c0
    /\ ~ Spec.immutable c0
    /\ exists c1,
         SimpleSharepointConfig.setattr c0 SimpleSharepointConfig.f_client_id (Some "")
         = Ok c1
         /\ SimpleSharepointConfig.__post_init__ c1
            = Raise (ValueError SimpleSharepointConfig.mandatory_msg).
Proof.
  eexists. split; [reflexivity|]. split.
  - intros Himm.
    specialize (Himm SimpleSharepointConfig.f_client_id (Some "") _ eq_refl).
    discriminate Himm.
  - eexists. split; reflexivity.
Qed.

(** C6 (amended): construction fails at once with the [ValueError] of
    [__post_init__] when [client_id], [client_credential] or [site_url] is
    missing (absent or empty), so no object is returned; when all three are
    present it returns the configuration with the fields as given; and the
    configuration is a plain dataclass, whose validated fields stay
    assignable afterwards without a new validation. *)
Theorem config_validated_at_construction
    (id cred url : option string) (path : string) (pa pp r : bool) :
  (Spec.missing id \/ Spec.missing cred \/ Spec.missing url ->
   SimpleSharepointConfig.new id cred url path pa pp r
   = Raise (ValueError SimpleSharepointConfig.mandatory_msg))
  /\ (~ Spec.missing id -> ~ Spec.missing cred -> ~ Spec.missing url ->
      SimpleSharepointConfig.new id cred url path pa pp r
      = Ok (SimpleSharepointConfig.mk id cred url path pa pp r))
  /\ (forall c f v,
        SimpleSharepointConfig.setattr c f v
        = Ok (SimpleSharepointConfig.update c f v)).
Proof.
  split; [apply config_new_rejects|].
  split; [apply config_new_accepts|].
  apply config_setattr_stores.
Qed.

Lemma config_validated_at_construction_witness :
  SimpleSharepointConfig.new (Some "app-id") None (Some "https://contoso.sharepoint.com")
    "Shared Documents" false false false
  = Raise (ValueError SimpleSharepointConfig.mandatory_msg)
  /\ SimpleSharepointConfig.new (Some "app-id") (Some "secret")
       (Some "https://contoso.sharepoint.com") "Shared Documents" false false false
     = Ok (SimpleSharepointConfig.mk (Some "app-id") (Some "secret")
             (Some "https://contoso.sharepoint.com") "Shared Documents"
             false false false).
Proof.
  split.
  - apply (config_validated_at_construction (Some "app-id") None
             (Some "https://contoso.sharepoint.com") "Shared Documents"
             false false false).
    right; left; left; reflexivity.
  - apply (config_validated_at_construction (Some "app-id") (Some "secret")
             (Some "https://contoso.sharepoint.com") "Shared Documents"
             false false false);
      intros [Hm|Hm]; discriminate Hm.
Defined.

(** ** Extension check at construction *)

Section DocConstruction.
Context `{Externals}.

Lemma res_bind_unfold {A B} (r : Res A) (k : A -> Res B) :
  (r ≫= k) = match r with Ok a => k a | Raise e => Raise e end.
Proof. reflexivity. Qed.

(** For a file record the paths are always computed. *)
Lemma set_download_paths_file (sc : StandardConnectorConfig) (f : File) (e : string) :
  exists paths, SharepointIngestDoc._set_download_paths sc f None e = Ok paths.
Proof. unfold SharepointIngestDoc._set_download_paths. simpl. eauto. Qed.

(** Construction of a file record either succeeds or raises one of the
    two extension errors. *)
Lemma new_file_cases (sc : StandardConnectorConfig)
    (cfg : SimpleSharepointConfig.t) (f : File) :
  let e := SharepointIngestDoc.assigned_ext f None in
  SharepointIngestDoc.new sc cfg f None
  = if negb (PyStr.truthy e) then
      Raise (ValueError SharepointIngestDoc.no_extension_msg)
    else if negb (SharepointIngestDoc.ext_known e) then
      Raise (ValueError SharepointIngestDoc.not_supported_msg)
    else
      SharepointIngestDoc.new sc cfg f None.
Proof.
  intros e. unfold SharepointIngestDoc.new. fold e.
  destruct (PyStr.truthy e); simpl; [|reflexivity].
  destruct (SharepointIngestDoc.ext_known e); reflexivity.
Qed.

Lemma new_file_rejected (sc : StandardConnectorConfig)
    (cfg : SimpleSharepointConfig.t) (f : File) :
  let e := PyStr.join "" (suffixes (of_str (name f))) in
  e = "" \/ SharepointIngestDoc.ext_known e = false ->
  SharepointIngestDoc.new sc cfg f None
  = Raise (ValueError (if PyStr.truthy e
                       then SharepointIngestDoc.not_supported_msg
                       else SharepointIngestDoc.no_extension_msg)).
Proof.
  intros e Hbad. unfold SharepointIngestDoc.new. simpl. fold e.
  destruct (PyStr.truthy e) eqn:Ht; simpl; [|reflexivity].
  destruct Hbad as [He | Hk].
  - rewrite He in Ht. discriminate Ht.
  - rewrite Hk. reflexivity.
Qed.

Lemma mapM_lift_raises {A B} (g : A -> Res B) (x : A) (e : exn) (l : list A) :
  g x = Raise e -> In x l ->
  forall w, exists a e', In a l /\ g a = Raise e'
                         /\ mapM (fun a => lift (g a)) l w = (Raise e', w).
Proof.
  intros Hx Hin w. induction l as [|a l IH]; [destruct Hin|].
  cbn [mapM]. unfold mbind, M_bind, bind. unfold lift at 1.
  destruct (g a) as [b|e0] eqn:Ha.
  - destruct Hin as [->|Hin]; [congruence|].
    destruct (IH Hin) as (a' & e' & Hin' & He' & Hrun).
    exists a', e'. split; [right; exact Hin'|]. split; [exact He'|].
    rewrite Hrun. reflexivity.
  - exists a, e0. split; [left; reflexivity|]. split; [exact Ha | reflexivity].
Qed.

(** C4 (amended): a file item (one built without [meta]) whose name has
    no extension, or whose extension is not a key of [EXT_TO_FILETYPE],
    cannot be made into an ingest document: the constructor raises the
    [ValueError] that reports the unsupported file type, and the
    comprehension that builds the records of an enumeration raises with
    it, so no record for the item is ever handed to a download. *)
Theorem unsupported_extension_rejected (sc : StandardConnectorConfig)
    (cfg : SimpleSharepointConfig.t) (f : File) :
  let e := PyStr.join "" (suffixes (of_str (name f))) in
  e = "" \/ SharepointIngestDoc.ext_known e = false ->
  SharepointIngestDoc.new sc cfg f None
  = Raise (ValueError (if PyStr.truthy e
                       then SharepointIngestDoc.not_supported_msg
                       else SharepointIngestDoc.no_extension_msg))
  /\ forall files w,
       In f files ->
       exists msg,
         SharepointConnector.file_docs (SharepointConnector.mk sc cfg) files w
         = (Raise (ValueError msg), w).
Proof.
  intros e Hbad. pose proof (new_file_rejected sc cfg f Hbad) as Hnew.
  split; [exact Hnew|].
  intros files w Hin. unfold SharepointConnector.file_docs. simpl.
  destruct (mapM_lift_raises (fun a => SharepointIngestDoc.new sc cfg a None)
              f _ files Hnew Hin w) as (a & e' & _ & Ha & Hrun).
  rewrite new_file_cases in Ha.
  destruct (negb (PyStr.truthy _)) in Ha.
  { inversion Ha; subst. eexists; exact Hrun. }
  destruct (negb (SharepointIngestDoc.ext_known _)) in Ha.
  { inversion Ha; subst. eexists; exact Hrun. }
  unfold SharepointIngestDoc.new in Ha.
  destruct (negb (PyStr.truthy _)) in Ha.
  { inversion Ha; subst. eexists; exact Hrun. }
  destruct (negb (SharepointIngestDoc.ext_known _)) in Ha.
  { inversion Ha; subst. eexists; exact Hrun. }
  destruct (set_download_paths_file sc a (SharepointIngestDoc.assigned_ext a None))
    as ([[[d1 d2] d3] d4] & Hp).
  rewrite res_bind_unfold, Hp in Ha. discriminate Ha.
Qed.

Lemma not_supported_msg_head :
  exists r, SharepointIngestDoc.not_supported_msg = String "E" r.
Proof. unfold SharepointIngestDoc.not_supported_msg. simpl. eauto. Qed.

Lemma with_suffix_html_error (p : Path) (e : exn) :
  with_suffix p ".html" = Raise e ->
  exists r, e = ValueError (String "P" r).
Proof.
  unfold with_suffix. simpl.
  destruct (negb (PyStr.truthy (Pathlib.name p))); [|discriminate].
  intros Hr. inversion Hr. simpl. eauto.
Qed.

(** C9: a page record (one built with a [meta]) is always assigned the
    extension [.html], whatever the name of its file and its URL; with
    [.html] among the keys of [EXT_TO_FILETYPE], neither extension error
    is ever raised for it, and a record that is built carries [.html]. *)
Theorem page_record_extension_is_html (sc : StandardConnectorConfig)
    (cfg : SimpleSharepointConfig.t) (f : File) (m : Meta) :
  SharepointIngestDoc.ext_known ".html" = true ->
  SharepointIngestDoc.assigned_ext f (Some m) = ".html"
  /\ SharepointIngestDoc.new sc cfg f (Some m)
     <> Raise (ValueError SharepointIngestDoc.no_extension_msg)
  /\ SharepointIngestDoc.new sc cfg f (Some m)
     <> Raise (ValueError SharepointIngestDoc.not_supported_msg)
  /\ forall d, SharepointIngestDoc.new sc cfg f (Some m) = Ok d ->
               SharepointIngestDoc.ext d = ".html".
Proof.
  intros Hk. split; [reflexivity|].
  assert (Hnew : SharepointIngestDoc.new sc cfg f (Some m)
                 = match SharepointIngestDoc._set_download_paths sc f (Some m) ".html" with
                   | Ok (ddir, dfile, odir, ofile) =>
                       Ok (SharepointIngestDoc.mk sc cfg f (Some m) ".html"
                             ddir dfile odir ofile)
                   | Raise e => Raise e
                   end).
  { unfold SharepointIngestDoc.new. simpl SharepointIngestDoc.assigned_ext.
    rewrite Hk. simpl. rewrite res_bind_unfold.
    destruct (SharepointIngestDoc._set_download_paths sc f (Some m) ".html")
      as [[[[d1 d2] d3] d4]|e]; reflexivity. }
  assert (Herr : forall e, SharepointIngestDoc._set_download_paths sc f (Some m) ".html"
                           = Raise e -> exists r, e = ValueError (String "P" r)).
  { intros e. unfold SharepointIngestDoc._set_download_paths.
    rewrite res_bind_unfold.
    destruct (site_path m) as [sp|].
    - destruct (with_suffix (of_str (sp +:+ "/" +:+ url m)) ".html") eqn:Hw;
        [discriminate|].
      intros Hr; inversion Hr; subst. eapply with_suffix_html_error; eauto.
    - destruct (with_suffix (of_str (url m)) ".html") eqn:Hw; [discriminate|].
      intros Hr; inversion Hr; subst. eapply with_suffix_html_error; eauto. }
  rewrite Hnew.
  destruct (SharepointIngestDoc._set_download_paths sc f (Some m) ".html")
    as [[[[d1 d2] d3] d4]|e] eqn:Hp.
  - repeat split; try discriminate. intros d Hd. inversion Hd. reflexivity.
  - destruct (Herr e eq_refl) as (r & ->).
    destruct not_supported_msg_head as (r' & Hm').
    repeat split; try discriminate; try (rewrite Hm'; discriminate).
Qed.

End DocConstruction.

Lemma unsupported_extension_rejected_witness :
  SharepointIngestDoc.new (H := Sample.externals) Sample.standard_config
    (Sample.config false false) Sample.file_xyz None
  = Raise (ValueError
      "Extension not supported. Value MUST be one of .pdf, .html, .txt, .docx.")
  /\ SharepointIngestDoc.new (H := Sample.externals) Sample.standard_config
       (Sample.config false false) Sample.makefile None
     = Raise (ValueError "Unsupported file without extension.").
Proof.
  split.
  - apply (unsupported_extension_rejected (H := Sample.externals)
             Sample.standard_config (Sample.config false false) Sample.file_xyz).
    right. reflexivity.
  - apply (unsupported_extension_rejected (H := Sample.externals)
             Sample.standard_config (Sample.config false false) Sample.makefile).
    left. reflexivity.
Defined.

(** C4, as the claim states it, fails: the page [SitePages/Home.aspx] is
    a source item whose name ends in [.aspx], which is not a key of
    [EXT_TO_FILETYPE]; listed as a file the handle is refused, but as a
    page item it is built, with the extension [.html], and [_get_page]
    then queries its content and stores it. *)
Lemma page_item_with_unknown_extension_built :
  PyStr.join "" (suffixes (of_str (name Cases.home_aspx))) = ".aspx"
  /\ PyStr.join "" (suffixes (of_str (url Sample.home_meta))) = ".aspx"
  /\ SharepointIngestDoc.ext_known (H := Sample.externals) ".aspx" = false
  /\ SharepointIngestDoc.new (H := Sample.externals) Sample.standard_config
       (Sample.config false true) Cases.home_aspx None
     = Raise (ValueError
         "Extension not supported. Value MUST be one of .pdf, .html, .txt, .docx.")
  /\ exists d,
       SharepointIngestDoc.new (H := Sample.externals) Sample.standard_config
         (Sample.config false true) Cases.home_aspx (Some Sample.home_meta)
       = Ok d
       /\ SharepointIngestDoc.ext d = ".html"
       /\ net (snd (SharepointIngestDoc._get_page (H := Sample.externals) d
                      Sample.world))
          = [NetListItemFields "/SitePages/Home.aspx"
               ["CanvasContent1"; "LayoutWebpartsContent1"]]
       /\ fs (snd (SharepointIngestDoc._get_page (H := Sample.externals) d
                     Sample.world))
            !! "/tmp/dl/sites/eng/SitePages/Home.html"
          = Some (RegFile "<p>Welcome</p>").
Proof.
  split; [reflexivity|]. split; [reflexivity|]. split; [reflexivity|].
  split; [reflexivity|].
  eexists. split; [reflexivity|]. split; [reflexivity|].
  split; vm_compute; reflexivity.
Qed.

Lemma page_record_extension_is_html_witness :
  SharepointIngestDoc.assigned_ext Sample.home_page (Some Sample.home_meta) = ".html"
  /\ (exists d, SharepointIngestDoc.new (H := Sample.externals) Sample.standard_config
                  (Sample.config false true) Sample.home_page (Some Sample.home_meta)
                = Ok d).
Proof.
  split.
  - apply (page_record_extension_is_html (H := Sample.externals)
             Sample.standard_config (Sample.config false true)
             Sample.home_page Sample.home_meta).
    reflexivity.
  - eexists. reflexivity.
Defined.

(** ** Enumeration *)

Section Enumeration.
Context `{Externals}.
Variable inherited : option (Folder -> bool -> M (list File)).

Lemma list_pages_loop_valid (site_client : Site) (urls : list string)
    (rest : list PageMeta) (acc : list (File * Meta)) (w : World) :
  Forall (fun u => u <> "") urls ->
  SharepointConnector._list_pages_loop site_client
    (List.map with_url urls ++ rest) acc w
  = SharepointConnector._list_pages_loop site_client rest
      (acc ++ List.map (page_entry site_client) urls) w.
Proof.
  intros Hne. revert acc. induction Hne as [|u urls Hu _ IH]; intros acc.
  - simpl. rewrite app_nil_r. reflexivity.
  - destruct u as [|c r]; [congruence|].
    cbn [List.map app SharepointConnector._list_pages_loop with_url page_Url].
    unfold mbind at 1. unfold M_bind, bind. cbn [lift SharepointConnector.first_char].
    rewrite IH. rewrite <- app_assoc. cbn [app].
    unfold page_entry. cbn [PyStr.startswith_char].
    destruct (Ascii.eqb c "/"); reflexivity.
Qed.

(** Whatever precedes it, a page without [Url] ends the loop: the
    pages after it change nothing. *)
Lemma list_pages_loop_ignores_rest (site_client : Site) (pre post : list PageMeta)
    (p : PageMeta) (acc : list (File * Meta)) (w : World) :
  page_Url p = None ->
  SharepointConnector._list_pages_loop site_client (pre ++ p :: post) acc w
  = SharepointConnector._list_pages_loop site_client (pre ++ [p]) acc w.
Proof.
  intros Hp. revert acc w. induction pre as [|q pre IH]; intros acc w.
  - simpl. rewrite Hp. reflexivity.
  - cbn [app SharepointConnector._list_pages_loop].
    destruct (page_Url q) as [u|]; [|reflexivity].
    unfold mbind, M_bind, bind.
    destruct (lift (SharepointConnector.first_char u) w) as [[c|e] w']; [|reflexivity].
    apply IH.
Qed.

(** C8: when a page of the listing has no [Url], the enumeration of
    pages stops there.  With pages of non-empty [Url] before it, the
    result holds exactly the entries of those pages: the page without
    [Url] and every page after it are left out, whatever their [Url]. *)
Theorem list_pages_stops_at_missing_url (site_client : Site) (urls : list string)
    (p : PageMeta) (post : list PageMeta) (w : World) :
  site_pages site_client = Ok (List.map with_url urls ++ p :: post) ->
  page_Url p = None ->
  Forall (fun u => u <> "") urls ->
  SharepointConnector._list_pages site_client w
  = (Ok (List.map (page_entry site_client) urls),
     logged w INFO "Missing site_url. Omitting page... ").
Proof.
  intros Hpages Hp Hne. unfold SharepointConnector._list_pages.
  rewrite Hpages. unfold mbind, M_bind, bind. cbn [lift].
  rewrite list_pages_loop_valid by exact Hne.
  cbn [SharepointConnector._list_pages_loop app]. rewrite Hp. reflexivity.
Qed.

Lemma list_files_not_recursive (root : Folder) (files : list File)
    (folders : list Folder) (w : World) :
  f_expand root = Ok (files, folders) ->
  SharepointConnector._list_files inherited root false w = (Ok files, w).
Proof.
  intros Hx. unfold SharepointConnector._list_files. rewrite Hx. reflexivity.
Qed.

Lemma list_files_no_subfolders (root : Folder) (files : list File) (w : World) :
  f_expand root = Ok (files, []) ->
  SharepointConnector._list_files inherited root true w = (Ok files, w).
Proof.
  intros Hx. unfold SharepointConnector._list_files. rewrite Hx. reflexivity.
Qed.

(** With the recursive flag the subfolders are handed to whatever
    [self._list_objects] resolves to, never to [_list_files] itself. *)
Lemma list_files_recursive_loop (g : Folder -> bool -> M (list File))
    (folders : list Folder) (files : list File) (w : World) :
  inherited = Some g ->
  SharepointConnector._list_files_loop inherited folders true files w
  = match folders with
    | [] => (Ok files, w)
    | f :: rest =>
        match g f true w with
        | (Ok more, w') =>
            SharepointConnector._list_files_loop inherited rest true (files ++ more) w'
        | (Raise e, w') => (Raise e, w')
        end
    end.
Proof.
  intros Hg. destruct folders as [|f rest]; [reflexivity|].
  cbn [SharepointConnector._list_files_loop].
  unfold SharepointConnector.getattr_list_objects. rewrite Hg. reflexivity.
Qed.

Lemma ingest_skips_existing_folder (self : SharepointConnector.t)
    (site_client : Site) (w : World) :
  f_exists (get_folder_by_server_relative_path site_client
              (SimpleSharepointConfig.path (SharepointConnector.config self)))
  = Ok true ->
  SharepointConnector._ingest_site_docs inherited self site_client w
  = (Ok [], logged w INFO (SharepointConnector.skipping_msg self site_client)).
Proof.
  intros He. unfold SharepointConnector._ingest_site_docs. rewrite He. reflexivity.
Qed.

Lemma ingest_lists_missing_folder (self : SharepointConnector.t)
    (site_client : Site) (w : World) (e : exn) :
  let root_folder :=
    get_folder_by_server_relative_path site_client
      (SimpleSharepointConfig.path (SharepointConnector.config self)) in
  f_exists root_folder = Ok false ->
  f_expand root_folder = Raise e ->
  SharepointConnector._ingest_site_docs inherited self site_client w = (Raise e, w).
Proof.
  intros root_folder He Hx. unfold SharepointConnector._ingest_site_docs.
  fold root_folder. rewrite He. unfold mbind at 1. unfold M_bind, bind. cbn [lift].
  unfold SharepointConnector._list_files. rewrite Hx. reflexivity.
Qed.

End Enumeration.

Lemma list_files_unresolved (root : Folder) (files : list File) (f : Folder)
    (folders : list Folder) (w : World) :
  f_expand root = Ok (files, f :: folders) ->
  SharepointConnector._list_files None root true w
  = (Raise (AttributeError "_list_objects"), w).
Proof.
  intros Hx. unfold SharepointConnector._list_files. rewrite Hx. reflexivity.
Qed.

Lemma list_pages_stops_at_missing_url_witness :
  SharepointConnector._list_pages (H := Sample.externals)
    (Sample.site Sample.root
       [with_url "SitePages/Home.aspx"; mkPageMeta None; with_url "SitePages/News.aspx"])
    Sample.world
  = (Ok [(Sample.page_file "/SitePages/Home.aspx" (Ok (mkPageFields None None)),
          mkMeta "SitePages/Home.aspx" (Some "sites/eng"))],
     mkWorld ∅ [] [(INFO, "Missing site_url. Omitting page... ")]).
Proof.
  apply (list_pages_stops_at_missing_url (H := Sample.externals)
           (Sample.site Sample.root
              [with_url "SitePages/Home.aspx"; mkPageMeta None;
               with_url "SitePages/News.aspx"])
           ["SitePages/Home.aspx"] (mkPageMeta None) [with_url "SitePages/News.aspx"]
           Sample.world).
  - reflexivity.
  - reflexivity.
  - repeat constructor; discriminate.
Defined.

(** C1: the claim is that a site is enumerated exactly when its root
    folder exists.  The code does the reverse.  For the site whose folder
    [Shared Documents] exists and holds [a.txt], [_ingest_site_docs]
    returns the empty list and logs that the folder does not exist; for a
    site where the folder is absent it goes on to list it, and the
    server's refusal of the listing is raised rather than an empty list
    returned. *)
Theorem ingest_site_docs_skips_existing_folder :
  SharepointConnector._ingest_site_docs (H := Sample.externals) None
    (Sample.connector false false) (Sample.site Sample.root []) Sample.world
  = (Ok [],
     mkWorld ∅ [] [(INFO, "Folder Shared Documents does not exist. Skipping site https://contoso.sharepoint.com/sites/eng")])
  /\ SharepointConnector._ingest_site_docs (H := Sample.externals) None
       (Sample.connector false false) (Sample.site Sample.absent []) Sample.world
     = (Raise (ClientRequestException 404), Sample.world).
Proof.
  split.
  - apply (ingest_skips_existing_folder (H := Sample.externals)). reflexivity.
  - apply (ingest_lists_missing_folder (H := Sample.externals)); reflexivity.
Qed.

(** C2: with the recursive flag false the listing is the files at the
    immediate level, as claimed.  With the flag true and a subfolder
    present, the loop calls [self._list_objects], a name the class does not
    define: on the tree [root/a.txt], [root/sub/b.txt] the call raises
    [AttributeError] where the claim (and the specification's listing)
    gives both files. *)
Theorem list_files_recursive_raises :
  SharepointConnector._list_files None Sample.root true Sample.world
  = (Raise (AttributeError "_list_objects"), Sample.world)
  /\ Spec.list_files true Sample.root = Ok [Sample.a_txt; Sample.b_txt]
  /\ SharepointConnector._list_files None Sample.root false Sample.world
     = (Ok [Sample.a_txt], Sample.world)
  /\ Spec.list_files false Sample.root = Ok [Sample.a_txt].
Proof.
  split; [apply (list_files_unresolved Sample.root [Sample.a_txt] Sample.sub []);
          reflexivity|].
  split; [reflexivity|].
  split; [apply (list_files_not_recursive None Sample.root [Sample.a_txt] [Sample.sub]);
          reflexivity|].
  reflexivity.
Qed.

(** ** Fetch *)

Section Fetch.
Context `{Externals}.

(** *** Errors at the record boundary *)

Lemma get_file_returns_self (self d : SharepointIngestDoc.t) (w w' : World) :
  SharepointIngestDoc._get_file self w = (Ok d, w') -> d = self.
Proof.
  unfold SharepointIngestDoc._get_file, mbind, M_bind, bind.
  destruct (try_except _ _ w) as [[[|]|e] w1]; simpl; intros Hr;
    inversion Hr; reflexivity.
Qed.

Lemma get_page_returns_self (self d : SharepointIngestDoc.t) (w w' : World) :
  SharepointIngestDoc._get_page self w = (Ok d, w') -> d = self.
Proof.
  unfold SharepointIngestDoc._get_page, mbind, M_bind, bind.
  destruct (try_except _ _ w) as [[[|]|e] w1]; simpl; intros Hr;
    inversion Hr; reflexivity.
Qed.

Lemma try_except_caught (body : M bool) (self : SharepointIngestDoc.t)
    (e : exn) (w w1 : World) :
  body w = (Raise e, w1) -> is_Exception e = true ->
  try_except body (SharepointIngestDoc.on_error self) w
  = (Ok false,
     logged (logged w1 ERROR (SharepointIngestDoc.error_msg self)) ERROR (exn_str e)).
Proof.
  intros Hb He. unfold try_except. rewrite Hb, He. reflexivity.
Qed.

Lemma get_file_caught (self : SharepointIngestDoc.t) (e : exn) (w w1 : World) :
  is_Exception e = true ->
  SharepointIngestDoc._get_file_try self w = (Raise e, w1) ->
  SharepointIngestDoc._get_file self w
  = (Ok self,
     logged (logged w1 ERROR (SharepointIngestDoc.error_msg self)) ERROR (exn_str e)).
Proof.
  intros He Hb. unfold SharepointIngestDoc._get_file, mbind, M_bind, bind.
  rewrite (try_except_caught _ self e w w1 Hb He). reflexivity.
Qed.

Lemma get_page_caught (self : SharepointIngestDoc.t) (e : exn) (w w1 : World) :
  is_Exception e = true ->
  SharepointIngestDoc._get_page_try self w = (Raise e, w1) ->
  SharepointIngestDoc._get_page self w
  = (Ok self,
     logged (logged w1 ERROR (SharepointIngestDoc.error_msg self)) ERROR (exn_str e)).
Proof.
  intros He Hb. unfold SharepointIngestDoc._get_page, mbind, M_bind, bind.
  rewrite (try_except_caught _ self e w w1 Hb He). reflexivity.
Qed.

(** C5 (amended): when the [try] block of [_get_file] or of [_get_page]
    raises an [Exception], the error is caught inside the method: two
    error records are logged (the path, then the error), and the call
    returns without raising, which is why the records fetched after it
    are reached.  The record itself is left as it was; the methods keep
    no failure state. *)
Theorem fetch_error_caught_and_logged (self : SharepointIngestDoc.t)
    (e : exn) (w w1 : World) :
  is_Exception e = true ->
  (SharepointIngestDoc._get_file_try self w = (Raise e, w1) ->
   SharepointIngestDoc._get_file self w
   = (Ok self,
      logged (logged w1 ERROR (SharepointIngestDoc.error_msg self)) ERROR (exn_str e)))
  /\ (SharepointIngestDoc._get_page_try self w = (Raise e, w1) ->
      SharepointIngestDoc._get_page self w
      = (Ok self,
         logged (logged w1 ERROR (SharepointIngestDoc.error_msg self)) ERROR (exn_str e))).
Proof.
  intros He. split; intros Hb.
  - apply get_file_caught; assumption.
  - apply get_page_caught; assumption.
Qed.

(** Only what is not an [Exception] leaves either method. *)
Lemma get_file_raises_only_non_exceptions (self : SharepointIngestDoc.t)
    (e : exn) (w w' : World) :
  SharepointIngestDoc._get_file self w = (Raise e, w') -> is_Exception e = false.
Proof.
  unfold SharepointIngestDoc._get_file, mbind, M_bind, bind, try_except.
  destruct (SharepointIngestDoc._get_file_try self w) as [[b|e0] w1].
  - destruct b; simpl; discriminate.
  - destruct (is_Exception e0) eqn:He0.
    + simpl. discriminate.
    + intros Hr. inversion Hr; subst. exact He0.
Qed.

Lemma get_page_raises_only_non_exceptions (self : SharepointIngestDoc.t)
    (e : exn) (w w' : World) :
  SharepointIngestDoc._get_page self w = (Raise e, w') -> is_Exception e = false.
Proof.
  unfold SharepointIngestDoc._get_page, mbind, M_bind, bind, try_except.
  destruct (SharepointIngestDoc._get_page_try self w) as [[b|e0] w1].
  - destruct b; simpl; discriminate.
  - destruct (is_Exception e0) eqn:He0.
    + simpl. discriminate.
    + intros Hr. inversion Hr; subst. exact He0.
Qed.

(** A batch of fetches is not cut short by an [Exception] of one record:
    the loop over the records only ends early on what [except Exception]
    does not catch. *)
Lemma fetch_batch_not_aborted (docs : list SharepointIngestDoc.t)
    (e : exn) (w w' : World) :
  mapM SharepointIngestDoc._get_file docs w = (Raise e, w') ->
  is_Exception e = false.
Proof.
  revert w. induction docs as [|d docs IH]; intros w; cbn [mapM].
  - discriminate.
  - unfold mbind at 1. unfold M_bind, bind.
    destruct (SharepointIngestDoc._get_file d w) as [[d'|e0] w1] eqn:Hd.
    + unfold mbind at 1.
      destruct (mapM SharepointIngestDoc._get_file docs w1) as [[ds|e1] w2] eqn:Hrest.
      * discriminate.
      * intros Hr. inversion Hr; subst. eapply IH; eassumption.
    + intros Hr. inversion Hr; subst.
      eapply get_file_raises_only_non_exceptions; eassumption.
Qed.

(** *** Skip when cached *)

(** C3: for a record whose download path holds a non-empty file,
    [get_file] is a skip: it returns at once, sends nothing over the
    network, leaves the file system (and so the content at the download
    path) as it was, and only logs that the file exists; the cache entry
    is still there for the next call. *)
Theorem get_file_skips_cached (self : SharepointIngestDoc.t) (w : World)
    (content : string) :
  FS.lookup (SharepointIngestDoc.filename self) w = Some (RegFile content) ->
  content <> "" ->
  let w' := snd (SharepointIngestDoc.get_file self w) in
  fst (SharepointIngestDoc.get_file self w) = Ok self
  /\ net w' = net w
  /\ fs w' = fs w
  /\ FS.lookup (SharepointIngestDoc.filename self) w' = Some (RegFile content)
  /\ logs w' = logs w ++ [(DEBUG, "File exists: "
                                   +:+ to_str (SharepointIngestDoc.filename self)
                                   +:+ ", skipping get_file")].
Proof.
  intros Hc Hne w'.
  assert (Hrun : SharepointIngestDoc.get_file self w
                 = (Ok self, logged w DEBUG ("File exists: "
                                   +:+ to_str (SharepointIngestDoc.filename self)
                                   +:+ ", skipping get_file"))).
  { unfold SharepointIngestDoc.get_file, SharepointIngestDoc.skip_if_file_exists.
    unfold FS.is_file, FS.stat_size. rewrite Hc.
    destruct content as [|c r]; [congruence|]. reflexivity. }
  subst w'. rewrite Hrun. simpl. repeat split; try reflexivity.
  unfold FS.lookup in *. simpl. exact Hc.
Qed.

(** *** Network calls of [_get_file] *)

Lemma offline_log (l : LogLevel) (msg : string) : offline (log l msg).
Proof. intros w. reflexivity. Qed.

Lemma offline_os_mkdir (p : Path) : offline (FS.os_mkdir p).
Proof.
  intros w. unfold FS.os_mkdir.
  destruct (FS.walk _ _ w); [reflexivity|].
  destruct (FS.lookup p w); reflexivity.
Qed.

Lemma offline_mkdir_exist_ok (p : Path) : offline (FS.mkdir_exist_ok p).
Proof.
  intros w. unfold FS.mkdir_exist_ok.
  pose proof (offline_os_mkdir p w) as Hn.
  destruct (FS.os_mkdir p w) as [[u|e] w1]; simpl in *; [exact Hn|].
  destruct e; simpl; try exact Hn; destruct (FS.is_dir p w1); exact Hn.
Qed.

Lemma offline_mkdir_rec (r : root) (rev_parts : list string) :
  offline (FS.mkdir_rec r rev_parts).
Proof.
  induction rev_parts as [|x rest IH]; intros w; cbn [FS.mkdir_rec].
  - pose proof (offline_os_mkdir (mkPath r (List.rev [])) w) as Hn.
    destruct (FS.os_mkdir _ w) as [[u|e] w1]; simpl in *; [exact Hn|].
    destruct e; simpl; try exact Hn; destruct (FS.is_dir _ w1); exact Hn.
  - pose proof (offline_os_mkdir (mkPath r (List.rev (x :: rest))) w) as Hn.
    destruct (FS.os_mkdir _ w) as [[u|e] w1]; simpl in *; [exact Hn|].
    destruct e; simpl; try exact Hn;
      try (destruct (FS.is_dir _ w1); exact Hn).
    pose proof (IH w1) as Hr.
    destruct (FS.mkdir_rec r rest w1) as [[u|e] w2]; simpl in *; [|congruence].
    pose proof (offline_mkdir_exist_ok (mkPath r (List.rev rest ++ [x])) w2) as Hm.
    simpl in Hm. congruence.
Qed.

Lemma offline_mkdir (p : Path) : offline (FS.mkdir_parents_exist_ok p).
Proof. apply offline_mkdir_rec. Qed.

Lemma offline_open_w (p : Path) : offline (FS.open_w p).
Proof.
  intros w. unfold FS.open_w.
  destruct (FS.walk _ _ w); [reflexivity|].
  destruct (FS.lookup p w) as [[|c]|]; reflexivity.
Qed.

Lemma offline_prepare_dirs (self : SharepointIngestDoc.t) : offline (prepare_dirs self).
Proof.
  intros w. unfold prepare_dirs, mbind, M_bind, bind.
  pose proof (offline_mkdir (SharepointIngestDoc.output_dir self) w) as H1.
  destruct (FS.mkdir_parents_exist_ok _ w) as [[u|e] w1]; simpl in *; [|exact H1].
  destruct (negb (FS.is_dir (SharepointIngestDoc.download_dir self) w1)); [|exact H1].
  simpl.
  pose proof (offline_mkdir (SharepointIngestDoc.download_dir self)
                (logged w1 DEBUG ("Creating directory: "
                   +:+ to_str (SharepointIngestDoc.download_dir self)))) as H2.
  simpl in H2. unfold logged in H2. rewrite H2. exact H1.
Qed.




(** [_get_file_try] prepares the directories, opens the file and makes
    one transfer; the only step between is the log record of the chunked
    branch. *)
Lemma get_file_try_steps (self : SharepointIngestDoc.t) (w : World) :
  SharepointIngestDoc._get_file_try self w
  = match prepare_dirs self w with
    | (Raise e, w2) => (Raise e, w2)
    | (Ok _, w2) =>
        let w3 := if (reported_size self >? MAX_MB_SIZE)%Z
                  then logged w2 INFO ("Downloading file with size: "
                                       +:+ pretty (reported_size self)
                                       +:+ " bytes in chunks")
                  else w2 in
        match FS.open_w (SharepointIngestDoc.filename self) w3 with
        | (Raise e, w4) => (Raise e, w4)
        | (Ok _, w4) =>
            match SharepointIngestDoc.transfer (SharepointIngestDoc.filename self)
                    (fetch_call self)
                    (if (reported_size self >? MAX_MB_SIZE)%Z
                     then download_session (SharepointIngestDoc.file self)
                     else download (SharepointIngestDoc.file self)) w4 with
            | (Raise e, w5) => (Raise e, w5)
            | (Ok _, w5) => (Ok true, w5)
            end
        end
    end.
Proof.
  unfold SharepointIngestDoc._get_file_try, prepare_dirs, fetch_call, reported_size.
  unfold mbind, M_bind, bind.
  destruct (FS.mkdir_parents_exist_ok (SharepointIngestDoc.output_dir self) w)
    as [[u|e] w1]; [|reflexivity].
  destruct (SharepointIngestDoc.is_dir (SharepointIngestDoc.download_dir self) w1)
    as [[d|e] w1']; [|reflexivity].
  destruct (negb d).
  - destruct (log DEBUG _ w1') as [[u1|e1] w1'']; [|reflexivity].
    destruct (FS.mkdir_parents_exist_ok (SharepointIngestDoc.download_dir self) w1'')
      as [[u2|e2] w2]; [|reflexivity].
    destruct (default 0%Z (size (SharepointIngestDoc.file self)) >? MAX_MB_SIZE)%Z.
    + simpl. destruct (FS.open_w _ _) as [[u3|e3] w4]; [|reflexivity].
      destruct (SharepointIngestDoc.transfer _ _ _ w4) as [[u4|e4] w5]; reflexivity.
    + simpl. destruct (FS.open_w _ _) as [[u3|e3] w4]; [|reflexivity].
      destruct (SharepointIngestDoc.transfer _ _ _ w4) as [[u4|e4] w5]; reflexivity.
  - simpl.
    destruct (default 0%Z (size (SharepointIngestDoc.file self)) >? MAX_MB_SIZE)%Z.
    + simpl. destruct (FS.open_w _ _) as [[u3|e3] w4]; [|reflexivity].
      destruct (SharepointIngestDoc.transfer _ _ _ w4) as [[u4|e4] w5]; reflexivity.
    + simpl. destruct (FS.open_w _ _) as [[u3|e3] w4]; [|reflexivity].
      destruct (SharepointIngestDoc.transfer _ _ _ w4) as [[u4|e4] w5]; reflexivity.
Qed.






End Fetch.


(** C5, as the claim states it, fails: the download of [c.txt] breaks with
    a [ClientRequestException] inside [_get_file]; the call returns, and
    the record it leaves is the record it was given, so no reading of a
    lifecycle state can tell it was marked [Failed]. *)
Lemma fetch_error_leaves_record_unmarked :
  fst (SharepointIngestDoc._get_file_try (H := Sample.externals)
         (Sample.doc Sample.broken_txt None) Sample.world)
  = Raise (ClientRequestException 503)
  /\ (exists w', SharepointIngestDoc._get_file (H := Sample.externals)
                   (Sample.doc Sample.broken_txt None) Sample.world
                 = (Ok (Sample.doc Sample.broken_txt None), w'))
  /\ forall d' w',
       SharepointIngestDoc._get_file (H := Sample.externals)
         (Sample.doc Sample.broken_txt None) Sample.world = (Ok d', w') ->
       ~ Spec.marked_failed (Sample.doc Sample.broken_txt None) d'.
Proof.
  split; [vm_compute; reflexivity|].
  split.
  - destruct (SharepointIngestDoc._get_file_try (H := Sample.externals)
                (Sample.doc Sample.broken_txt None) Sample.world) as [r w1] eqn:Htry.
    assert (Hr : r = Raise (ClientRequestException 503)).
    { change r with (fst (r, w1)). rewrite <- Htry. vm_compute. reflexivity. }
    subst r. eexists.
    apply (get_file_caught (H := Sample.externals) _
             (ClientRequestException 503) Sample.world w1 eq_refl Htry).
  - intros d' w' Hrun (state_of & Hbefore & e & Hafter).
    apply get_file_returns_self in Hrun. subst d'. congruence.
Qed.

Lemma fetch_error_caught_and_logged_witness :
  fst (SharepointIngestDoc._get_page_try (H := Sample.externals)
         (Sample.doc Sample.broken_page (Some Sample.home_meta)) Sample.world)
  = Raise (ClientRequestException 500)
  /\ fst (SharepointIngestDoc._get_page (H := Sample.externals)
            (Sample.doc Sample.broken_page (Some Sample.home_meta)) Sample.world)
     = Ok (Sample.doc Sample.broken_page (Some Sample.home_meta))
  /\ fst (SharepointIngestDoc._get_file (H := Sample.externals)
            (Sample.doc Sample.broken_txt None) Sample.world)
     = Ok (Sample.doc Sample.broken_txt None).
Proof.
  split; [vm_compute; reflexivity|]. split.
  - destruct (SharepointIngestDoc._get_page_try (H := Sample.externals)
                (Sample.doc Sample.broken_page (Some Sample.home_meta)) Sample.world)
      as [r w1] eqn:Htry.
    assert (Hr : r = Raise (ClientRequestException 500)).
    { change r with (fst (r, w1)). rewrite <- Htry. vm_compute. reflexivity. }
    subst r.
    rewrite (proj2 (fetch_error_caught_and_logged (H := Sample.externals)
                      (Sample.doc Sample.broken_page (Some Sample.home_meta))
                      (ClientRequestException 500) Sample.world w1 eq_refl) Htry).
    reflexivity.
  - destruct (SharepointIngestDoc._get_file_try (H := Sample.externals)
                (Sample.doc Sample.broken_txt None) Sample.world)
      as [r w1] eqn:Htry.
    assert (Hr : r = Raise (ClientRequestException 503)).
    { change r with (fst (r, w1)). rewrite <- Htry. vm_compute. reflexivity. }
    subst r.
    rewrite (proj1 (fetch_error_caught_and_logged (H := Sample.externals)
                      (Sample.doc Sample.broken_txt None)
                      (ClientRequestException 503) Sample.world w1 eq_refl) Htry).
    reflexivity.
Defined.

Lemma get_file_skips_cached_witness :
  fst (SharepointIngestDoc.get_file (H := Sample.externals)
         (Sample.doc Sample.a_txt None) Sample.cached_world)
  = Ok (Sample.doc Sample.a_txt None)
  /\ net (snd (SharepointIngestDoc.get_file (H := Sample.externals)
                 (Sample.doc Sample.a_txt None) Sample.cached_world)) = []
  /\ fs (snd (SharepointIngestDoc.get_file (H := Sample.externals)
                (Sample.doc Sample.a_txt None) Sample.cached_world))
     = fs Sample.cached_world.
Proof.
  assert (Hc : FS.lookup (SharepointIngestDoc.filename (H := Sample.externals)
                            (Sample.doc Sample.a_txt None)) Sample.cached_world
               = Some (RegFile "hello")) by (vm_compute; reflexivity).
  assert (Hne : "hello" <> "") by discriminate.
  destruct (get_file_skips_cached (H := Sample.externals)
              (Sample.doc Sample.a_txt None) Sample.cached_world "hello" Hc Hne)
    as (Hr & Hn & Hf & _).
  split; [exact Hr|]. split; [exact Hn | exact Hf].
Defined.


(** ** The dropbox command *)

Section DropboxHandler.
Variables StandardConfig DropboxConfig Connector : Type.
Variable run_init_checks : gmap string Dropbox.value -> M (gmap string Dropbox.value).
Variable ingest_log_streaming_init : LogLevel -> M unit.
Variable log_options : gmap string Dropbox.value -> M (gmap string Dropbox.value).
Variable update_download_dir_remote_url :
  gmap string Dropbox.value -> Dropbox.value -> M (gmap string Dropbox.value).
Variable import_connector : M unit.
Variable map_to_standard_config :
  gmap string Dropbox.value -> M (StandardConfig * gmap string Dropbox.value).
Variable SimpleDropboxConfig :
  Dropbox.value -> Dropbox.value -> gmap string Dropbox.value -> M DropboxConfig.
Variable DropboxConnector : StandardConfig -> DropboxConfig -> M Connector.
Variable process_documents : Connector -> gmap string Dropbox.value -> M unit.

#[local] Abbreviation handler :=
  (Dropbox.dropbox StandardConfig DropboxConfig Connector run_init_checks
     ingest_log_streaming_init log_options update_download_dir_remote_url
     import_connector map_to_standard_config SimpleDropboxConfig DropboxConnector
     process_documents).

Lemma declared_options_names :
  Dropbox.declared_options = ["recursive"; "remote_url"; "token"].
Proof. reflexivity. Qed.

Lemma kwargs_dom (recursive : bool) (remote_url token : string) :
  dom (Dropbox.kwargs recursive remote_url token)
  = (list_to_set Dropbox.declared_options : gset string).
Proof.
  unfold Dropbox.kwargs. rewrite !dom_insert_L, dom_empty_L.
  rewrite declared_options_names. reflexivity.
Qed.

(** The first thing the handler does with the options the checks leave
    is to look up [verbose]. *)
Lemma dropbox_after_checks (options options' : gmap string Dropbox.value)
    (w w' : World) :
  run_init_checks options w = (Ok options', w') ->
  options' !! "verbose" = None ->
  handler options w = (Raise (KeyError "verbose"), w').
Proof.
  intros Hchecks Hv. unfold Dropbox.dropbox.
  unfold mbind at 1. unfold M_bind at 1. unfold bind at 1. rewrite Hchecks.
  unfold mbind at 1. unfold M_bind at 1. unfold bind at 1.
  unfold Dropbox.getitem at 1. rewrite Hv. reflexivity.
Qed.

Lemma dropbox_checks_raise (options : gmap string Dropbox.value)
    (e : exn) (w w' : World) :
  run_init_checks options w = (Raise e, w') ->
  handler options w = (Raise e, w').
Proof.
  intros Hchecks. unfold Dropbox.dropbox.
  unfold mbind at 1. unfold M_bind at 1. unfold bind at 1. rewrite Hchecks.
  reflexivity.
Qed.

(** C10: [verbose] is not among the options the command declares, so
    the mapping click builds from exactly the declared options has no such
    key; yet once the initial checks return, with the mapping still
    without that key, the handler looks it up, and the lookup raises
    [KeyError] before anything else runs. *)
Theorem dropbox_reads_undeclared_verbose (recursive : bool)
    (remote_url token : string) (options' : gmap string Dropbox.value)
    (w w' : World) :
  run_init_checks (Dropbox.kwargs recursive remote_url token) w = (Ok options', w') ->
  options' !! "verbose" = None ->
  ~ In "verbose" Dropbox.declared_options
  /\ dom (Dropbox.kwargs recursive remote_url token)
     = (list_to_set Dropbox.declared_options : gset string)
  /\ Dropbox.kwargs recursive remote_url token !! "verbose" = None
  /\ handler (Dropbox.kwargs recursive remote_url token) w
     = (Raise (KeyError "verbose"), w').
Proof.
  intros Hchecks Hv. split.
  { rewrite declared_options_names. simpl. intros [Hx|[Hx|[Hx|[]]]]; discriminate Hx. }
  split; [apply kwargs_dom|]. split.
  { unfold Dropbox.kwargs.
    rewrite !lookup_insert_ne by discriminate. apply lookup_empty. }
  eapply dropbox_after_checks; eassumption.
Qed.

End DropboxHandler.

Lemma dropbox_reads_undeclared_verbose_witness :
  Dropbox.dropbox unit unit unit (fun o => mret o) (fun _ => mret tt)
    (fun o => mret o) (fun o _ => mret o) (mret tt) (fun o => mret (tt, o))
    (fun _ _ _ => mret tt) (fun _ _ => mret tt) (fun _ _ => mret tt)
    (Dropbox.kwargs false "dropbox://docs" "token-value") Sample.world
  = (Raise (KeyError "verbose"), Sample.world).
Proof.
  apply (dropbox_reads_undeclared_verbose unit unit unit (fun o => mret o)
           (fun _ => mret tt) (fun o => mret o) (fun o _ => mret o) (mret tt)
           (fun o => mret (tt, o)) (fun _ _ _ => mret tt) (fun _ _ => mret tt)
           (fun _ _ => mret tt) false "dropbox://docs" "token-value"
           (Dropbox.kwargs false "dropbox://docs" "token-value")
           Sample.world Sample.world).
  - reflexivity.
  - vm_compute. reflexivity.
Defined.

(** * Further properties of the connector *)

(** ** Strings and paths *)

Lemma str_app_cons (c : ascii) (s t : string) : String c s +:+ t = String c (s +:+ t).
Proof. reflexivity. Qed.

Lemma str_app_nil_l (t : string) : "" +:+ t = t.
Proof. reflexivity. Qed.

Lemma str_app_nil_r (s : string) : s +:+ "" = s.
Proof.
  induction s as [|c s IH]; [reflexivity|]. rewrite str_app_cons, IH. reflexivity.
Qed.

Lemma str_app_assoc (a b c : string) : (a +:+ b) +:+ c = a +:+ (b +:+ c).
Proof.
  induction a as [|x a IH]; [reflexivity|]. rewrite !str_app_cons, IH. reflexivity.
Qed.

Lemma str_length_app (a b : string) :
  String.length (a +:+ b) = (String.length a + String.length b)%nat.
Proof.
  induction a as [|x a IH]; [reflexivity|]. rewrite str_app_cons. simpl.
  rewrite IH. reflexivity.
Qed.

Lemma take_app (a b : string) : PyStr.take (String.length a) (a +:+ b) = a.
Proof.
  induction a as [|x a IH]; [destruct b; reflexivity|].
  rewrite str_app_cons. simpl. rewrite IH. reflexivity.
Qed.

(** [(a + b)[:-len(b)] == a] for a non-empty [b]. *)
Lemma slice_to_neg_app (a b : string) :
  b <> "" -> PyStr.slice_to_neg (String.length b) (a +:+ b) = a.
Proof.
  intros Hb. unfold PyStr.slice_to_neg.
  destruct (String.length b) as [|n] eqn:Hn.
  - destruct b; [congruence | discriminate].
  - rewrite str_length_app, Hn.
    replace (String.length a + S n - S n)%nat with (String.length a) by lia.
    apply take_app.
Qed.

Lemma split_no_sep (c : ascii) (x : string) :
  PyStr.contains_char c x = false -> PyStr.split c x = [x].
Proof.
  induction x as [|d x IH]; simpl; [reflexivity|].
  intros Hx. apply orb_false_iff in Hx as [Hd Hx].
  rewrite Hd, (IH Hx). reflexivity.
Qed.

Lemma split_app_sep (c : ascii) (x y : string) :
  PyStr.contains_char c x = false ->
  PyStr.split c (x +:+ String c y) = x :: PyStr.split c y.
Proof.
  induction x as [|d x IH].
  - intros _. rewrite str_app_nil_l. simpl. rewrite Ascii.eqb_refl. reflexivity.
  - intros Hx. simpl in Hx. apply orb_false_iff in Hx as [Hd Hx].
    rewrite str_app_cons. simpl. rewrite Hd, (IH Hx). reflexivity.
Qed.

Lemma endswith_char_app (c : ascii) (x y : string) :
  y <> "" -> PyStr.endswith_char c (x +:+ y) = PyStr.endswith_char c y.
Proof.
  intros Hy. induction x as [|d x IH]; [reflexivity|].
  rewrite str_app_cons. simpl. destruct (x +:+ y) eqn:Hxy.
  - destruct x; [rewrite str_app_nil_l in Hxy; congruence|].
    rewrite str_app_cons in Hxy. discriminate.
  - exact IH.
Qed.

Lemma endswith_char_absent (c : ascii) (x : string) :
  PyStr.contains_char c x = false -> PyStr.endswith_char c x = false.
Proof.
  induction x as [|d x IH]; [reflexivity|].
  simpl. intros Hx. apply orb_false_iff in Hx as [Hd Hx].
  destruct x; [exact Hd | apply IH, Hx].
Qed.

Lemma contains_char_app (c : ascii) (x y : string) :
  PyStr.contains_char c (x +:+ y)
  = PyStr.contains_char c x || PyStr.contains_char c y.
Proof.
  induction x as [|d x IH]; [reflexivity|].
  rewrite str_app_cons. simpl. rewrite IH, orb_assoc. reflexivity.
Qed.

(** A string without [/] that is neither empty nor [.] is a path of one
    component. *)
Lemma of_str_single (n : string) :
  PyStr.contains_char "/" n = false -> n <> "" -> n <> "." ->
  of_str n = mkPath NoRoot [n].
Proof.
  intros Hs Hne Hdot. unfold of_str. rewrite (split_no_sep _ _ Hs).
  assert (Hroot : splitroot n = NoRoot).
  { destruct n as [|c n]; [reflexivity|]. simpl in Hs.
    apply orb_false_iff in Hs as [Hc _].
    destruct (Ascii.eqb_spec c "/") as [->|Hc']; [discriminate|].
    unfold splitroot.
    destruct c as [[] [] [] [] [] [] [] []]; try reflexivity. congruence. }
  rewrite Hroot. cbn [List.filter]. unfold keep_part.
  destruct (String.eqb_spec n ".") as [->|_]; [congruence|].
  destruct n as [|c n]; [congruence|]. reflexivity.
Qed.

Lemma join_last (sep : string) (l : list string) (x y : string) :
  PyStr.join sep (l ++ [x +:+ y]) = PyStr.join sep (l ++ [x]) +:+ y.
Proof.
  induction l as [|a l IH]; [reflexivity|].
  cbn [app]. destruct l as [|b l].
  - cbn [app PyStr.join]. rewrite !str_app_assoc. reflexivity.
  - cbn [app] in *. cbn [PyStr.join]. cbn [PyStr.join] in IH.
    rewrite IH, !str_app_assoc. reflexivity.
Qed.

Lemma of_str_parts_truthy (s x : string) :
  In x (p_parts (of_str s)) -> x <> "".
Proof.
  unfold of_str. simpl. intros Hin. apply filter_In in Hin as [_ Hk].
  unfold keep_part in Hk. destruct x; discriminate.
Qed.

Lemma last_in {A} (l : list A) (d : A) : l <> [] -> In (List.last l d) l.
Proof.
  induction l as [|a l IH]; [congruence|]. intros _.
  destruct l as [|b l]; [left; reflexivity|].
  right. apply IH. discriminate.
Qed.

(** The name of a parsed path is empty exactly when the path has no
    component. *)
Lemma of_str_name_empty (s : string) :
  PyStr.truthy (Pathlib.name (of_str s)) = false <-> p_parts (of_str s) = [].
Proof.
  unfold Pathlib.name. split.
  - intros Hn. destruct (p_parts (of_str s)) as [|a l] eqn:Hp; [reflexivity|].
    assert (Hin : In (List.last (a :: l) "") (p_parts (of_str s))).
    { rewrite Hp. apply last_in. discriminate. }
    apply of_str_parts_truthy in Hin.
    destruct (List.last (a :: l) ""); [congruence | discriminate].
  - intros ->. reflexivity.
Qed.

(** ** Construction of records and their paths *)

Section RecordPaths.
Context `{Externals}.

(** What a file record that was built carries. *)
Lemma new_file_fields (sc : StandardConnectorConfig)
    (cfg : SimpleSharepointConfig.t) (f : File) (d : SharepointIngestDoc.t) :
  SharepointIngestDoc.new sc cfg f None = Ok d ->
  SharepointIngestDoc.ext d = PyStr.join "" (suffixes (of_str (name f)))
  /\ SharepointIngestDoc.meta d = None
  /\ SharepointIngestDoc.file d = f
  /\ SharepointIngestDoc.config d = cfg
  /\ SharepointIngestDoc.standard_config d = sc.
Proof.
  set (e := PyStr.join "" (suffixes (of_str (name f)))).
  destruct (set_download_paths_file sc f e) as ([[[d1 d2] d3] d4] & Hp).
  unfold SharepointIngestDoc.new. simpl SharepointIngestDoc.assigned_ext. fold e.
  destruct (negb (PyStr.truthy e)); [discriminate|].
  destruct (negb (SharepointIngestDoc.ext_known e)); [discriminate|].
  rewrite res_bind_unfold, Hp. intros Hd. inversion Hd. repeat split; reflexivity.
Qed.

(** X1: a file record is built exactly when the suffixes of the file name,
    joined, are non-empty and a key of [EXT_TO_FILETYPE]; the record built
    carries that extension, no [meta], and the file and configurations it
    was given. *)
Theorem file_record_built_iff_known (sc : StandardConnectorConfig)
    (cfg : SimpleSharepointConfig.t) (f : File) :
  let e := PyStr.join "" (suffixes (of_str (name f))) in
  ((exists d, SharepointIngestDoc.new sc cfg f None = Ok d)
   <-> (e <> "" /\ SharepointIngestDoc.ext_known e = true))
  /\ forall d, SharepointIngestDoc.new sc cfg f None = Ok d ->
       SharepointIngestDoc.ext d = e
       /\ SharepointIngestDoc.meta d = None
       /\ SharepointIngestDoc.file d = f
       /\ SharepointIngestDoc.config d = cfg
       /\ SharepointIngestDoc.standard_config d = sc.
Proof.
  intros e.
  destruct (set_download_paths_file sc f e) as ([[[d1 d2] d3] d4] & Hp).
  assert (Hnew : SharepointIngestDoc.new sc cfg f None
                 = if negb (PyStr.truthy e) then
                     Raise (ValueError SharepointIngestDoc.no_extension_msg)
                   else if negb (SharepointIngestDoc.ext_known e) then
                     Raise (ValueError SharepointIngestDoc.not_supported_msg)
                   else Ok (SharepointIngestDoc.mk sc cfg f None e d1 d2 d3 d4)).
  { unfold SharepointIngestDoc.new. simpl SharepointIngestDoc.assigned_ext. fold e.
    destruct (negb (PyStr.truthy e)); [reflexivity|].
    destruct (negb (SharepointIngestDoc.ext_known e)); [reflexivity|].
    rewrite res_bind_unfold, Hp. reflexivity. }
  rewrite Hnew. split; [split|].
  - intros (d & Hd). destruct e as [|c e']; [discriminate Hd|]. simpl in Hd.
    split; [discriminate|].
    destruct (SharepointIngestDoc.ext_known (String c e')); [reflexivity|discriminate Hd].
  - intros (Hne & Hk). destruct e as [|c e']; [congruence|]. simpl.
    rewrite Hk. eexists. reflexivity.
  - intros d Hd. destruct (negb (PyStr.truthy e)); [discriminate Hd|].
    destruct (negb (SharepointIngestDoc.ext_known e)); [discriminate Hd|].
    inversion Hd. repeat split; reflexivity.
Qed.

(** The extension of a name [stem.a.b]. *)
Lemma assigned_ext_double (f : File) (stem a b : string) :
  name f = stem +:+ "." +:+ a +:+ "." +:+ b ->
  stem <> "" -> b <> "" ->
  PyStr.contains_char "." stem = false ->
  PyStr.contains_char "." a = false ->
  PyStr.contains_char "." b = false ->
  PyStr.contains_char "/" (name f) = false ->
  SharepointIngestDoc.assigned_ext f None = "." +:+ a +:+ "." +:+ b.
Proof.
  intros Hn Hstem Hb Hds Hda Hdb Hslash.
  unfold SharepointIngestDoc.assigned_ext.
  assert (Hne : name f <> "").
  { rewrite Hn. destruct stem; [congruence | discriminate]. }
  assert (Hnd : name f <> ".").
  { rewrite Hn. destruct stem as [|c stem]; [congruence|].
    rewrite str_app_cons. destruct stem; [|discriminate].
    rewrite str_app_nil_l. discriminate. }
  rewrite (of_str_single _ Hslash Hne Hnd).
  unfold suffixes, Pathlib.name. cbn [p_parts List.last].
  assert (Hend : PyStr.endswith_char "." (name f) = false).
  { rewrite Hn. rewrite <- !str_app_assoc.
    rewrite endswith_char_app by exact Hb.
    apply endswith_char_absent, Hdb. }
  rewrite Hend.
  assert (Hstrip : PyStr.lstrip "." (name f) = name f).
  { rewrite Hn. destruct stem as [|c stem]; [congruence|].
    rewrite str_app_cons. simpl in Hds. apply orb_false_iff in Hds as [Hc _].
    simpl. rewrite Hc. reflexivity. }
  rewrite Hstrip, Hn.
  change ("." +:+ a +:+ "." +:+ b) with (String "." (a +:+ String "." b)).
  rewrite (split_app_sep "." stem _ Hds).
  rewrite (split_app_sep "." a _ Hda).
  rewrite (split_no_sep "." b Hdb).
  cbn [List.tl List.map PyStr.join].
  rewrite str_app_nil_l. reflexivity.
Qed.

(** X2: a file name with two extensions, [stem.a.b], is judged by both
    joined: the record gets the extension [.a.b], and unless that whole
    string is a key of [EXT_TO_FILETYPE] the constructor refuses the file,
    whether or not [.b] alone is a key. *)
Theorem double_extension_judged_as_one (sc : StandardConnectorConfig)
    (cfg : SimpleSharepointConfig.t) (f : File) (stem a b : string) :
  name f = stem +:+ "." +:+ a +:+ "." +:+ b ->
  stem <> "" -> b <> "" ->
  PyStr.contains_char "." stem = false ->
  PyStr.contains_char "." a = false ->
  PyStr.contains_char "." b = false ->
  PyStr.contains_char "/" (name f) = false ->
  SharepointIngestDoc.assigned_ext f None = "." +:+ a +:+ "." +:+ b
  /\ (SharepointIngestDoc.ext_known ("." +:+ a +:+ "." +:+ b) = false ->
      SharepointIngestDoc.new sc cfg f None
      = Raise (ValueError SharepointIngestDoc.not_supported_msg)).
Proof.
  intros Hn Hstem Hb Hds Hda Hdb Hslash.
  pose proof (assigned_ext_double f stem a b Hn Hstem Hb Hds Hda Hdb Hslash) as He.
  split; [exact He|].
  intros Hk. unfold SharepointIngestDoc.new. rewrite He.
  change ("." +:+ a +:+ "." +:+ b) with (String "." (a +:+ String "." b)) in *.
  simpl PyStr.truthy. rewrite Hk. reflexivity.
Qed.

(** The path a page record is filed under, before the suffix is set. *)
Lemma page_paths_unfold (sc : StandardConnectorConfig) (f : File) (m : Meta) :
  SharepointIngestDoc._set_download_paths sc f (Some m) ".html"
  = match with_suffix (of_str (match site_path m with
                               | None => url m
                               | Some sp => sp +:+ "/" +:+ url m
                               end)) ".html" with
    | Ok rel =>
        Ok (resolve (joinpath (of_str (sc_download_dir sc)) (Pathlib.parent rel)),
            resolve (joinpath (of_str (sc_download_dir sc)) rel),
            resolve (joinpath (of_str (sc_output_dir sc)) (Pathlib.parent rel)),
            resolve (joinpath (of_str (sc_output_dir sc))
                       (of_str (PyStr.slice_to_neg 5 (to_str rel) +:+ ".json"))))
    | Raise e => Raise e
    end.
Proof.
  unfold SharepointIngestDoc._set_download_paths. rewrite res_bind_unfold.
  destruct (site_path m); destruct (with_suffix _ ".html"); reflexivity.
Qed.

Lemma with_suffix_html (p : Path) :
  with_suffix p ".html"
  = if PyStr.truthy (Pathlib.name p)
    then Ok (mkPath (p_root p)
               (removelast (p_parts p)
                ++ [(if PyStr.truthy (suffix p)
                     then PyStr.slice_to_neg (String.length (suffix p)) (Pathlib.name p)
                     else Pathlib.name p) +:+ ".html"]))
    else Raise (ValueError ("PosixPath('" +:+ to_str p +:+ "') has an empty name")).
Proof.
  unfold with_suffix. simpl PyStr.contains_char. cbn [orb andb negb PyStr.truthy
    PyStr.startswith_char]. simpl.
  destruct (PyStr.truthy (Pathlib.name p)); simpl; [|reflexivity].
  destruct (PyStr.truthy (suffix p)); reflexivity.
Qed.

Lemma page_new_unfold (sc : StandardConnectorConfig)
    (cfg : SimpleSharepointConfig.t) (f : File) (m : Meta) :
  SharepointIngestDoc.ext_known ".html" = true ->
  SharepointIngestDoc.new sc cfg f (Some m)
  = match SharepointIngestDoc._set_download_paths sc f (Some m) ".html" with
    | Ok (ddir, dfile, odir, ofile) =>
        Ok (SharepointIngestDoc.mk sc cfg f (Some m) ".html" ddir dfile odir ofile)
    | Raise e => Raise e
    end.
Proof.
  intros Hk. unfold SharepointIngestDoc.new. simpl SharepointIngestDoc.assigned_ext.
  rewrite Hk. simpl. rewrite res_bind_unfold.
  destruct (SharepointIngestDoc._set_download_paths sc f (Some m) ".html")
    as [[[[d1 d2] d3] d4]|e]; reflexivity.
Qed.

(** X3: with [.html] a key of [EXT_TO_FILETYPE], a page record is built
    exactly when the path made of its site path and [Url] has at least one
    component; a page whose [Url] is only slashes or dots on a site without
    path is refused with the [ValueError] of [with_suffix]. *)
Theorem page_record_built_iff_named (sc : StandardConnectorConfig)
    (cfg : SimpleSharepointConfig.t) (f : File) (m : Meta) :
  SharepointIngestDoc.ext_known ".html" = true ->
  let q := of_str (match site_path m with
                   | None => url m
                   | Some sp => sp +:+ "/" +:+ url m
                   end) in
  ((exists d, SharepointIngestDoc.new sc cfg f (Some m) = Ok d) <-> p_parts q <> [])
  /\ (p_parts q = [] ->
      SharepointIngestDoc.new sc cfg f (Some m)
      = Raise (ValueError ("PosixPath('" +:+ to_str q +:+ "') has an empty name"))).
Proof.
  intros Hk q. rewrite (page_new_unfold sc cfg f m Hk), page_paths_unfold.
  fold q. rewrite with_suffix_html.
  pose proof (of_str_name_empty (match site_path m with
                                 | None => url m
                                 | Some sp => sp +:+ "/" +:+ url m
                                 end)) as Hname.
  fold q in Hname.
  destruct (PyStr.truthy (Pathlib.name q)) eqn:Ht.
  - assert (Hparts : p_parts q <> []).
    { intros Hq. apply Hname in Hq. congruence. }
    split; [split; [intros _; exact Hparts | intros _; eexists; reflexivity]|].
    intros Hq. congruence.
  - assert (Hparts : p_parts q = []) by (apply Hname; reflexivity).
    split; [split|].
    + intros (d & Hd). discriminate Hd.
    + intros Hq. congruence.
    + intros _. reflexivity.
Qed.

Lemma Ok_inj {A} (a b : A) : Ok a = Ok b -> a = b.
Proof. intros Hab. injection Hab. auto. Qed.

Lemma to_str_snoc (r : root) (l : list string) (x : string) :
  to_str (mkPath r (l ++ [x])) = root_str r +:+ PyStr.join "/" (l ++ [x]).
Proof. unfold to_str. cbn [p_root p_parts]. destruct r, l; reflexivity. Qed.

(** X4: the two files of a page record share their stem: the path the
    page is downloaded to ends in [.html], and the output path is the same
    text with [.json] in its place, each below its own directory. *)
Theorem page_paths_share_stem (sc : StandardConnectorConfig)
    (cfg : SimpleSharepointConfig.t) (f : File) (m : Meta)
    (d : SharepointIngestDoc.t) :
  SharepointIngestDoc.new sc cfg f (Some m) = Ok d ->
  exists (rel : Path) (stem : string),
    to_str rel = stem +:+ ".html"
    /\ SharepointIngestDoc.download_filepath d
       = resolve (joinpath (of_str (sc_download_dir sc)) rel)
    /\ SharepointIngestDoc.output_filepath d
       = resolve (joinpath (of_str (sc_output_dir sc)) (of_str (stem +:+ ".json"))).
Proof.
  intros Hd.
  assert (Hk : SharepointIngestDoc.ext_known ".html" = true).
  { unfold SharepointIngestDoc.new in Hd. simpl in Hd.
    destruct (SharepointIngestDoc.ext_known ".html"); [reflexivity | discriminate Hd]. }
  rewrite (page_new_unfold sc cfg f m Hk), page_paths_unfold in Hd.
  rewrite with_suffix_html in Hd.
  set (q := of_str _) in Hd.
  destruct (PyStr.truthy (Pathlib.name q)); [|discriminate Hd].
  set (base := if PyStr.truthy (suffix q) then _ else _) in Hd.
  apply Ok_inj in Hd. subst d.
  exists (mkPath (p_root q) (removelast (p_parts q) ++ [base +:+ ".html"])).
  assert (Hstr : to_str (mkPath (p_root q) (removelast (p_parts q) ++ [base +:+ ".html"]))
                 = (root_str (p_root q)
                    +:+ PyStr.join "/" (removelast (p_parts q) ++ [base]))
                   +:+ ".html").
  { rewrite to_str_snoc, join_last, str_app_assoc. reflexivity. }
  exists (root_str (p_root q) +:+ PyStr.join "/" (removelast (p_parts q) ++ [base])).
  split; [exact Hstr|]. split; [reflexivity|].
  cbn [SharepointIngestDoc.output_filepath]. rewrite Hstr.
  change 5%nat with (String.length ".html").
  rewrite slice_to_neg_app by discriminate. reflexivity.
Qed.

(** X5: a file record whose server-relative URL, after its first
    character, is a relative path with at least one component is filed
    below the download directory: the download path is the download
    directory followed by the components of the URL, and [download_dir] is
    its parent. *)
Theorem file_paths_below_download_dir (sc : StandardConnectorConfig)
    (cfg : SimpleSharepointConfig.t) (f : File) (d : SharepointIngestDoc.t)
    (c : ascii) (r : string) :
  SharepointIngestDoc.new sc cfg f None = Ok d ->
  serverRelativeUrl f = String c r ->
  PyStr.startswith_char "/" r = false ->
  p_parts (of_str r) <> [] ->
  let q := mkPath (p_root (of_str (sc_download_dir sc)))
             (p_parts (of_str (sc_download_dir sc)) ++ p_parts (of_str r)) in
  SharepointIngestDoc.download_filepath d = resolve q
  /\ SharepointIngestDoc.download_dir d = resolve (Pathlib.parent q).
Proof.
  intros Hd Hurl Hrel Hparts q.
  unfold SharepointIngestDoc.new in Hd.
  destruct (negb (PyStr.truthy _)) in Hd; [discriminate Hd|].
  destruct (negb (SharepointIngestDoc.ext_known _)) in Hd; [discriminate Hd|].
  unfold SharepointIngestDoc._set_download_paths in Hd.
  rewrite res_bind_unfold in Hd. rewrite Hurl in Hd. cbn [PyStr.tail] in Hd.
  rewrite res_bind_unfold in Hd. inversion Hd as [Hd']. clear Hd Hd'.
  cbn [SharepointIngestDoc.download_filepath SharepointIngestDoc.download_dir].
  assert (Hroot : p_root (of_str r) = NoRoot).
  { unfold of_str. cbn [p_root]. destruct r as [|x r]; [reflexivity|].
    simpl in Hrel. unfold splitroot.
    destruct (Ascii.eqb_spec x "/") as [->|Hx]; [discriminate|].
    destruct x as [[] [] [] [] [] [] [] []]; try reflexivity. congruence. }
  unfold joinpath. rewrite Hroot. cbn [Pathlib.parent p_root p_parts].
  rewrite Hroot. subst q. split; [reflexivity|].
  unfold Pathlib.parent. cbn [p_root p_parts].
  rewrite removelast_app by exact Hparts. reflexivity.
Qed.

End RecordPaths.

Lemma file_record_built_iff_known_witness :
  exists d, SharepointIngestDoc.new (H := Sample.externals) Sample.standard_config
              (Sample.config false false) Sample.a_txt None = Ok d.
Proof.
  apply (proj1 (file_record_built_iff_known (H := Sample.externals)
                  Sample.standard_config (Sample.config false false) Sample.a_txt)).
  split; [discriminate | reflexivity].
Defined.

Lemma double_extension_judged_as_one_witness :
  SharepointIngestDoc.assigned_ext Cases.report_final_pdf None = ".final.pdf"
  /\ SharepointIngestDoc.new (H := Sample.externals) Sample.standard_config
       (Sample.config false false) Cases.report_final_pdf None
     = Raise (ValueError
         "Extension not supported. Value MUST be one of .pdf, .html, .txt, .docx.").
Proof.
  destruct (double_extension_judged_as_one (H := Sample.externals)
              Sample.standard_config (Sample.config false false)
              Cases.report_final_pdf "report" "final" "pdf")
    as [He Hnew]; try reflexivity; try discriminate.
  split; [exact He | apply Hnew; reflexivity].
Defined.

Lemma page_record_built_iff_named_witness :
  (exists d, SharepointIngestDoc.new (H := Sample.externals) Sample.standard_config
               (Sample.config false true) Sample.home_page (Some Sample.home_meta)
             = Ok d)
  /\ SharepointIngestDoc.new (H := Sample.externals) Sample.standard_config
       (Sample.config false true) Sample.home_page (Some Cases.root_meta)
     = Raise (ValueError "PosixPath('/') has an empty name").
Proof.
  split.
  - apply (proj1 (page_record_built_iff_named (H := Sample.externals)
                    Sample.standard_config (Sample.config false true)
                    Sample.home_page Sample.home_meta eq_refl)).
    discriminate.
  - apply (proj2 (page_record_built_iff_named (H := Sample.externals)
                    Sample.standard_config (Sample.config false true)
                    Sample.home_page Cases.root_meta eq_refl)).
    reflexivity.
Defined.

Lemma page_paths_share_stem_witness :
  exists (rel : Path) (stem : string),
    to_str rel = stem +:+ ".html"
    /\ SharepointIngestDoc.download_filepath
         (Sample.doc Sample.home_page (Some Sample.home_meta))
       = joinpath (of_str "/tmp/dl") rel
    /\ SharepointIngestDoc.output_filepath
         (Sample.doc Sample.home_page (Some Sample.home_meta))
       = joinpath (of_str "/tmp/out") (of_str (stem +:+ ".json")).
Proof.
  apply (page_paths_share_stem (H := Sample.externals) Sample.standard_config
           (Sample.config false false) Sample.home_page Sample.home_meta
           (Sample.doc Sample.home_page (Some Sample.home_meta))).
  reflexivity.
Defined.

Lemma file_paths_below_download_dir_witness :
  SharepointIngestDoc.download_filepath (Sample.doc Sample.a_txt None)
  = of_str "/tmp/dl/sites/eng/Shared Documents/a.txt"
  /\ SharepointIngestDoc.download_dir (Sample.doc Sample.a_txt None)
     = of_str "/tmp/dl/sites/eng/Shared Documents".
Proof.
  apply (file_paths_below_download_dir (H := Sample.externals)
           Sample.standard_config (Sample.config false false) Sample.a_txt
           (Sample.doc Sample.a_txt None) "/" "sites/eng/Shared Documents/a.txt").
  - reflexivity.
  - reflexivity.
  - reflexivity.
  - discriminate.
Defined.

(** ** The file system under [mkdir] and [open] *)

Lemma fs_grows_refl (m : gmap string Node) : fs_grows m m.
Proof. intros k n Hk. exact Hk. Qed.

Lemma fs_grows_trans (m1 m2 m3 : gmap string Node) :
  fs_grows m1 m2 -> fs_grows m2 m3 -> fs_grows m1 m3.
Proof. intros H12 H23 k n Hk. apply H23, H12, Hk. Qed.

Lemma fs_grows_insert (m : gmap string Node) (k : string) (n : Node) :
  m !! k = None -> fs_grows m (<[k := n]> m).
Proof.
  intros Hk k' n' Hk'. destruct (decide (k = k')) as [->|Hne]; [congruence|].
  rewrite lookup_insert_ne by exact Hne. exact Hk'.
Qed.

Lemma lookup_fs (p : Path) (w1 w2 : World) :
  fs w1 = fs w2 -> FS.lookup p w1 = FS.lookup p w2.
Proof. intros Hfs. unfold FS.lookup. rewrite Hfs. reflexivity. Qed.

Lemma walk_fs (p : Path) (l : list Path) (w1 w2 : World) :
  fs w1 = fs w2 -> FS.walk p l w1 = FS.walk p l w2.
Proof.
  intros Hfs. induction l as [|a l IH]; [reflexivity|].
  simpl. rewrite (lookup_fs a w1 w2 Hfs), IH. reflexivity.
Qed.

Lemma is_dir_fs (p : Path) (w1 w2 : World) :
  fs w1 = fs w2 -> FS.is_dir p w1 = FS.is_dir p w2.
Proof. intros Hfs. unfold FS.is_dir. rewrite (lookup_fs p w1 w2 Hfs). reflexivity. Qed.

(** [os.mkdir] either raises and changes nothing, or adds the directory
    at a place that held nothing. *)
Lemma os_mkdir_cases (p : Path) (w : World) :
  (exists e, FS.os_mkdir p w = (Raise e, w))
  \/ (FS.os_mkdir p w = (Ok tt, set_fs w (<[to_str p := Dir]> (fs w)))
      /\ fs w !! to_str p = None /\ p_parts p <> []).
Proof.
  unfold FS.os_mkdir. destruct (FS.walk _ _ w) as [e|]; [left; eauto|].
  unfold FS.lookup. destruct (p_parts p) as [|a l] eqn:Hp; [left; eauto|].
  destruct (fs w !! to_str p) eqn:Hk; [left; eauto|].
  right. repeat split; congruence.
Qed.

Lemma is_dir_inserted (p : Path) (w : World) :
  FS.is_dir p (set_fs w (<[to_str p := Dir]> (fs w))) = true.
Proof.
  unfold FS.is_dir, FS.lookup. destruct (p_parts p); [reflexivity|].
  simpl. rewrite lookup_insert_eq. reflexivity.
Qed.

Lemma mkdir_exist_ok_post (p : Path) (w : World) :
  mkdir_post p w (FS.mkdir_exist_ok p w).
Proof.
  unfold FS.mkdir_exist_ok, mkdir_post.
  destruct (os_mkdir_cases p w) as [(e & ->) | (-> & Hnone & Hparts)].
  - destruct e; simpl; try destruct (FS.is_dir p w) eqn:Hd; simpl;
      repeat split; auto using fs_grows_refl; discriminate.
  - simpl. repeat split; [apply fs_grows_insert, Hnone|].
    intros _. apply is_dir_inserted.
Qed.

Lemma mkdir_rec_post (r : root) (rev_parts : list string) (w : World) :
  mkdir_post (mkPath r (List.rev rev_parts)) w (FS.mkdir_rec r rev_parts w).
Proof.
  revert w. induction rev_parts as [|x rest IH]; intros w; cbn [FS.mkdir_rec].
  - destruct (os_mkdir_cases (mkPath r (List.rev [])) w)
      as [(e & ->) | (-> & Hnone & Hparts)].
    + unfold mkdir_post.
      destruct e; simpl; try destruct (FS.is_dir _ w) eqn:Hd; simpl;
        repeat split; auto using fs_grows_refl; discriminate.
    + simpl in Hparts. congruence.
  - destruct (os_mkdir_cases (mkPath r (List.rev (x :: rest))) w)
      as [(e & ->) | (-> & Hnone & Hparts)].
    + destruct e;
        try (unfold mkdir_post; simpl; try destruct (FS.is_dir _ w) eqn:Hd; simpl;
             repeat split; auto using fs_grows_refl; discriminate).
      specialize (IH w). unfold mkdir_post in IH.
      destruct (FS.mkdir_rec r rest w) as [[[]|e] w1]; simpl in IH.
      * destruct IH as (Hn & Hl & Hg & _).
        pose proof (mkdir_exist_ok_post (mkPath r (List.rev (x :: rest))) w1) as Hm.
        unfold mkdir_post in *.
        destruct (FS.mkdir_exist_ok _ w1) as [r2 w2]. simpl in *.
        destruct Hm as (Hn2 & Hl2 & Hg2 & Hd2).
        split; [congruence|]. split; [congruence|].
        split; [eapply fs_grows_trans; eassumption | exact Hd2].
      * unfold mkdir_post. simpl. destruct IH as (Hn & Hl & Hg & _).
        repeat split; auto. discriminate.
    + unfold mkdir_post. simpl. repeat split; [apply fs_grows_insert, Hnone|].
      intros _. apply is_dir_inserted.
Qed.

Lemma mkdir_parents_post (p : Path) (w : World) :
  mkdir_post p w (FS.mkdir_parents_exist_ok p w).
Proof.
  unfold FS.mkdir_parents_exist_ok.
  pose proof (mkdir_rec_post (p_root p) (List.rev (p_parts p)) w) as Hm.
  rewrite rev_involutive in Hm. destruct p. exact Hm.
Qed.

Lemma fsd_os_mkdir (p : Path) : fs_determined (FS.os_mkdir p).
Proof.
  intros w1 w2 Hfs. unfold FS.os_mkdir.
  rewrite (walk_fs p _ w1 w2 Hfs), (lookup_fs p w1 w2 Hfs).
  destruct (FS.walk _ _ w2); [split; [reflexivity | exact Hfs]|].
  destruct (FS.lookup p w2); simpl; rewrite ?Hfs; split; reflexivity.
Qed.

Lemma fsd_mkdir_exist_ok (p : Path) : fs_determined (FS.mkdir_exist_ok p).
Proof.
  intros w1 w2 Hfs. unfold FS.mkdir_exist_ok.
  destruct (fsd_os_mkdir p w1 w2 Hfs) as [Hr Hf].
  destruct (FS.os_mkdir p w1) as [r1 w1'], (FS.os_mkdir p w2) as [r2 w2'].
  simpl in Hr, Hf. subst r2.
  destruct r1 as [u|e]; [split; [reflexivity | exact Hf]|].
  destruct e; simpl; rewrite ?(is_dir_fs p w1' w2' Hf);
    try destruct (FS.is_dir p w2'); split; auto.
Qed.

Lemma fsd_mkdir_rec (r : root) (rev_parts : list string) :
  fs_determined (FS.mkdir_rec r rev_parts).
Proof.
  induction rev_parts as [|x rest IH]; intros w1 w2 Hfs; cbn [FS.mkdir_rec].
  - destruct (fsd_os_mkdir (mkPath r (List.rev [])) w1 w2 Hfs) as [Hr Hf].
    destruct (FS.os_mkdir _ w1) as [r1 w1'], (FS.os_mkdir _ w2) as [r2 w2'].
    simpl in Hr, Hf. subst r2.
    destruct r1 as [u|e]; [split; [reflexivity | exact Hf]|].
    destruct e; simpl; rewrite ?(is_dir_fs _ w1' w2' Hf);
      try destruct (FS.is_dir _ w2'); split; auto.
  - destruct (fsd_os_mkdir (mkPath r (List.rev (x :: rest))) w1 w2 Hfs) as [Hr Hf].
    destruct (FS.os_mkdir _ w1) as [r1 w1'], (FS.os_mkdir _ w2) as [r2 w2'].
    simpl in Hr, Hf. subst r2.
    destruct r1 as [u|e]; [split; [reflexivity | exact Hf]|].
    destruct e;
      try (simpl; rewrite ?(is_dir_fs _ w1' w2' Hf);
           try destruct (FS.is_dir _ w2'); split; auto; fail).
    destruct (IH w1' w2' Hf) as [Hr' Hf'].
    destruct (FS.mkdir_rec r rest w1') as [q1 v1], (FS.mkdir_rec r rest w2') as [q2 v2].
    simpl in Hr', Hf'. subst q2.
    destruct q1 as [u|e]; [|split; [reflexivity | exact Hf']].
    apply fsd_mkdir_exist_ok, Hf'.
Qed.

Lemma fsd_mkdir (p : Path) : fs_determined (FS.mkdir_parents_exist_ok p).
Proof. apply fsd_mkdir_rec. Qed.

Lemma fsd_open_w (p : Path) : fs_determined (FS.open_w p).
Proof.
  intros w1 w2 Hfs. unfold FS.open_w.
  rewrite (walk_fs p _ w1 w2 Hfs), (lookup_fs p w1 w2 Hfs).
  destruct (FS.walk _ _ w2); [split; [reflexivity | exact Hfs]|].
  destruct (FS.lookup p w2) as [[|c]|]; simpl; rewrite ?Hfs; split; reflexivity.
Qed.

(** [open(mode="w")] either raises and changes nothing, or leaves an empty
    file at a place that held no directory. *)
Lemma open_w_cases (p : Path) (w : World) :
  (exists e, FS.open_w p w = (Raise e, w))
  \/ (FS.open_w p w = (Ok tt, set_fs w (<[to_str p := RegFile ""]> (fs w)))
      /\ fs w !! to_str p <> Some Dir).
Proof.
  unfold FS.open_w. destruct (FS.walk _ _ w) as [e|]; [left; eauto|].
  unfold FS.lookup. destruct (p_parts p) as [|a l] eqn:Hp; [left; eauto|].
  destruct (fs w !! to_str p) as [[|c]|] eqn:Hk; [left; eauto | right | right];
    split; try reflexivity; congruence.
Qed.

(** ** What a fetch leaves on disk *)

Section FetchOnDisk.
Context `{Externals}.

Lemma is_dir_grows (p : Path) (w w' : World) :
  fs_grows (fs w) (fs w') -> FS.is_dir p w = true -> FS.is_dir p w' = true.
Proof.
  unfold FS.is_dir, FS.lookup. intros Hg. destruct (p_parts p); [auto|].
  destruct (fs w !! to_str p) as [[|c]|] eqn:Hk; try discriminate.
  intros _. rewrite (Hg _ _ Hk). reflexivity.
Qed.

(** The preparation of the two directories keeps every entry, and after
    it both directories exist. *)
Lemma prepare_dirs_post (self : SharepointIngestDoc.t) (w : World) :
  fs_grows (fs w) (fs (snd (prepare_dirs self w)))
  /\ (fst (prepare_dirs self w) = Ok tt ->
      FS.is_dir (SharepointIngestDoc.output_dir self) (snd (prepare_dirs self w)) = true
      /\ FS.is_dir (SharepointIngestDoc.download_dir self) (snd (prepare_dirs self w))
         = true).
Proof.
  unfold prepare_dirs, mbind, M_bind, bind.
  pose proof (mkdir_parents_post (SharepointIngestDoc.output_dir self) w) as H1.
  unfold mkdir_post in H1.
  destruct (FS.mkdir_parents_exist_ok (SharepointIngestDoc.output_dir self) w)
    as [[[]|e] w1]; simpl in H1; destruct H1 as (_ & _ & Hg1 & Hd1).
  2: { simpl. split; [exact Hg1 | discriminate]. }
  specialize (Hd1 eq_refl). unfold SharepointIngestDoc.is_dir.
  destruct (FS.is_dir (SharepointIngestDoc.download_dir self) w1) eqn:Hdd; simpl.
  - split; [exact Hg1 | intros _; split; assumption].
  - set (w1' := mkWorld (fs w1) (net w1) _).
    pose proof (mkdir_parents_post (SharepointIngestDoc.download_dir self) w1') as H2.
    unfold mkdir_post in H2.
    destruct (FS.mkdir_parents_exist_ok (SharepointIngestDoc.download_dir self) w1')
      as [r2 w2]; simpl in *. destruct H2 as (_ & _ & Hg2 & Hd2).
    split; [eapply fs_grows_trans; eassumption|].
    intros Hr. split; [|apply Hd2, Hr].
    apply (is_dir_grows _ w1' w2 Hg2). exact Hd1.
Qed.

Lemma fsd_prepare_dirs (self : SharepointIngestDoc.t) : fs_determined (prepare_dirs self).
Proof.
  intros w1 w2 Hfs. unfold prepare_dirs, mbind, M_bind, bind.
  destruct (fsd_mkdir (SharepointIngestDoc.output_dir self) w1 w2 Hfs) as [Hr Hf].
  destruct (FS.mkdir_parents_exist_ok _ w1) as [r1 v1],
           (FS.mkdir_parents_exist_ok _ w2) as [r2 v2].
  simpl in Hr, Hf. subst r2. destruct r1 as [u|e]; [|split; [reflexivity | exact Hf]].
  unfold SharepointIngestDoc.is_dir.
  rewrite (is_dir_fs (SharepointIngestDoc.download_dir self) v1 v2 Hf).
  destruct (FS.is_dir (SharepointIngestDoc.download_dir self) v2); simpl;
    [split; [reflexivity | exact Hf]|].
  apply fsd_mkdir. simpl. exact Hf.
Qed.

Lemma fsd_prepare_download (self : SharepointIngestDoc.t) :
  fs_determined (prepare_download self).
Proof.
  intros w1 w2 Hfs. unfold prepare_download, mbind, M_bind, bind.
  destruct (fsd_prepare_dirs self w1 w2 Hfs) as [Hr Hf].
  destruct (prepare_dirs self w1) as [r1 v1], (prepare_dirs self w2) as [r2 v2].
  simpl in Hr, Hf. subst r2. destruct r1 as [u|e]; [|split; [reflexivity | exact Hf]].
  apply fsd_open_w, Hf.
Qed.

(** The local side of a fetch changes no entry but the one at the download
    path, replaces no directory, and when it succeeds leaves both
    directories and an empty file at the download path. *)
Lemma prepare_download_post (self : SharepointIngestDoc.t) (w : World) :
  let key := to_str (SharepointIngestDoc.filename self) in
  let w4 := snd (prepare_download self w) in
  (forall k n, k <> key -> fs w !! k = Some n -> fs w4 !! k = Some n)
  /\ (forall k, fs w !! k = Some Dir -> fs w4 !! k = Some Dir)
  /\ (fst (prepare_download self w) = Ok tt ->
      FS.is_dir (SharepointIngestDoc.output_dir self) w4 = true
      /\ FS.is_dir (SharepointIngestDoc.download_dir self) w4 = true
      /\ fs w4 !! key = Some (RegFile "")).
Proof.
  intros key w4. subst w4. unfold prepare_download, mbind, M_bind, bind.
  destruct (prepare_dirs_post self w) as [Hg Hd].
  destruct (prepare_dirs self w) as [[[]|e] w2]; simpl in Hg, Hd.
  2: { simpl. repeat split; try discriminate; intros; apply Hg; assumption. }
  destruct (Hd eq_refl) as [Hod Hdd].
  destruct (open_w_cases (SharepointIngestDoc.filename self) w2)
    as [(e & ->) | (-> & Hkey)]; simpl.
  - repeat split; try discriminate; intros; apply Hg; assumption.
  - fold key in Hkey |- *. split; [|split].
    + intros k n Hne Hk. rewrite lookup_insert_ne by congruence. apply Hg, Hk.
    + intros k Hk. apply Hg in Hk.
      rewrite lookup_insert_ne by congruence. exact Hk.
    + intros _.
      assert (Hkeep : forall p, FS.is_dir p w2 = true ->
                FS.is_dir p (set_fs w2 (<[key := RegFile ""]> (fs w2))) = true).
      { intros p. unfold FS.is_dir, FS.lookup. destruct (p_parts p); [auto|].
        simpl. destruct (fs w2 !! to_str p) as [[|c]|] eqn:Hk; try discriminate.
        intros _. rewrite lookup_insert_ne by congruence. rewrite Hk. reflexivity. }
      split; [apply Hkeep, Hod|]. split; [apply Hkeep, Hdd|].
      apply lookup_insert_eq.
Qed.

Lemma write_on_file (p : Path) (data c : string) (w : World) :
  fs w !! to_str p = Some (RegFile c) ->
  FS.write p data w = (Ok tt, set_fs w (<[to_str p := RegFile (c +:+ data)]> (fs w))).
Proof. intros Hk. unfold FS.write. rewrite Hk. reflexivity. Qed.

Lemma transfer_fs (p : Path) (call : NetCall) (t : Transfer) (c : string) (w : World) :
  fs w !! to_str p = Some (RegFile c) ->
  fs (snd (SharepointIngestDoc.transfer p call t w))
  = <[to_str p := RegFile (c +:+ t_written t)]> (fs w).
Proof.
  intros Hk. unfold SharepointIngestDoc.transfer, mbind, M_bind, bind, net_call.
  rewrite (write_on_file p (t_written t) c) by exact Hk.
  destruct (t_error t); reflexivity.
Qed.

Lemma get_file_fs_try (self : SharepointIngestDoc.t) (w : World) :
  fs (snd (SharepointIngestDoc._get_file self w))
  = fs (snd (SharepointIngestDoc._get_file_try self w)).
Proof.
  unfold SharepointIngestDoc._get_file, mbind, M_bind, bind, try_except.
  destruct (SharepointIngestDoc._get_file_try self w) as [[[|]|e] w1]; try reflexivity.
  destruct (is_Exception e); reflexivity.
Qed.

(** The file system [_get_file] leaves, read off the local preparation:
    when that succeeds, the bytes the server wrote stand at the download
    path; when it fails, nothing else happens. *)
Lemma get_file_fs (self : SharepointIngestDoc.t) (w : World) :
  fs (snd (SharepointIngestDoc._get_file self w))
  = match fst (prepare_download self w) with
    | Ok _ => <[to_str (SharepointIngestDoc.filename self)
                := RegFile (t_written (fetch_transfer self))]>
                (fs (snd (prepare_download self w)))
    | Raise _ => fs (snd (prepare_download self w))
    end.
Proof.
  rewrite get_file_fs_try, get_file_try_steps.
  pose proof (prepare_download_post self w) as Hpost. cbv zeta in Hpost.
  destruct Hpost as (_ & _ & Hok).
  unfold prepare_download, mbind, M_bind, bind in *.
  destruct (prepare_dirs self w) as [[[]|e] w2]; [|reflexivity].
  cbv zeta. set (w3 := if (reported_size self >? MAX_MB_SIZE)%Z then _ else w2).
  assert (Hfs3 : fs w3 = fs w2).
  { subst w3. destruct (reported_size self >? MAX_MB_SIZE)%Z; reflexivity. }
  destruct (fsd_open_w (SharepointIngestDoc.filename self) w3 w2 Hfs3) as [Hr Hf].
  destruct (FS.open_w (SharepointIngestDoc.filename self) w3) as [r3 w4'],
           (FS.open_w (SharepointIngestDoc.filename self) w2) as [r2 w4].
  simpl in Hr, Hf, Hok |- *. subst r3. destruct r2 as [[]|e]; [|exact Hf].
  destruct (Hok eq_refl) as (_ & _ & Hkey). rewrite <- Hf in Hkey.
  pose proof (transfer_fs (SharepointIngestDoc.filename self) (fetch_call self)
                (fetch_transfer self) "" w4' Hkey) as Ht.
  unfold fetch_transfer in Ht |- *.
  destruct (SharepointIngestDoc.transfer _ _ _ w4') as [[u|e] w5]; simpl in Ht |- *;
    rewrite Ht, Hf, str_app_nil_l; reflexivity.
Qed.

(** X6: when the local side is ready, [_get_file] leaves at the download
    path exactly the bytes the server wrote, whatever stood there before
    and whether or not the transfer ended in an error: the file is opened
    afresh, and a broken transfer is not cleaned up. *)
Theorem get_file_stores_transferred_bytes (self : SharepointIngestDoc.t) (w : World) :
  fst (prepare_download self w) = Ok tt ->
  fs (snd (SharepointIngestDoc._get_file self w))
    !! to_str (SharepointIngestDoc.filename self)
  = Some (RegFile (t_written (fetch_transfer self))).
Proof.
  intros Hready. rewrite get_file_fs, Hready. apply lookup_insert_eq.
Qed.

(** X7: [_get_file] touches no entry of the file system other than the
    download path: every other entry that was there is there afterwards,
    unchanged, and no directory is replaced. *)
Theorem get_file_keeps_other_entries (self : SharepointIngestDoc.t) (w : World) :
  (forall k n, k <> to_str (SharepointIngestDoc.filename self) ->
     fs w !! k = Some n ->
     fs (snd (SharepointIngestDoc._get_file self w)) !! k = Some n)
  /\ (forall k, fs w !! k = Some Dir ->
        fs (snd (SharepointIngestDoc._get_file self w)) !! k = Some Dir).
Proof.
  pose proof (prepare_download_post self w) as Hpost. cbv zeta in Hpost.
  destruct Hpost as (Hkeep & Hdirs & Hok).
  rewrite get_file_fs.
  destruct (fst (prepare_download self w)) as [[]|e] eqn:Hr.
  - destruct (Hok eq_refl) as (_ & _ & Hkey). split.
    + intros k n Hne Hk. rewrite lookup_insert_ne by congruence. apply Hkeep; assumption.
    + intros k Hk. apply Hdirs in Hk.
      rewrite lookup_insert_ne by congruence. exact Hk.
  - split; [exact Hkeep | exact Hdirs].
Qed.

Lemma is_dir_lookup (p : Path) (w : World) :
  FS.is_dir p w = true <-> p_parts p = [] \/ fs w !! to_str p = Some Dir.
Proof.
  unfold FS.is_dir, FS.lookup. destruct (p_parts p) as [|a l].
  - split; [left; reflexivity | reflexivity].
  - destruct (fs w !! to_str p) as [[|c]|]; split; intros Hx;
      try reflexivity; try discriminate; try (right; reflexivity);
      destruct Hx as [Hx|Hx]; discriminate.
Qed.

(** X8: after a [_get_file] whose directory preparation succeeds, the
    output directory and the download directory of the record both exist,
    whether or not the download itself worked. *)
Theorem get_file_leaves_directories (self : SharepointIngestDoc.t) (w : World) :
  fst (prepare_dirs self w) = Ok tt ->
  FS.is_dir (SharepointIngestDoc.output_dir self)
    (snd (SharepointIngestDoc._get_file self w)) = true
  /\ FS.is_dir (SharepointIngestDoc.download_dir self)
       (snd (SharepointIngestDoc._get_file self w)) = true.
Proof.
  intros Hdirs.
  destruct (prepare_dirs_post self w) as [Hg Hd]. specialize (Hd Hdirs).
  assert (Hstay : forall p, FS.is_dir p (snd (prepare_dirs self w)) = true ->
            FS.is_dir p (snd (SharepointIngestDoc._get_file self w)) = true).
  { intros p Hp. apply is_dir_lookup in Hp. apply is_dir_lookup.
    destruct Hp as [Hp|Hp]; [left; exact Hp|]. right.
    pose proof (get_file_fs self w) as Hfs.
    pose proof (prepare_download_post self w) as Hpost. cbv zeta in Hpost.
    destruct Hpost as (_ & _ & Hok).
    unfold prepare_download, mbind, M_bind, bind in Hfs, Hok.
    destruct (prepare_dirs self w) as [[[]|e] w2]; [|discriminate Hdirs].
    simpl in Hp.
    destruct (open_w_cases (SharepointIngestDoc.filename self) w2)
      as [(e & Ho) | (Ho & Hkey)]; rewrite Ho in Hfs, Hok; simpl in Hfs, Hok.
    - rewrite Hfs. exact Hp.
    - rewrite Hfs. rewrite !lookup_insert_ne by congruence. exact Hp. }
  destruct Hd as [Hod Hdd]. split; apply Hstay; assumption.
Qed.

(** *** Pages *)

(** [_get_page_try] in steps: the query, the choice of the text, the local
    preparation, the write. *)
Lemma get_page_try_steps (self : SharepointIngestDoc.t) (w : World) :
  SharepointIngestDoc._get_page_try self w
  = let w0 := mkWorld (fs w) (net w ++ [page_query self]) (logs w) in
    match listItemAllFields (SharepointIngestDoc.file self) with
    | Raise e => (Raise e, w0)
    | Ok content =>
        match (if negb (String.eqb (default "" (LayoutWebpartsContent1 content)
                                    +:+ default "" (CanvasContent1 content)) "")
               then Ok w0
               else match SharepointIngestDoc.meta self with
                    | Some m => Ok (logged w0 INFO (no_content_msg m))
                    | None => Raise (TypeError "'NoneType' object is not subscriptable")
                    end) with
        | Raise e => (Raise e, w0)
        | Ok w1 =>
            match prepare_download self w1 with
            | (Raise e, w4) => (Raise e, w4)
            | (Ok _, w4) =>
                (Ok true,
                 snd (FS.write (SharepointIngestDoc.filename self)
                        (page_payload content) w4))
            end
        end
    end.
Proof.
  unfold SharepointIngestDoc._get_page_try, page_query, page_payload, no_content_msg.
  cbv zeta. unfold mbind at 1. unfold M_bind at 1. unfold bind at 1. unfold net_call at 1.
  unfold mbind at 1. unfold M_bind at 1. unfold bind at 1. unfold lift at 1.
  destruct (listItemAllFields (SharepointIngestDoc.file self)) as [content|e];
    [|reflexivity].
  set (w0 := mkWorld (fs w) _ (logs w)).
  assert (Htail : forall pld w1,
    (FS.mkdir_parents_exist_ok (SharepointIngestDoc.output_dir self);;
     d ← SharepointIngestDoc.is_dir (SharepointIngestDoc.download_dir self);
     (if negb d then
        log DEBUG ("Creating directory: "
                   +:+ to_str (SharepointIngestDoc.download_dir self));;
        FS.mkdir_parents_exist_ok (SharepointIngestDoc.download_dir self)
      else mret tt);;
     FS.open_w (SharepointIngestDoc.filename self);;
     FS.write (SharepointIngestDoc.filename self) pld;;
     mret true) w1
    = match prepare_download self w1 with
      | (Raise e, w4) => (Raise e, w4)
      | (Ok _, w4) =>
          (Ok true, snd (FS.write (SharepointIngestDoc.filename self) pld w4))
      end).
  { intros pld w1. unfold prepare_download, prepare_dirs, mbind, M_bind, bind.
    destruct (FS.mkdir_parents_exist_ok (SharepointIngestDoc.output_dir self) w1)
      as [[u|e] v1]; [|reflexivity].
    destruct (SharepointIngestDoc.is_dir (SharepointIngestDoc.download_dir self) v1)
      as [[d|e] v1']; [|reflexivity].
    destruct (negb d).
    - destruct (log DEBUG _ v1') as [[u1|e1] v1'']; [|reflexivity].
      destruct (FS.mkdir_parents_exist_ok (SharepointIngestDoc.download_dir self) v1'')
        as [[u2|e2] v2]; [|reflexivity].
      destruct (FS.open_w _ v2) as [[u3|e3] v4]; [|reflexivity].
      unfold FS.write.
      destruct (fs v4 !! to_str (SharepointIngestDoc.filename self)) as [[|c]|];
        reflexivity.
    - simpl. destruct (FS.open_w _ v1') as [[u3|e3] v4]; [|reflexivity].
      unfold FS.write.
      destruct (fs v4 !! to_str (SharepointIngestDoc.filename self)) as [[|c]|];
        reflexivity. }
  destruct (String.eqb (default "" (LayoutWebpartsContent1 content)
                        +:+ default "" (CanvasContent1 content)) "") eqn:Hempty;
    cbn [negb].
  - unfold mbind at 1. unfold M_bind at 1. unfold bind at 1.
    unfold mbind at 1. unfold M_bind at 1. unfold bind at 1. unfold lift at 1.
    destruct (SharepointIngestDoc.meta self) as [m|]; [|reflexivity].
    unfold mbind at 1. unfold M_bind at 1. unfold bind at 1. unfold log at 1.
    unfold mret at 1. unfold M_ret at 1. unfold ret at 1.
    apply Htail.
  - unfold mbind at 1. unfold M_bind at 1. unfold bind at 1.
    unfold mret at 1. unfold M_ret at 1. unfold ret at 1.
    apply Htail.
Qed.

Lemma offline_prepare_download (self : SharepointIngestDoc.t) :
  offline (prepare_download self).
Proof.
  intros w. unfold prepare_download, mbind, M_bind, bind.
  pose proof (offline_prepare_dirs self w) as Hp.
  destruct (prepare_dirs self w) as [[u|e] w2]; simpl in Hp |- *; [|exact Hp].
  rewrite offline_open_w. exact Hp.
Qed.

Lemma get_page_world_try (self : SharepointIngestDoc.t) (w : World) :
  net (snd (SharepointIngestDoc._get_page self w))
  = net (snd (SharepointIngestDoc._get_page_try self w))
  /\ fs (snd (SharepointIngestDoc._get_page self w))
     = fs (snd (SharepointIngestDoc._get_page_try self w)).
Proof.
  unfold SharepointIngestDoc._get_page, mbind, M_bind, bind, try_except.
  destruct (SharepointIngestDoc._get_page_try self w) as [[[|]|e] w1];
    try (split; reflexivity).
  destruct (is_Exception e); split; reflexivity.
Qed.

(** X9: [_get_page] sends exactly one request, the query for the two
    content fields of the page, whatever the outcome; it never starts a
    download. *)
Theorem get_page_sends_one_query (self : SharepointIngestDoc.t) (w : World) :
  net (snd (SharepointIngestDoc._get_page self w))
  = net w ++ [NetListItemFields (serverRelativeUrl (SharepointIngestDoc.file self))
                ["CanvasContent1"; "LayoutWebpartsContent1"]].
Proof.
  rewrite (proj1 (get_page_world_try self w)), get_page_try_steps. cbv zeta.
  fold (page_query self).
  destruct (listItemAllFields (SharepointIngestDoc.file self)) as [content|e];
    [|reflexivity].
  destruct (negb _); [|destruct (SharepointIngestDoc.meta self)]; try reflexivity.
  - set (w1 := mkWorld (fs w) _ (logs w)).
    pose proof (offline_prepare_download self w1) as Hn.
    destruct (prepare_download self w1) as [[u|e] w4]; simpl in Hn |- *; [|exact Hn].
    unfold FS.write.
    destruct (fs w4 !! to_str (SharepointIngestDoc.filename self)) as [[|c]|];
      exact Hn.
  - set (w1 := logged _ INFO _).
    pose proof (offline_prepare_download self w1) as Hn.
    destruct (prepare_download self w1) as [[u|e] w4]; simpl in Hn |- *; [|exact Hn].
    unfold FS.write.
    destruct (fs w4 !! to_str (SharepointIngestDoc.filename self)) as [[|c]|];
      exact Hn.
Qed.

(** X10: when the query answers, the local side is ready, and the record
    is a page record, [_get_page] leaves at the download path the two
    fields concatenated (layout first) and unescaped, or the text
    [<div></div>] when both are missing or empty; what stood there before
    is gone. *)
Theorem get_page_stores_content (self : SharepointIngestDoc.t) (w : World)
    (content : PageFields) (m : Meta) :
  listItemAllFields (SharepointIngestDoc.file self) = Ok content ->
  SharepointIngestDoc.meta self = Some m ->
  fst (prepare_download self w) = Ok tt ->
  fst (SharepointIngestDoc._get_page self w) = Ok self
  /\ fs (snd (SharepointIngestDoc._get_page self w))
       !! to_str (SharepointIngestDoc.filename self)
     = Some (RegFile
               (let pld := default "" (LayoutWebpartsContent1 content)
                           +:+ default "" (CanvasContent1 content) in
                if String.eqb pld "" then "<div></div>" else unescape pld)).
Proof.
  intros Hq Hm Hready. fold (page_payload content).
  assert (Hstep : exists w1, fs w1 = fs w
            /\ SharepointIngestDoc._get_page_try self w
               = match prepare_download self w1 with
                 | (Raise e, w4) => (Raise e, w4)
                 | (Ok _, w4) =>
                     (Ok true,
                      snd (FS.write (SharepointIngestDoc.filename self)
                             (page_payload content) w4))
                 end).
  { rewrite get_page_try_steps, Hq, Hm. cbv zeta.
    destruct (negb _); eexists; (split; [|reflexivity]); reflexivity. }
  destruct Hstep as (w1 & Hfs & Hstep).
  destruct (fsd_prepare_download self w1 w Hfs) as [Hr Hf].
  pose proof (prepare_download_post self w1) as Hpost. cbv zeta in Hpost.
  destruct Hpost as (_ & _ & Hok).
  rewrite Hready in Hr.
  destruct (prepare_download self w1) as [r1 w4]. simpl in Hr, Hok. subst r1.
  destruct (Hok eq_refl) as (_ & _ & Hkey).
  split.
  - unfold SharepointIngestDoc._get_page, mbind, M_bind, bind, try_except.
    rewrite Hstep. reflexivity.
  - rewrite (proj2 (get_page_world_try self w)), Hstep. simpl.
    rewrite (write_on_file _ _ "" w4 Hkey). simpl.
    rewrite lookup_insert_eq, str_app_nil_l. reflexivity.
Qed.

(** After the query, [_get_page] acts on the disk as [_get_file] does:
    through the two directories and the download path only. *)
Lemma page_write_frame (self : SharepointIngestDoc.t) (pld : string) (w w1 : World) :
  fs w1 = fs w ->
  let w' := snd (match prepare_download self w1 with
                 | (Raise e, w4) => (Raise e, w4)
                 | (Ok _, w4) =>
                     (Ok true,
                      snd (FS.write (SharepointIngestDoc.filename self) pld w4))
                 end : Res bool * World) in
  (forall k n, k <> to_str (SharepointIngestDoc.filename self) ->
     fs w !! k = Some n -> fs w' !! k = Some n)
  /\ (forall k, fs w !! k = Some Dir -> fs w' !! k = Some Dir).
Proof.
  intros Hfs w'. subst w'.
  pose proof (prepare_download_post self w1) as Hpost. cbv zeta in Hpost.
  rewrite Hfs in Hpost. destruct Hpost as (Hkeep & Hdirs & Hok).
  destruct (prepare_download self w1) as [[[]|e] w4]; simpl in Hkeep, Hdirs, Hok |- *.
  - destruct (Hok eq_refl) as (_ & _ & Hkey).
    rewrite (write_on_file _ _ "" w4 Hkey). simpl. split.
    + intros k n Hne Hk. rewrite lookup_insert_ne by congruence. apply Hkeep; assumption.
    + intros k Hk. apply Hdirs in Hk.
      rewrite lookup_insert_ne by congruence. exact Hk.
  - split; [exact Hkeep | exact Hdirs].
Qed.

(** X21: [_get_page] changes no entry of the file system other than the one
    at the download path and replaces no directory; and when the query for
    the page content fails, it leaves the file system as it was: no
    directory is made, and an earlier download of the page is not
    truncated. *)
Theorem get_page_keeps_other_entries (self : SharepointIngestDoc.t) (w : World) :
  (forall k n, k <> to_str (SharepointIngestDoc.filename self) ->
     fs w !! k = Some n ->
     fs (snd (SharepointIngestDoc._get_page self w)) !! k = Some n)
  /\ (forall k, fs w !! k = Some Dir ->
        fs (snd (SharepointIngestDoc._get_page self w)) !! k = Some Dir)
  /\ (forall e, listItemAllFields (SharepointIngestDoc.file self) = Raise e ->
        fs (snd (SharepointIngestDoc._get_page self w)) = fs w).
Proof.
  rewrite (proj2 (get_page_world_try self w)), get_page_try_steps. cbv zeta.
  destruct (listItemAllFields (SharepointIngestDoc.file self)) as [content|e0].
  2: { simpl. repeat split; auto. }
  set (w0 := mkWorld (fs w) _ (logs w)).
  assert (H0 : fs w0 = fs w) by reflexivity.
  destruct (negb _); [|destruct (SharepointIngestDoc.meta self) as [m|]].
  - destruct (page_write_frame self (page_payload content) w w0 H0) as [Hk Hd].
    cbv zeta in Hk, Hd. repeat split; [exact Hk | exact Hd | discriminate].
  - assert (H1 : fs (logged w0 INFO (no_content_msg m)) = fs w) by reflexivity.
    destruct (page_write_frame self (page_payload content) w _ H1) as [Hk Hd].
    cbv zeta in Hk, Hd. repeat split; [exact Hk | exact Hd | discriminate].
  - simpl. repeat split; auto; discriminate.
Qed.

End FetchOnDisk.

(** *** A partial download and the next run *)

Section PartialDownload.
Context `{Externals}.

Lemma get_file_skip_run (self : SharepointIngestDoc.t) (w : World) (content : string) :
  FS.lookup (SharepointIngestDoc.filename self) w = Some (RegFile content) ->
  content <> "" ->
  SharepointIngestDoc.get_file self w
  = (Ok self, logged w DEBUG ("File exists: "
                              +:+ to_str (SharepointIngestDoc.filename self)
                              +:+ ", skipping get_file")).
Proof.
  intros Hc Hne.
  unfold SharepointIngestDoc.get_file, SharepointIngestDoc.skip_if_file_exists.
  unfold FS.is_file, FS.stat_size. rewrite Hc.
  destruct content as [|c r]; [congruence|]. reflexivity.
Qed.

Lemma prepare_download_ok_parts (self : SharepointIngestDoc.t) (w : World) :
  fst (prepare_download self w) = Ok tt ->
  p_parts (SharepointIngestDoc.filename self) <> [].
Proof.
  unfold prepare_download, mbind, M_bind, bind.
  destruct (prepare_dirs self w) as [[[]|e] w2]; [|discriminate].
  unfold FS.open_w. destruct (FS.walk _ _ w2); [discriminate|].
  unfold FS.lookup. destruct (p_parts (SharepointIngestDoc.filename self));
    [discriminate | discriminate].
Qed.

(** X11: with the skip decorator as the specification describes it, a
    [_get_file] that wrote at least one byte makes the next [get_file] a
    skip, also when its transfer broke off: the partial file left at the
    download path is taken for a finished download, and no request is
    sent. *)
Theorem partial_download_taken_as_cached (self : SharepointIngestDoc.t) (w : World) :
  fst (prepare_download self w) = Ok tt ->
  t_written (fetch_transfer self) <> "" ->
  let w' := snd (SharepointIngestDoc._get_file self w) in
  fst (SharepointIngestDoc.get_file self w') = Ok self
  /\ net (snd (SharepointIngestDoc.get_file self w')) = net w'
  /\ fs (snd (SharepointIngestDoc.get_file self w')) = fs w'.
Proof.
  intros Hready Hbytes w'.
  assert (Hc : FS.lookup (SharepointIngestDoc.filename self) w'
               = Some (RegFile (t_written (fetch_transfer self)))).
  { assert (Hl : fs w' !! to_str (SharepointIngestDoc.filename self)
                 = Some (RegFile (t_written (fetch_transfer self)))).
    { subst w'. rewrite get_file_fs, Hready. apply lookup_insert_eq. }
    unfold FS.lookup.
    pose proof (prepare_download_ok_parts self w Hready) as Hparts.
    destruct (p_parts (SharepointIngestDoc.filename self)); [congruence|].
    exact Hl. }
  rewrite (get_file_skip_run self w' _ Hc Hbytes). repeat split; reflexivity.
Qed.

End PartialDownload.

(** ** More on enumeration *)

Section EnumerationMore.
Context `{Externals}.
Variable inherited : option (Folder -> bool -> M (list File)).

(** X12: when every page of the listing has a non-empty [Url], no page is
    lost: the result has one entry per page, in the order of the listing,
    each with the [Url] as given and the handle asked for under that [Url]
    with a leading slash; nothing is logged. *)
Theorem list_pages_complete (site_client : Site) (urls : list string) (w : World) :
  site_pages site_client = Ok (List.map with_url urls) ->
  Forall (fun u => u <> "") urls ->
  SharepointConnector._list_pages site_client w
  = (Ok (List.map (page_entry site_client) urls), w)
  /\ Forall (fun u => exists p,
               fst (page_entry site_client u)
               = get_file_by_server_relative_path site_client p
               /\ PyStr.startswith_char "/" p = true
               /\ (p = u \/ p = "/" +:+ u)
               /\ url (snd (page_entry site_client u)) = u) urls.
Proof.
  intros Hpages Hne. split.
  - unfold SharepointConnector._list_pages. rewrite Hpages.
    unfold mbind, M_bind, bind. cbn [lift].
    rewrite <- (app_nil_r (List.map with_url urls)).
    rewrite list_pages_loop_valid by exact Hne. reflexivity.
  - apply Forall_forall. intros u _. unfold page_entry. cbn [fst snd url].
    destruct (PyStr.startswith_char "/" u) eqn:Hs.
    + exists u. repeat split; auto.
    + exists ("/" +:+ u). repeat split; auto.
Qed.

(** X13: a page whose [Url] is the empty string makes the whole listing
    fail: [page_url[0]] raises [IndexError], and the entries of the pages
    before it are lost with it. *)
Theorem list_pages_empty_url_raises (site_client : Site) (urls : list string)
    (post : list PageMeta) (w : World) :
  site_pages site_client = Ok (List.map with_url urls ++ with_url "" :: post) ->
  Forall (fun u => u <> "") urls ->
  SharepointConnector._list_pages site_client w
  = (Raise (IndexError "string index out of range"), w).
Proof.
  intros Hpages Hne. unfold SharepointConnector._list_pages. rewrite Hpages.
  unfold mbind, M_bind, bind. cbn [lift].
  rewrite list_pages_loop_valid by exact Hne. reflexivity.
Qed.

Lemma mapM_lift_ok {A B} (g : A -> Res B) (l : list A) (ys : list B) (w w' : World) :
  mapM (fun a => lift (g a)) l w = (Ok ys, w') ->
  w' = w /\ Forall2 (fun a y => g a = Ok y) l ys.
Proof.
  revert ys. induction l as [|a l IH]; intros ys; cbn [mapM].
  - intros Hr. inversion Hr. split; [reflexivity | constructor].
  - unfold mbind at 1. unfold M_bind, bind. unfold lift at 1.
    destruct (g a) as [b|e] eqn:Ha; [|discriminate].
    unfold mbind at 1.
    destruct (mapM (fun a0 => lift (g a0)) l w) as [[bs|e] w1] eqn:Hl; [|discriminate].
    intros Hr. inversion Hr; subst.
    destruct (IH bs eq_refl) as [-> HF]. split; [reflexivity|].
    constructor; assumption.
Qed.

(** X14: one unsupported file costs the whole site.  When the listing of
    the root folder is reached and holds a file without extension or with
    an unknown one, [_ingest_site_docs] raises the constructor's
    [ValueError]; no record is returned, not even for the supported files
    listed beside it, and the pages are never asked for. *)
Theorem ingest_site_docs_aborted_by_unsupported_file (self : SharepointConnector.t)
    (site_client : Site) (files : list File) (folders : list Folder) (f : File)
    (w : World) :
  let root_folder :=
    get_folder_by_server_relative_path site_client
      (SimpleSharepointConfig.path (SharepointConnector.config self)) in
  let e := PyStr.join "" (suffixes (of_str (name f))) in
  f_exists root_folder = Ok false ->
  f_expand root_folder = Ok (files, folders) ->
  SimpleSharepointConfig.recursive (SharepointConnector.config self) = false ->
  In f files ->
  e = "" \/ SharepointIngestDoc.ext_known e = false ->
  exists msg,
    SharepointConnector._ingest_site_docs inherited self site_client w
    = (Raise (ValueError msg), w).
Proof.
  intros root_folder e Hex Hexp Hrec Hin Hbad.
  pose proof (new_file_rejected (SharepointConnector.standard_config self)
                (SharepointConnector.config self) f Hbad) as Hnew.
  assert (Hup : forall e', SharepointConnector.file_docs self files w = (Raise e', w) ->
            SharepointConnector._ingest_site_docs inherited self site_client w
            = (Raise e', w)).
  { intros e' Hf. unfold SharepointConnector._ingest_site_docs. fold root_folder.
    rewrite Hex. unfold mbind, M_bind, bind. cbn [lift]. rewrite Hrec.
    rewrite (list_files_not_recursive inherited root_folder files folders w Hexp).
    rewrite Hf. reflexivity. }
  unfold SharepointConnector.file_docs in Hup.
  destruct (mapM_lift_raises
              (fun a => SharepointIngestDoc.new (SharepointConnector.standard_config self)
                          (SharepointConnector.config self) a None)
              f _ files Hnew Hin w) as (a & e' & _ & Ha & Hrun).
  apply Hup in Hrun. rewrite Hrun.
  rewrite new_file_cases in Ha.
  destruct (negb (PyStr.truthy _)) in Ha.
  { inversion Ha; subst. eexists; reflexivity. }
  destruct (negb (SharepointIngestDoc.ext_known _)) in Ha.
  { inversion Ha; subst. eexists; reflexivity. }
  unfold SharepointIngestDoc.new in Ha.
  destruct (negb (PyStr.truthy _)) in Ha.
  { inversion Ha; subst. eexists; reflexivity. }
  destruct (negb (SharepointIngestDoc.ext_known _)) in Ha.
  { inversion Ha; subst. eexists; reflexivity. }
  destruct (set_download_paths_file (SharepointConnector.standard_config self) a
              (SharepointIngestDoc.assigned_ext a None)) as ([[[d1 d2] d3] d4] & Hp).
  rewrite res_bind_unfold, Hp in Ha. discriminate Ha.
Qed.

(** X15: when the [Exists] query answers [False] (the case in which the
    code goes on to the listing) and the listing of the root folder
    succeeds, then without pages and without recursion the records
    returned for a site correspond one to one, in order, to the files the
    root folder lists: each carries its file, no [meta], and the
    connector's two configurations; the world is left as it was. *)
Theorem ingest_site_docs_records_match_files (self : SharepointConnector.t)
    (site_client : Site) (files : list File) (folders : list Folder)
    (docs : list SharepointIngestDoc.t) (w w' : World) :
  let root_folder :=
    get_folder_by_server_relative_path site_client
      (SimpleSharepointConfig.path (SharepointConnector.config self)) in
  f_exists root_folder = Ok false ->
  f_expand root_folder = Ok (files, folders) ->
  SimpleSharepointConfig.recursive (SharepointConnector.config self) = false ->
  SimpleSharepointConfig.process_pages (SharepointConnector.config self) = false ->
  SharepointConnector._ingest_site_docs inherited self site_client w = (Ok docs, w') ->
  w' = w
  /\ List.map SharepointIngestDoc.file docs = files
  /\ Forall (fun d => SharepointIngestDoc.meta d = None
                      /\ SharepointIngestDoc.config d = SharepointConnector.config self
                      /\ SharepointIngestDoc.standard_config d
                         = SharepointConnector.standard_config self) docs.
Proof.
  intros root_folder Hex Hexp Hrec Hpages.
  unfold SharepointConnector._ingest_site_docs. fold root_folder. rewrite Hex.
  unfold mbind, M_bind, bind. cbn [lift]. rewrite Hrec, Hpages.
  rewrite (list_files_not_recursive inherited root_folder files folders w Hexp).
  unfold SharepointConnector.file_docs.
  destruct (mapM _ files w) as [[ds|e] w1] eqn:Hm; [|discriminate].
  intros Hr. inversion Hr; subst.
  destruct (mapM_lift_ok _ _ _ _ _ Hm) as [-> HF].
  split; [reflexivity|].
  clear Hm Hr Hexp. induction HF as [|a d l ds' Had HF IH]; [split; constructor|].
  destruct (new_file_fields (SharepointConnector.standard_config self)
              (SharepointConnector.config self) a d Had)
    as (_ & Hmeta & Hfile & Hcfg & Hsc).
  destruct IH as [IHf IHm]. split.
  - cbn [List.map]. rewrite Hfile, IHf. reflexivity.
  - constructor; [repeat split; assumption | exact IHm].
Qed.

End EnumerationMore.

(** *** Enumeration does not fetch *)

Section EnumerationQuiet.
Context `{Externals}.

Lemma quiet_ret {A} (a : A) : quiet (mret a).
Proof. intros w. split; reflexivity. Qed.

Lemma quiet_raise {A} (e : exn) : quiet (raise (A := A) e).
Proof. intros w. split; reflexivity. Qed.

Lemma quiet_lift {A} (r : Res A) : quiet (lift r).
Proof. intros w. split; reflexivity. Qed.

Lemma quiet_log (l : LogLevel) (msg : string) : quiet (log l msg).
Proof. intros w. split; reflexivity. Qed.

Lemma quiet_bind {A B} (m : M A) (k : A -> M B) :
  quiet m -> (forall a, quiet (k a)) -> quiet (m ≫= k).
Proof.
  intros Hm Hk w. unfold mbind, M_bind, bind.
  destruct (Hm w) as [Hf Hn]. destruct (m w) as [[a|e] w1]; simpl in Hf, Hn.
  - destruct (Hk a w1) as [Hf' Hn']. split; congruence.
  - split; assumption.
Qed.

Lemma quiet_mapM {A B} (f : A -> M B) (l : list A) :
  (forall a, quiet (f a)) -> quiet (mapM f l).
Proof.
  intros Hf. induction l as [|a l IH]; cbn [mapM]; [apply quiet_ret|].
  apply quiet_bind; [apply Hf|]. intros b.
  apply quiet_bind; [exact IH|]. intros bs. apply quiet_ret.
Qed.

Lemma quiet_list_files_loop (inh : option (Folder -> bool -> M (list File)))
    (folders : list Folder) (recursive : bool) (files : list File) :
  (forall g, inh = Some g -> forall f b, quiet (g f b)) ->
  quiet (SharepointConnector._list_files_loop inh folders recursive files).
Proof.
  intros Hq. revert files. induction folders as [|f rest IH]; intros files;
    cbn [SharepointConnector._list_files_loop]; [apply quiet_ret|].
  unfold SharepointConnector.getattr_list_objects.
  destruct inh as [g|].
  - change (quiet (more ← g f recursive;
                   SharepointConnector._list_files_loop (Some g) rest recursive
                     (files ++ more))).
    apply quiet_bind; [apply (Hq g eq_refl)|]. intros more. apply IH.
  - intros w. split; reflexivity.
Qed.

Lemma quiet_list_files (inh : option (Folder -> bool -> M (list File)))
    (root : Folder) (recursive : bool) :
  (forall g, inh = Some g -> forall f b, quiet (g f b)) ->
  quiet (SharepointConnector._list_files inh root recursive).
Proof.
  intros Hq. unfold SharepointConnector._list_files.
  apply quiet_bind; [apply quiet_lift|]. intros [files folders].
  destruct (negb recursive); [apply quiet_ret | apply quiet_list_files_loop, Hq].
Qed.

Lemma quiet_list_pages_loop (site_client : Site) (pages : list PageMeta)
    (pfiles : list (File * Meta)) :
  quiet (SharepointConnector._list_pages_loop site_client pages pfiles).
Proof.
  revert pfiles. induction pages as [|p rest IH]; intros pfiles;
    cbn [SharepointConnector._list_pages_loop]; [apply quiet_ret|].
  destruct (page_Url p) as [u|].
  - apply quiet_bind; [apply quiet_lift|]. intros c. apply IH.
  - apply quiet_bind; [apply quiet_log|]. intros _. apply quiet_ret.
Qed.

(** X16: enumeration does not fetch.  [_ingest_site_docs] writes nothing to
    the file system and sends no download or page-content request; all it
    leaves in the world are log records.  (For the subfolders this holds
    of whatever [_list_objects] the base classes provide, as long as that
    does not fetch either.) *)
Theorem ingest_site_docs_does_not_fetch
    (inh : option (Folder -> bool -> M (list File)))
    (self : SharepointConnector.t) (site_client : Site) (w : World) :
  (forall g, inh = Some g -> forall f b, quiet (g f b)) ->
  fs (snd (SharepointConnector._ingest_site_docs inh self site_client w)) = fs w
  /\ net (snd (SharepointConnector._ingest_site_docs inh self site_client w)) = net w.
Proof.
  intros Hq. revert w. change (quiet (SharepointConnector._ingest_site_docs inh self
                                       site_client)).
  unfold SharepointConnector._ingest_site_docs.
  apply quiet_bind; [apply quiet_lift|]. intros e. destruct e.
  - apply quiet_bind; [apply quiet_log|]. intros _. apply quiet_ret.
  - apply quiet_bind; [apply quiet_list_files, Hq|]. intros files.
    apply quiet_bind; [apply quiet_mapM; intros a; apply quiet_lift|]. intros output.
    destruct (SimpleSharepointConfig.process_pages _); [|apply quiet_ret].
    apply quiet_bind.
    { unfold SharepointConnector._list_pages.
      apply quiet_bind; [apply quiet_lift|]. intros pages.
      apply quiet_list_pages_loop. }
    intros page_files.
    apply quiet_bind; [apply quiet_mapM; intros a; apply quiet_lift|].
    intros page_output. apply quiet_ret.
Qed.

End EnumerationQuiet.

(** ** Client set-up and the sites of a tenant *)

Lemma take_drop (n : nat) (s : string) : PyStr.take n s +:+ PyStr.drop n s = s.
Proof.
  revert s. induction n as [|n IH]; intros s; [destruct s; reflexivity|].
  destruct s as [|c s]; [reflexivity|]. simpl. rewrite str_app_cons, IH. reflexivity.
Qed.

(** [s[0:len(p)] == p] says that [p] is a prefix of [s]. *)
Lemma take_eqb_prefix (p s : string) :
  String.eqb (PyStr.take (String.length p) s) p = true <-> exists rest, s = p +:+ rest.
Proof.
  rewrite String.eqb_eq. split.
  - intros Ht. exists (PyStr.drop (String.length p) s).
    rewrite <- Ht at 1. symmetry. apply take_drop.
  - intros (rest & ->). apply take_app.
Qed.

Lemma startswith_iff (p s : string) :
  PyText.startswith p s = true <-> exists b, s = p +:+ b.
Proof.
  revert s. induction p as [|a p IH]; intros s.
  - split; [intros _; exists s; reflexivity | reflexivity].
  - destruct s as [|c s]; simpl.
    + split; [discriminate | intros (b & Hb); discriminate Hb].
    + rewrite andb_true_iff, Ascii.eqb_eq, IH. split.
      * intros (-> & b & ->). exists b. reflexivity.
      * intros (b & Hb). rewrite str_app_cons in Hb. inversion Hb. eauto.
Qed.

(** [sub in s] says that [s] is some text, [sub], and some text. *)
Lemma contains_iff (sub s : string) :
  PyText.contains sub s = true <-> exists a b, s = a +:+ sub +:+ b.
Proof.
  induction s as [|c s IH].
  - simpl. rewrite orb_false_r, startswith_iff. split.
    + intros (b & Hb). exists "", b. exact Hb.
    + intros (a & b & Hab). destruct a; [exists b; exact Hab|].
      rewrite str_app_cons in Hab. discriminate Hab.
  - cbn [PyText.contains]. rewrite orb_true_iff, startswith_iff, IH. split.
    + intros [(b & Hb) | (a & b & ->)].
      * exists "", b. exact Hb.
      * exists (String c a), b. reflexivity.
    + intros (a & b & Hab). destruct a as [|x a].
      * left. exists b. exact Hab.
      * right. rewrite str_app_cons in Hab. inversion Hab. eauto.
Qed.

(** [all(c == "0" for c in g.replace("-", ""))] says that [g] is made of
    zeros and dashes. *)
Lemma zeros_and_dashes (g : string) :
  PyText.all_char "0" (PyText.replace "-" "" g) = true
  <-> Forall (fun c => c = "0"%char \/ c = "-"%char) (list_ascii_of_string g).
Proof.
  unfold PyText.replace. induction g as [|c g IH].
  - simpl. split; [constructor | reflexivity].
  - cbn [PyText.replace_from PyText.startswith list_ascii_of_string].
    destruct (Ascii.eqb_spec "-" c) as [<-|Hc]; cbn [andb String.length Nat.sub].
    + rewrite str_app_nil_l, IH. split.
      * intros Hg. constructor; [right; reflexivity | exact Hg].
      * intros Hg. inversion Hg. assumption.
    + cbn [PyText.all_char]. rewrite andb_true_iff, Ascii.eqb_eq, IH. split.
      * intros [-> Hg]. constructor; [left; reflexivity | exact Hg].
      * intros Hg. inversion Hg as [|? ? [Hz|Hd] Hg']; subst; [auto | congruence].
Qed.

Section Tenant.
Context `{Externals} `{SharePointLib}.

Lemma filter_site_url_run (self : SharepointClient.t) (base : string)
    (site : SiteProperties) (w : World) :
  SharepointClient.base_site_url self = Some base ->
  SharepointClient._filter_site_url self site w
  = (Ok (match sp_url site with
         | None => false
         | Some u =>
             String.eqb (PyStr.take (String.length base) u) base
             && PyText.contains "/sites/" u
             && PyText.all_char "0"
                  (PyText.replace "-" "" (default "" (sp_GroupId site)))
         end), w).
Proof.
  intros Hb. unfold SharepointClient._filter_site_url,
    SharepointClient.getattr_base_site_url.
  destruct (sp_url site); [|reflexivity]. rewrite Hb. reflexivity.
Qed.

(** X17: [_filter_site_url] keeps a site exactly when its url begins with
    the base url, contains [/sites/], and its [GroupId] is made of zeros and
    dashes only; a site without url is dropped, and a site without
    [GroupId] passes the last test. *)
Theorem filter_site_url_keeps_iff (self : SharepointClient.t) (base : string)
    (site : SiteProperties) (w : World) :
  SharepointClient.base_site_url self = Some base ->
  SharepointClient._filter_site_url self site w = (Ok true, w)
  <-> exists u,
        sp_url site = Some u
        /\ (exists rest, u = base +:+ rest)
        /\ (exists a b, u = a +:+ "/sites/" +:+ b)
        /\ Forall (fun c => c = "0"%char \/ c = "-"%char)
             (list_ascii_of_string (default "" (sp_GroupId site))).
Proof.
  intros Hb. rewrite (filter_site_url_run self base site w Hb).
  destruct (sp_url site) as [u|].
  - split.
    + intros Hr.
      match type of Hr with
      | (Ok ?a, _) = _ => assert (Hand : a = true) by congruence
      end.
      apply andb_true_iff in Hand as [Hand Hz].
      apply andb_true_iff in Hand as [Hp Hc].
      exists u. split; [reflexivity|].
      split; [apply take_eqb_prefix, Hp|].
      split; [apply contains_iff, Hc | apply zeros_and_dashes, Hz].
    + intros (u' & Hu & Hp & Hc & Hz). inversion Hu; subst u'.
      apply take_eqb_prefix in Hp. apply contains_iff in Hc.
      apply zeros_and_dashes in Hz. rewrite Hp, Hc, Hz. reflexivity.
  - split; [intros Hr; inversion Hr | intros (u & Hu & _); discriminate Hu].
Qed.

Lemma filtered_urls_run (self : SharepointClient.t) (base : string)
    (sites : list SiteProperties) (w : World) :
  SharepointClient.base_site_url self = Some base ->
  SharepointClient.filtered_urls self sites w
  = (Ok (List.map sp_url
           (List.filter (fun s => match fst (SharepointClient._filter_site_url self s w) with
                                  | Ok b => b
                                  | Raise _ => false
                                  end) sites)), w).
Proof.
  intros Hb. induction sites as [|s rest IH]; [reflexivity|].
  cbn [SharepointClient.filtered_urls List.filter].
  unfold mbind at 1. unfold M_bind, bind.
  rewrite (filter_site_url_run self base s w Hb). cbn [fst].
  unfold mbind at 1. rewrite IH.
  match goal with |- context [if ?b then _ else _] => destruct b end; reflexivity.
Qed.

(** X18: with [process_all], the sites [get_ingest_docs] goes through are
    the base site and the tenant sites kept by the filter, each exactly
    once: a site listed twice, or equal to the base site, is processed a
    single time, and the base site is processed even when the tenant lists
    nothing. *)
Theorem tenant_sites_processed_once
    (inh : option (Folder -> bool -> M (list File)))
    (self : SharepointClient.t) (base : string) (sites : list SiteProperties)
    (w : World) :
  set_like set_iter ->
  SimpleSharepointConfig.process_all
    (SharepointConnector.config (SharepointClient.connector self)) = true ->
  SharepointClient.base_site_url self = Some base ->
  tenant_site_properties (SharepointClient.client self) = Ok sites ->
  exists l,
    SharepointClient.get_ingest_docs_body inh self w
    = SharepointClient.ingest_sites inh self l [] w
    /\ NoDup l
    /\ forall x, In x l <->
         (x = Some base
          \/ exists s, In s sites /\ sp_url s = x
                       /\ SharepointClient._filter_site_url self s w = (Ok true, w)).
Proof.
  intros Hset Hall Hb Hsites.
  set (kept := List.filter
                 (fun s => match fst (SharepointClient._filter_site_url self s w) with
                           | Ok b => b
                           | Raise _ => false
                           end) sites).
  assert (Hurls : SharepointClient.tenant_site_urls self w
                  = (Ok (List.map sp_url kept ++ [Some base]), w)).
  { unfold SharepointClient.tenant_site_urls. rewrite Hsites.
    unfold mbind at 1. unfold M_bind, bind. cbn [lift].
    unfold mbind at 1. rewrite (filtered_urls_run self base sites w Hb).
    unfold mbind at 1. unfold SharepointClient.getattr_base_site_url.
    rewrite Hb. reflexivity. }
  exists (set_iter (List.map sp_url kept ++ [Some base])).
  destruct (Hset (List.map sp_url kept ++ [Some base])) as [Hnd Hin].
  split; [|split; [exact Hnd|]].
  - unfold SharepointClient.get_ingest_docs_body. rewrite Hall.
    unfold mbind at 1. unfold M_bind, bind. rewrite Hurls. reflexivity.
  - intros x. rewrite Hin, in_app_iff, in_map_iff. subst kept. split.
    + intros [(s & Hs & Hk) | [Hx|[]]]; [right | left; congruence].
      apply filter_In in Hk as [Hk Hf]. exists s.
      rewrite (filter_site_url_run self base s w Hb) in Hf |- *. cbn [fst] in Hf.
      rewrite Hf. auto.
    + intros [-> | (s & Hs & Hu & Hf)]; [right; left; reflexivity|].
      left. exists s. split; [exact Hu|]. apply filter_In. split; [exact Hs|].
      rewrite Hf. reflexivity.
Qed.

End Tenant.

(** *** [split], [replace] and the admin URL *)

Lemma split_nonempty (c : ascii) (s : string) : PyStr.split c s <> [].
Proof.
  destruct s as [|d r]; simpl; [discriminate|].
  destruct (Ascii.eqb d c); [discriminate|].
  destruct (PyStr.split c r); discriminate.
Qed.

Lemma split_cons (c d : ascii) (r : string) :
  PyStr.split c (String d r)
  = if Ascii.eqb d c then "" :: PyStr.split c r
    else String d (List.hd "" (PyStr.split c r)) :: List.tl (PyStr.split c r).
Proof.
  simpl. destruct (Ascii.eqb d c); [reflexivity|].
  pose proof (split_nonempty c r) as Hne.
  destruct (PyStr.split c r); [congruence | reflexivity].
Qed.

Lemma split_single (c : ascii) (s w : string) :
  PyStr.split c s = [w] -> PyStr.contains_char c s = false /\ w = s.
Proof.
  revert w. induction s as [|d r IH]; intros w.
  - simpl. intros Hs. inversion Hs. split; reflexivity.
  - rewrite split_cons. pose proof (split_nonempty c r) as Hne.
    simpl. destruct (Ascii.eqb d c).
    + intros Hs. inversion Hs. congruence.
    + destruct (PyStr.split c r) as [|a l] eqn:Hr; [congruence|].
      simpl. intros Hs. inversion Hs; subst.
      destruct (IH a eq_refl) as [Hc ->]. split; [exact Hc | reflexivity].
Qed.

Lemma no_sep_app_sep (c : ascii) (t x : string) :
  PyStr.contains_char c (t +:+ String c x) = true.
Proof.
  rewrite contains_char_app. simpl. rewrite Ascii.eqb_refl, orb_true_r. reflexivity.
Qed.

(** [s.split(c)[0]] is the text before the first [c]. *)
Lemma hd_split (c : ascii) (s x : string) :
  List.hd "" (PyStr.split c s) = x
  <-> PyStr.contains_char c x = false
      /\ (s = x \/ exists rest, s = x +:+ String c rest).
Proof.
  revert x. induction s as [|d r IH]; intros x.
  - simpl. split.
    + intros <-. split; [reflexivity | left; reflexivity].
    + intros [_ [<- | (rest & Hr)]]; [reflexivity|].
      destruct x; discriminate Hr.
  - rewrite split_cons. destruct (Ascii.eqb_spec d c) as [->|Hdc]; cbn [List.hd].
    + split.
      * intros <-. split; [reflexivity|]. right. exists r. reflexivity.
      * intros [Hx [<- | (rest & Hr)]].
        { simpl in Hx. rewrite Ascii.eqb_refl in Hx. discriminate Hx. }
        destruct x as [|a x]; [reflexivity|].
        rewrite str_app_cons in Hr. inversion Hr; subst.
        simpl in Hx. rewrite Ascii.eqb_refl in Hx. discriminate Hx.
    + split.
      * intros <-. destruct (proj1 (IH _) eq_refl) as [Hh Hr].
        split.
        { simpl. rewrite Hh, orb_false_r. apply Ascii.eqb_neq, Hdc. }
        destruct Hr as [Hr | (rest & Hr)].
        { left. rewrite <- Hr. reflexivity. }
        right. exists rest. rewrite str_app_cons, <- Hr. reflexivity.
      * intros [Hx [<- | (rest & Hr)]].
        { simpl in Hx. apply orb_false_iff in Hx as [_ Hx].
          f_equal. apply IH. split; [exact Hx | left; reflexivity]. }
        destruct x as [|a x].
        { rewrite str_app_nil_l in Hr. inversion Hr. congruence. }
        rewrite str_app_cons in Hr. inversion Hr; subst.
        simpl in Hx. apply orb_false_iff in Hx as [_ Hx].
        f_equal. apply IH. split; [exact Hx|]. right. exists rest. reflexivity.
Qed.

Lemma last_cons {A} (a d : A) (l : list A) :
  l <> [] -> List.last (a :: l) d = List.last l d.
Proof. destruct l; [congruence | reflexivity]. Qed.

(** [s.split(c)[-1]] is the text after the last [c]. *)
Lemma last_split (c : ascii) (s x : string) :
  List.last (PyStr.split c s) "" = x
  <-> PyStr.contains_char c x = false
      /\ (s = x \/ exists t, s = t +:+ String c x).
Proof.
  revert x. induction s as [|d r IH]; intros x.
  - simpl. split.
    + intros <-. split; [reflexivity | left; reflexivity].
    + intros [_ [<- | (t & Ht)]]; [reflexivity|].
      destruct t; discriminate Ht.
  - rewrite split_cons. pose proof (split_nonempty c r) as Hne.
    destruct (Ascii.eqb_spec d c) as [->|Hdc].
    + rewrite last_cons by exact Hne. rewrite IH. split.
      * intros [Hx [-> | (t & ->)]]; (split; [exact Hx|]); right.
        { exists "". reflexivity. }
        exists (String c t). reflexivity.
      * intros [Hx [<- | (t & Ht)]].
        { simpl in Hx. rewrite Ascii.eqb_refl in Hx. discriminate Hx. }
        split; [exact Hx|]. destruct t as [|a t].
        { rewrite str_app_nil_l in Ht. inversion Ht. left. reflexivity. }
        rewrite str_app_cons in Ht. inversion Ht. right. exists t. reflexivity.
    + destruct (PyStr.split c r) as [|a l] eqn:Hr; [congruence|].
      cbn [List.hd List.tl]. destruct l as [|b l].
      * destruct (split_single c r a Hr) as [Hc ->]. cbn [List.last]. split.
        { intros <-. split; [|left; reflexivity].
          simpl. rewrite Hc, orb_false_r. apply Ascii.eqb_neq, Hdc. }
        intros [Hx [<- | (t & Ht)]]; [reflexivity|].
        destruct t as [|e t].
        { rewrite str_app_nil_l in Ht. inversion Ht. congruence. }
        rewrite str_app_cons in Ht. inversion Ht; subst.
        rewrite no_sep_app_sep in Hc. discriminate Hc.
      * rewrite last_cons by discriminate.
        change (List.last (b :: l) "") with (List.last (a :: b :: l) "").
        rewrite IH. split.
        { intros [Hx [-> | (t & ->)]].
          - rewrite (split_no_sep c x Hx) in Hr. discriminate Hr.
          - split; [exact Hx|]. right. exists (String d t). reflexivity. }
        intros [Hx [<- | (t & Ht)]].
        { simpl in Hx. apply orb_false_iff in Hx as [_ Hx].
          rewrite (split_no_sep c r Hx) in Hr. discriminate Hr. }
        split; [exact Hx|]. destruct t as [|e t].
        { rewrite str_app_nil_l in Ht. inversion Ht. congruence. }
        rewrite str_app_cons in Ht. inversion Ht. right. exists t. reflexivity.
Qed.

Lemma replace_from_skip (old new x rest : string) :
  PyText.replace_from old new (String.length x) (x +:+ rest)
  = PyText.replace_from old new 0 rest.
Proof.
  induction x as [|c x IH]; [reflexivity|].
  rewrite str_app_cons. simpl. exact IH.
Qed.

Lemma replace_from_absent (old new s : string) :
  PyText.contains old s = false -> PyText.replace_from old new 0 s = s.
Proof.
  induction s as [|c s IH]; [reflexivity|].
  cbn [PyText.contains PyText.replace_from]. intros Hc.
  apply orb_false_iff in Hc as [Hs Hc]. rewrite Hs, (IH Hc). reflexivity.
Qed.

(** [(old + rest).replace(old, new) == new + rest] when [old] is not empty
    and does not occur in [rest]. *)
Lemma replace_prefix (old new rest : string) :
  old <> "" -> PyText.contains old rest = false ->
  PyText.replace old new (old +:+ rest) = new +:+ rest.
Proof.
  intros Hold Hrest. unfold PyText.replace.
  destruct old as [|a o]; [congruence|].
  rewrite str_app_cons. cbn [PyText.replace_from].
  assert (Hs : PyText.startswith (String a o) (String a (o +:+ rest)) = true).
  { apply startswith_iff. exists rest. reflexivity. }
  rewrite Hs.
  replace (String.length (String a o) - 1)%nat with (String.length o)
    by (simpl; lia).
  rewrite replace_from_skip, (replace_from_absent _ _ _ Hrest). reflexivity.
Qed.

Section SetupClient.
Context `{Externals} `{SharePointLib}.

Lemma requires_office365 {A B} (func : A -> M B) (a : A) :
  has_dependency "office365" = true ->
  SharepointIngestDoc.requires_dependencies ["office365"] func a = func a.
Proof.
  intros Hdep. unfold SharepointIngestDoc.requires_dependencies.
  cbn [List.filter]. rewrite Hdep. reflexivity.
Qed.

Lemma setup_client_run (self : SharepointConnector.t) (w : World) :
  has_dependency "office365" = true ->
  SimpleSharepointConfig.process_all (SharepointConnector.config self) = true ->
  let cfg := SharepointConnector.config self in
  let parsed := urlparse (SimpleSharepointConfig.site_url cfg) in
  let label := List.hd "" (PyStr.split "." (default "" (u_hostname parsed))) in
  SharepointClient._setup_client self w
  = if String.eqb (List.last (PyStr.split "-" label) "") "admin"
       && String.eqb (u_path parsed) "/"
    then (Ok (SharepointClient.mk self
                (Some (geturl (replace_netloc parsed
                                 (PyText.replace label
                                    (List.hd "" (PyStr.split "-" label))
                                    (u_netloc parsed)))))
                (ClientContext (SimpleSharepointConfig.site_url cfg)
                   (SimpleSharepointConfig.client_id cfg)
                   (SimpleSharepointConfig.client_credential cfg))), w)
    else (Raise (ValueError SharepointClient.admin_url_msg), w).
Proof.
  intros Hdep Hall cfg parsed label.
  unfold SharepointClient._setup_client. rewrite (requires_office365 _ _ Hdep).
  unfold SharepointClient._setup_client_body. cbv zeta. rewrite Hall.
  subst cfg parsed label.
  destruct (String.eqb (List.last (PyStr.split "-" _) "") "admin");
    destruct (String.eqb (u_path _) "/"); reflexivity.
Qed.

Lemma admin_label_iff (host : string) :
  String.eqb (List.last (PyStr.split "-" (List.hd "" (PyStr.split "." host))) "")
             "admin" = true
  <-> exists label,
        PyStr.contains_char "." label = false
        /\ (host = label \/ exists rest, host = label +:+ String "." rest)
        /\ (label = "admin" \/ exists t, label = t +:+ "-admin").
Proof.
  rewrite String.eqb_eq. split.
  - intros Hlast. exists (List.hd "" (PyStr.split "." host)).
    destruct (proj1 (hd_split "." host _) eq_refl) as [Hdot Hhost].
    apply last_split in Hlast as [_ Hlabel]. auto.
  - intros (label & Hdot & Hhost & Hlabel).
    assert (Hhd : List.hd "" (PyStr.split "." host) = label).
    { apply hd_split. split; assumption. }
    rewrite Hhd. apply last_split. split; [reflexivity | exact Hlabel].
Qed.

(** X19: with [process_all], the client is set up exactly when the first
    label of the host is [admin] or ends in [-admin] and the path of the
    site URL is exactly [/]; any other path, the empty path of a URL
    written without its final slash included, is refused with the
    [ValueError] that asks for [https://[tenant]-admin.sharepoint.com]. *)
Theorem setup_client_accepts_iff (self : SharepointConnector.t) (w : World) :
  has_dependency "office365" = true ->
  SimpleSharepointConfig.process_all (SharepointConnector.config self) = true ->
  let parsed :=
    urlparse (SimpleSharepointConfig.site_url (SharepointConnector.config self)) in
  let host := default "" (u_hostname parsed) in
  ((exists st, SharepointClient._setup_client self w = (Ok st, w))
   <-> ((exists label,
           PyStr.contains_char "." label = false
           /\ (host = label \/ exists rest, host = label +:+ String "." rest)
           /\ (label = "admin" \/ exists t, label = t +:+ "-admin"))
        /\ u_path parsed = "/"))
  /\ (u_path parsed <> "/" ->
      SharepointClient._setup_client self w
      = (Raise (ValueError SharepointClient.admin_url_msg), w)).
Proof.
  intros Hdep Hall parsed host.
  pose proof (setup_client_run self w Hdep Hall) as Hrun. cbv zeta in Hrun.
  fold parsed in Hrun. fold host in Hrun. rewrite Hrun.
  pose proof (admin_label_iff host) as Hlabel.
  destruct (String.eqb (List.last _ "") "admin") eqn:Hl;
    destruct (String.eqb_spec (u_path parsed) "/") as [Hp|Hp]; cbn [andb].
  - split; [|congruence]. split; [|intros _; eexists; reflexivity].
    intros _. split; [apply Hlabel; reflexivity | exact Hp].
  - split; [|reflexivity]. split; [intros (st & Hst); discriminate Hst|].
    intros [_ Hp']. congruence.
  - split; [|congruence]. split; [intros (st & Hst); discriminate Hst|].
    intros [Hex _]. apply Hlabel in Hex. discriminate Hex.
  - split; [|reflexivity]. split; [intros (st & Hst); discriminate Hst|].
    intros [_ Hp']. congruence.
Qed.

(** X20: with [process_all] set and [office365] importable, for an admin
    URL whose host has the first label [t-admin] ([t] without dash or
    dot), whose path is [/], and whose network location is [t-admin]
    followed by a text in which [t-admin] does not occur, the base site
    url is the parsed URL with the network location [t] followed by that
    text, put together again by [geturl]; the client is made for the site
    URL as configured. *)
Theorem setup_client_base_site_url (self : SharepointConnector.t) (w : World)
    (t nrest : string) :
  has_dependency "office365" = true ->
  SimpleSharepointConfig.process_all (SharepointConnector.config self) = true ->
  let cfg := SharepointConnector.config self in
  let parsed := urlparse (SimpleSharepointConfig.site_url cfg) in
  let host := default "" (u_hostname parsed) in
  PyStr.contains_char "." t = false ->
  PyStr.contains_char "-" t = false ->
  (host = t +:+ "-admin" \/ exists rest, host = (t +:+ "-admin") +:+ String "." rest) ->
  u_path parsed = "/" ->
  u_netloc parsed = (t +:+ "-admin") +:+ nrest ->
  PyText.contains (t +:+ "-admin") nrest = false ->
  SharepointClient._setup_client self w
  = (Ok (SharepointClient.mk self
           (Some (geturl (replace_netloc parsed (t +:+ nrest))))
           (ClientContext (SimpleSharepointConfig.site_url cfg)
              (SimpleSharepointConfig.client_id cfg)
              (SimpleSharepointConfig.client_credential cfg))), w).
Proof.
  intros Hdep Hall cfg parsed host Hdot Hdash Hhost Hpath Hnet Hocc.
  pose proof (setup_client_run self w Hdep Hall) as Hrun. cbv zeta in Hrun.
  fold cfg in Hrun. fold parsed in Hrun. fold host in Hrun. rewrite Hrun.
  assert (Hlabel : List.hd "" (PyStr.split "." host) = t +:+ "-admin").
  { apply hd_split. split; [|exact Hhost].
    rewrite contains_char_app, Hdot. reflexivity. }
  rewrite Hlabel.
  assert (Hlast : List.last (PyStr.split "-" (t +:+ "-admin")) "" = "admin").
  { apply last_split. split; [reflexivity|]. right. exists t. reflexivity. }
  assert (Hhd : List.hd "" (PyStr.split "-" (t +:+ "-admin")) = t).
  { apply hd_split. split; [exact Hdash|]. right. exists "admin". reflexivity. }
  rewrite Hlast, Hhd, Hpath, Hnet. cbn [String.eqb Ascii.eqb Bool.eqb andb].
  rewrite replace_prefix; [reflexivity | | exact Hocc].
  destruct t; discriminate.
Qed.

End SetupClient.

(** ** A connector for one site *)

Section SingleSite.
Context `{Externals} `{SharePointLib}.

(** X22: without [process_all] the site URL is not examined: the connector
    is built for any URL, with the client for the configured site and
    credentials and with [base_site_url] left unset; [get_ingest_docs]
    then enumerates that one site with that client, and
    [_filter_site_url], which reads the unset attribute, raises
    [AttributeError] for every site that has a url. *)
Theorem single_site_connector
    (inherited : option (Folder -> bool -> M (list File)))
    (sc : StandardConnectorConfig) (cfg : SimpleSharepointConfig.t) (w : World) :
  has_dependency "office365" = true ->
  SimpleSharepointConfig.process_all cfg = false ->
  exists self,
    SharepointClient.__init__ sc cfg w = (Ok self, w)
    /\ SharepointClient.connector self = SharepointConnector.mk sc cfg
    /\ SharepointClient.base_site_url self = None
    /\ SharepointClient.client self
       = ClientContext (SimpleSharepointConfig.site_url cfg)
           (SimpleSharepointConfig.client_id cfg)
           (SimpleSharepointConfig.client_credential cfg)
    /\ (forall w', SharepointClient.get_ingest_docs inherited self w'
                   = SharepointConnector._ingest_site_docs inherited
                       (SharepointConnector.mk sc cfg)
                       (SharepointClient.client self) w')
    /\ (forall site u w', sp_url site = Some u ->
          SharepointClient._filter_site_url self site w'
          = (Raise (AttributeError "base_site_url"), w')).
Proof.
  intros Hdep Hone.
  exists (SharepointClient.mk (SharepointConnector.mk sc cfg) None
            (ClientContext (SimpleSharepointConfig.site_url cfg)
               (SimpleSharepointConfig.client_id cfg)
               (SimpleSharepointConfig.client_credential cfg))).
  split; [|split; [reflexivity|split; [reflexivity|split; [reflexivity|split]]]].
  - unfold SharepointClient.__init__, SharepointClient._setup_client.
    rewrite (requires_office365 _ _ Hdep).
    unfold SharepointClient._setup_client_body. cbv zeta.
    cbn [SharepointConnector.config]. rewrite Hone. reflexivity.
  - intros w'. unfold SharepointClient.get_ingest_docs.
    rewrite (requires_office365 _ _ Hdep).
    unfold SharepointClient.get_ingest_docs_body.
    cbn [SharepointClient.connector SharepointConnector.config]. rewrite Hone.
    reflexivity.
  - intros site u w' Hu. unfold SharepointClient._filter_site_url. rewrite Hu.
    reflexivity.
Qed.

End SingleSite.

(** ** The properties at concrete inputs *)

Lemma get_file_stores_transferred_bytes_witness :
  fs (snd (SharepointIngestDoc._get_file (H := Sample.externals)
             (Sample.doc Sample.broken_txt None) Sample.cached_world))
    !! "/tmp/dl/sites/eng/Shared Documents/c.txt"
  = Some (RegFile "he").
Proof.
  apply (get_file_stores_transferred_bytes (H := Sample.externals)
           (Sample.doc Sample.broken_txt None) Sample.cached_world).
  vm_compute. reflexivity.
Defined.

Lemma get_file_keeps_other_entries_witness :
  fs (snd (SharepointIngestDoc._get_file (H := Sample.externals)
             (Sample.doc Sample.broken_txt None) Sample.cached_world))
    !! "/tmp/dl/sites/eng/Shared Documents/a.txt"
  = Some (RegFile "hello").
Proof.
  apply (proj1 (get_file_keeps_other_entries (H := Sample.externals)
                  (Sample.doc Sample.broken_txt None) Sample.cached_world)).
  - vm_compute. discriminate.
  - vm_compute. reflexivity.
Defined.

Lemma get_file_leaves_directories_witness :
  FS.is_dir (of_str "/tmp/out/sites/eng/Shared Documents")
    (snd (SharepointIngestDoc._get_file (H := Sample.externals)
            (Sample.doc Sample.a_txt None) Sample.world)) = true
  /\ FS.is_dir (of_str "/tmp/dl/sites/eng/Shared Documents")
       (snd (SharepointIngestDoc._get_file (H := Sample.externals)
               (Sample.doc Sample.a_txt None) Sample.world)) = true.
Proof.
  apply (get_file_leaves_directories (H := Sample.externals)
           (Sample.doc Sample.a_txt None) Sample.world).
  vm_compute. reflexivity.
Defined.

Lemma get_page_stores_content_witness :
  fs (snd (SharepointIngestDoc._get_page (H := Sample.externals)
             (Sample.doc Sample.home_page (Some Sample.home_meta)) Sample.world))
    !! "/tmp/dl/sites/eng/SitePages/Home.html"
  = Some (RegFile "<p>Welcome</p>")
  /\ fs (snd (SharepointIngestDoc._get_page (H := Sample.externals)
                (Sample.doc Cases.empty_page (Some Sample.home_meta)) Sample.world))
       !! "/tmp/dl/sites/eng/SitePages/Home.html"
     = Some (RegFile "<div></div>").
Proof.
  split.
  - apply (get_page_stores_content (H := Sample.externals)
             (Sample.doc Sample.home_page (Some Sample.home_meta)) Sample.world
             (mkPageFields None (Some "<p>Welcome</p>")) Sample.home_meta).
    + reflexivity.
    + reflexivity.
    + vm_compute. reflexivity.
  - apply (get_page_stores_content (H := Sample.externals)
             (Sample.doc Cases.empty_page (Some Sample.home_meta)) Sample.world
             (mkPageFields None (Some "")) Sample.home_meta).
    + reflexivity.
    + reflexivity.
    + vm_compute. reflexivity.
Defined.

Lemma partial_download_taken_as_cached_witness :
  fst (SharepointIngestDoc.get_file (H := Sample.externals)
         (Sample.doc Sample.broken_txt None) Cases.partial_world)
  = Ok (Sample.doc Sample.broken_txt None)
  /\ net (snd (SharepointIngestDoc.get_file (H := Sample.externals)
                 (Sample.doc Sample.broken_txt None) Cases.partial_world))
     = net Cases.partial_world.
Proof.
  destruct (partial_download_taken_as_cached (H := Sample.externals)
              (Sample.doc Sample.broken_txt None) Sample.world)
    as (Hr & Hn & _).
  - vm_compute. reflexivity.
  - vm_compute. discriminate.
  - split; [exact Hr | exact Hn].
Defined.

Lemma list_pages_complete_witness :
  SharepointConnector._list_pages (H := Sample.externals)
    (Sample.site Sample.root
       [with_url "SitePages/Home.aspx"; with_url "/SitePages/News.aspx"])
    Sample.world
  = (Ok [(Sample.page_file "/SitePages/Home.aspx" (Ok (mkPageFields None None)),
          mkMeta "SitePages/Home.aspx" (Some "sites/eng"));
         (Sample.page_file "/SitePages/News.aspx" (Ok (mkPageFields None None)),
          mkMeta "/SitePages/News.aspx" (Some "sites/eng"))],
     Sample.world).
Proof.
  apply (list_pages_complete (H := Sample.externals)
           (Sample.site Sample.root
              [with_url "SitePages/Home.aspx"; with_url "/SitePages/News.aspx"])
           ["SitePages/Home.aspx"; "/SitePages/News.aspx"] Sample.world).
  - reflexivity.
  - repeat constructor; discriminate.
Defined.

Lemma list_pages_empty_url_raises_witness :
  SharepointConnector._list_pages (H := Sample.externals)
    (Sample.site Sample.root [with_url "SitePages/Home.aspx"; with_url ""])
    Sample.world
  = (Raise (IndexError "string index out of range"), Sample.world).
Proof.
  apply (list_pages_empty_url_raises (H := Sample.externals)
           (Sample.site Sample.root [with_url "SitePages/Home.aspx"; with_url ""])
           ["SitePages/Home.aspx"] [] Sample.world).
  - reflexivity.
  - repeat constructor; discriminate.
Defined.

Lemma ingest_site_docs_aborted_by_unsupported_file_witness :
  exists msg,
    SharepointConnector._ingest_site_docs (H := Sample.externals) None
      (Sample.connector false false)
      (Sample.site (Cases.listed [Sample.a_txt; Sample.file_xyz]) []) Sample.world
    = (Raise (ValueError msg), Sample.world).
Proof.
  apply (ingest_site_docs_aborted_by_unsupported_file (H := Sample.externals) None
           (Sample.connector false false)
           (Sample.site (Cases.listed [Sample.a_txt; Sample.file_xyz]) [])
           [Sample.a_txt; Sample.file_xyz] [] Sample.file_xyz Sample.world).
  - reflexivity.
  - reflexivity.
  - reflexivity.
  - right; left; reflexivity.
  - right. reflexivity.
Defined.

Lemma ingest_site_docs_records_match_files_witness :
  List.map SharepointIngestDoc.file
    [Sample.doc Sample.a_txt None; Sample.doc Sample.b_txt None]
  = [Sample.a_txt; Sample.b_txt].
Proof.
  apply (ingest_site_docs_records_match_files (H := Sample.externals) None
           (Sample.connector false false)
           (Sample.site (Cases.listed [Sample.a_txt; Sample.b_txt]) [])
           [Sample.a_txt; Sample.b_txt] []
           [Sample.doc Sample.a_txt None; Sample.doc Sample.b_txt None]
           Sample.world Sample.world); reflexivity.
Defined.

Lemma ingest_site_docs_does_not_fetch_witness :
  fs (snd (SharepointConnector._ingest_site_docs (H := Sample.externals) None
             (Sample.connector true true)
             (Sample.site (Cases.listed [Sample.a_txt]) [with_url "SitePages/Home.aspx"])
             Sample.cached_world))
  = fs Sample.cached_world.
Proof.
  apply (ingest_site_docs_does_not_fetch (H := Sample.externals) None
           (Sample.connector true true)
           (Sample.site (Cases.listed [Sample.a_txt]) [with_url "SitePages/Home.aspx"])
           Sample.cached_world).
  intros g Hg. discriminate Hg.
Defined.

Lemma remove_dups_set_like : set_like remove_dups.
Proof.
  intros l. split; [apply NoDup_remove_dups|].
  intros x. rewrite <- !list_elem_of_In. apply elem_of_remove_dups.
Qed.

Lemma filter_site_url_keeps_iff_witness :
  SharepointClient._filter_site_url Cases.admin_client
    (mkSiteProperties (Some "https://contoso.sharepoint.com/sites/eng")
       (Some "00000000-0000-0000-0000-000000000000")) Sample.world
  = (Ok true, Sample.world).
Proof.
  apply (filter_site_url_keeps_iff Cases.admin_client Cases.tenant_base
           (mkSiteProperties (Some "https://contoso.sharepoint.com/sites/eng")
              (Some "00000000-0000-0000-0000-000000000000")) Sample.world eq_refl).
  exists "https://contoso.sharepoint.com/sites/eng".
  split; [reflexivity|]. split; [exists "sites/eng"; reflexivity|].
  split; [exists "https://contoso.sharepoint.com", "eng"; reflexivity|].
  simpl.
  repeat (constructor; [first [left; reflexivity | right; reflexivity]|]).
  constructor.
Defined.

Lemma tenant_sites_processed_once_witness :
  exists l,
    SharepointClient.get_ingest_docs_body (H := Sample.externals) (H0 := Cases.lib)
      None Cases.admin_client Sample.world
    = SharepointClient.ingest_sites (H := Sample.externals) (H0 := Cases.lib)
        None Cases.admin_client l [] Sample.world
    /\ NoDup l
    /\ In (Some Cases.tenant_base) l.
Proof.
  destruct (tenant_sites_processed_once (H := Sample.externals) (H0 := Cases.lib)
              None Cases.admin_client Cases.tenant_base
              [mkSiteProperties (Some "https://contoso.sharepoint.com/sites/eng")
                 (Some "00000000-0000-0000-0000-000000000000");
               mkSiteProperties (Some "https://contoso.sharepoint.com/sites/team")
                 (Some "3f2504e0-4f89-11d3-9a0c-0305e82c3301");
               mkSiteProperties (Some "https://contoso.sharepoint.com/sites/eng") None;
               mkSiteProperties None None]
              Sample.world remove_dups_set_like eq_refl eq_refl eq_refl)
    as (l & Hrun & Hnd & Hin).
  exists l. split; [exact Hrun|]. split; [exact Hnd|].
  apply Hin. left. reflexivity.
Defined.

Lemma setup_client_accepts_iff_witness :
  (exists st, SharepointClient._setup_client (H := Sample.externals) (H0 := Cases.lib)
                Cases.admin_connector Sample.world = (Ok st, Sample.world))
  /\ SharepointClient._setup_client (H := Sample.externals) (H0 := Cases.lib)
       (SharepointConnector.mk Sample.standard_config
          (SimpleSharepointConfig.mk (Some "app-id") (Some "secret")
             (Some "https://contoso-admin.sharepoint.com") "Shared Documents"
             true false false))
       Sample.world
     = (Raise (ValueError SharepointClient.admin_url_msg), Sample.world).
Proof.
  split.
  - apply (proj1 (setup_client_accepts_iff (H := Sample.externals) (H0 := Cases.lib)
                    Cases.admin_connector Sample.world eq_refl eq_refl)).
    split; [|reflexivity].
    exists "contoso-admin". split; [reflexivity|].
    split; [right; exists "sharepoint.com"; reflexivity|].
    right. exists "contoso". reflexivity.
  - apply (proj2 (setup_client_accepts_iff (H := Sample.externals) (H0 := Cases.lib)
                    (SharepointConnector.mk Sample.standard_config
                       (SimpleSharepointConfig.mk (Some "app-id") (Some "secret")
                          (Some "https://contoso-admin.sharepoint.com")
                          "Shared Documents" true false false))
                    Sample.world eq_refl eq_refl)).
    discriminate.
Defined.

Lemma setup_client_base_site_url_witness :
  SharepointClient._setup_client (H := Sample.externals) (H0 := Cases.lib)
    Cases.admin_connector Sample.world
  = (Ok Cases.admin_client, Sample.world).
Proof.
  apply (setup_client_base_site_url (H := Sample.externals) (H0 := Cases.lib)
           Cases.admin_connector Sample.world "contoso" ".sharepoint.com").
  - reflexivity.
  - reflexivity.
  - reflexivity.
  - reflexivity.
  - right. exists "sharepoint.com". reflexivity.
  - reflexivity.
  - reflexivity.
  - reflexivity.
Defined.

Lemma get_page_keeps_other_entries_witness :
  fs (snd (SharepointIngestDoc._get_page (H := Sample.externals)
             (Sample.doc Sample.broken_page (Some Sample.home_meta))
             Sample.cached_world))
  = fs Sample.cached_world.
Proof.
  apply (proj2 (proj2 (get_page_keeps_other_entries (H := Sample.externals)
                         (Sample.doc Sample.broken_page (Some Sample.home_meta))
                         Sample.cached_world))
           (ClientRequestException 500)).
  reflexivity.
Defined.

Lemma single_site_connector_witness :
  exists self,
    SharepointClient.__init__ (H := Sample.externals) (H0 := Cases.lib)
      Sample.standard_config (Sample.config false false) Sample.world
    = (Ok self, Sample.world)
    /\ SharepointClient.base_site_url self = None.
Proof.
  destruct (single_site_connector (H := Sample.externals) (H0 := Cases.lib) None
              Sample.standard_config (Sample.config false false) Sample.world
              eq_refl eq_refl)
    as (self & Hinit & _ & Hbase & _).
  exists self. split; [exact Hinit | exact Hbase].
Defined.
